(** * Wallet SDK: Ethereum and Sui wallet front ends

    A shallow embedding of [EthWallet.ts] (class [EthWallet]) and of the Sui
    wallet that follows it in the same source unit (class [SuiWallet]),
    together with the codec helpers the two classes call. *)

From Stdlib Require Import List String Ascii Strings.Byte NArith ZArith Bool Lia.
From Stdlib Require DecimalString DecimalN.
Import ListNotations.
Local Open Scope string_scope.
Local Open Scope list_scope.

(* ------------------------------------------------------------------ *)
(** ** Byte strings and hex text *)
(* ------------------------------------------------------------------ *)

Definition bytes := list byte.

Definition byte_of_N (n : N) : byte :=
  match Byte.of_N (n mod 256) with
  | Some b => b
  | None => x00
  end.

(** Lower-case hex digit of a nibble, as [Number.prototype.toString(16)] and
    [Buffer.toString('hex')] print it. *)
Definition hexdigit (n : N) : ascii :=
  ascii_of_N (if (n <? 10)%N then 48 + n else 87 + n)%N.

(** Value of a hex digit, either case. *)
Definition hexval (c : ascii) : option N :=
  let n := N_of_ascii c in
  if ((48 <=? n) && (n <=? 57))%N then Some (n - 48)%N
  else if ((97 <=? n) && (n <=? 102))%N then Some (n - 87)%N
  else if ((65 <=? n) && (n <=? 70))%N then Some (n - 55)%N
  else None.

Definition byte_hex (b : byte) : list ascii :=
  let n := Byte.to_N b in [hexdigit (n / 16); hexdigit (n mod 16)].

Definition hex_body (bs : bytes) : list ascii := flat_map byte_hex bs.

Fixpoint hexvals (cs : list ascii) : option (list N) :=
  match cs with
  | [] => Some []
  | c :: cs' =>
      match hexval c, hexvals cs' with
      | Some d, Some ds => Some (d :: ds)
      | _, _ => None
      end
  end.

Fixpoint pair_up (ds : list N) : bytes :=
  match ds with
  | hi :: lo :: rest => byte_of_N (16 * hi + lo) :: pair_up rest
  | _ => []
  end.

(** Big-endian value of a digit list in base 16, and of a byte string. *)
Definition digits_value (ds : list N) : N :=
  fold_left (fun acc d => 16 * acc + d)%N ds 0%N.

Definition bytes_value (bs : bytes) : N :=
  fold_left (fun acc b => 256 * acc + Byte.to_N b)%N bs 0%N.

(** JavaScript [String.prototype.slice(2)]: the text after the first two
    characters, empty when there are fewer. *)
Definition slice2 (s : string) : string :=
  match s with
  | String _ (String _ rest) => rest
  | _ => EmptyString
  end.

(* ------------------------------------------------------------------ *)
(** ** Exceptions and promises *)
(* ------------------------------------------------------------------ *)

(** The error constants the two classes import from [@okxweb3/coin-base]. *)
Inductive WalletError : Type :=
| NewAddressError
| SignTxError
| SignMsgError
| CalcTxHashError
| GenPrivateKeyError
| GetMpcRawTransactionError
| GetMpcTransactionError
| GetHardwareRawTransactionError
| GetHardwareSignedTransactionError
| validSignedTransactionError.

(** What a [throw] or a rejected promise carries: one of the constants above,
    or a raw [Error] object made by [Error(msg)] here or in a library. *)
Inductive thrown : Type :=
| Typed (e : WalletError)
| RawError (msg : string).

Inductive Promise (A : Type) : Type :=
| Resolved (a : A)
| Rejected (e : thrown).
Arguments Resolved {A} a.
Arguments Rejected {A} e.

Definition is_typed (e : thrown) : bool :=
  match e with Typed _ => true | RawError _ => false end.

(** Result of a call that may throw. *)
Definition result (A : Type) : Type := (thrown + A)%type.
Definition Ok {A} (a : A) : result A := inr a.
Definition Throw {A} (e : thrown) : result A := inl e.

(* ------------------------------------------------------------------ *)
(** ** Codec helpers of [./sdk/ethereumjs-util] and [@okxweb3/crypto-lib] *)
(* ------------------------------------------------------------------ *)

(** Modelled from the spec: [hexToBytes] of [./sdk/ethereumjs-util] (not part
    of this source unit), the hex helper that converts 0x-prefixed hex text
    to raw bytes.  The input must be [0x] followed by hex digits; a body of
    odd length is left-padded with one zero nibble. *)
Definition hexToBytes (hex : string) : result bytes :=
  match hex with
  | String "0" (String "x" body) =>
      match hexvals (list_ascii_of_string body) with
      | Some ds =>
          Ok (pair_up (if Nat.even (List.length ds) then ds else 0%N :: ds))
      | None => Throw (RawError "Input must be a 0x-prefixed hexadecimal string")
      end
  | _ => Throw (RawError "Input must be a 0x-prefixed hexadecimal string")
  end.

(** Modelled from the spec: [bytesToHex] of [./index] and [base.toHex(_, true)]
    of [@okxweb3/crypto-lib]: raw bytes to 0x-prefixed lower-case hex text. *)
Definition bytesToHex (bs : bytes) : string :=
  String "0" (String "x" (string_of_list_ascii (hex_body bs))).

Definition base_toHex (bs : bytes) (addPrefix : bool) : string :=
  if addPrefix then bytesToHex bs else string_of_list_ascii (hex_body bs).

(** Modelled from the spec: [unpadBytes] / [unpadBuffer]
    ([stripLeadingZeroBytes]): drops the leading zero bytes. *)
Fixpoint unpadBytes (bs : bytes) : bytes :=
  match bs with
  | x00 :: rest => unpadBytes rest
  | _ => bs
  end.

Definition unpadBuffer : bytes -> bytes := unpadBytes.

Definition concatBytes (a b : bytes) : bytes := a ++ b.

(** Minimal big-endian bytes of a number (empty for zero). *)
Fixpoint be_bytes_fuel (fuel : nat) (n : N) (acc : bytes) : bytes :=
  match fuel with
  | O => acc
  | S f =>
      if (n =? 0)%N then acc
      else be_bytes_fuel f (n / 256)%N (byte_of_N (n mod 256) :: acc)
  end.

Definition be_bytes (n : N) : bytes :=
  be_bytes_fuel (S (N.to_nat (N.log2 n))) n [].

(** Input of [RLP.encode]: a byte string or a list of inputs. *)
Inductive rlp_input : Type :=
| RBytes (b : bytes)
| RList (items : list rlp_input).

(** Modelled from the spec: [encodeLength] of the RLP codec: lengths 0-55
    take the short form, longer ones the long form with a length-of-length
    byte. *)
Definition rlp_encodeLength (len : nat) (offset : N) : bytes :=
  if (len <? 56)%nat then [byte_of_N (N.of_nat len + offset)]
  else
    let hexLength := be_bytes (N.of_nat len) in
    byte_of_N (offset + 55 + N.of_nat (List.length hexLength)) :: hexLength.

(** Modelled from the spec: [RLP.encode] of [./sdk/ethereumjs-util]. *)
Fixpoint rlp_encode (input : rlp_input) : bytes :=
  match input with
  | RBytes b =>
      match b with
      | [x] => if (Byte.to_N x <? 128)%N then [x]
               else rlp_encodeLength 1 128 ++ b
      | _ => rlp_encodeLength (List.length b) 128 ++ b
      end
  | RList items =>
      let output :=
        (fix encode_items (l : list rlp_input) : bytes :=
           match l with
           | [] => []
           | i :: l' => rlp_encode i ++ encode_items l'
           end) items in
      rlp_encodeLength (List.length output) 192 ++ output
  end.

(** Modelled from the spec: [assertBufferLength] of [@okxweb3/coin-base]:
    throws unless the buffer has exactly the given length. *)
Definition assertBufferLength (buf : bytes) (len : nat) : result unit :=
  if (List.length buf =? len)%nat then Ok tt
  else Throw (RawError "buffer length is illegal").

(* ------------------------------------------------------------------ *)
(** ** JavaScript values of the loosely typed parameters *)
(* ------------------------------------------------------------------ *)

(** A field of [param.data] (declared [any]): absent, a boolean, a number, a
    string or a [BigNumber] object of the library type [B]. *)
Inductive jsval (B : Type) : Type :=
| JUndefined
| JBool (b : bool)
| JNumber (z : Z)
| JString (s : string)
| JBig (n : B).
Arguments JUndefined {B}.
Arguments JBool {B} b.
Arguments JNumber {B} z.
Arguments JString {B} s.
Arguments JBig {B} n.

Definition str_nonempty (s : string) : bool :=
  match s with EmptyString => false | _ => true end.

(** Truthiness, as [if (x)], [!x] and [x || y] test it. *)
Definition truthy {B} (v : jsval B) : bool :=
  match v with
  | JUndefined => false
  | JBool b => b
  | JNumber z => negb (z =? 0)%Z
  | JString s => str_nonempty s
  | JBig _ => true
  end.

Definition truthy_str (s : option string) : bool :=
  match s with Some t => str_nonempty t | None => false end.

(** [x || y] *)
Definition js_or {B} (x y : jsval B) : jsval B := if truthy x then x else y.

(** [x === n] for a number literal [n]. *)
Definition strict_eq_number {B} (x : jsval B) (n : Z) : bool :=
  match x with JNumber z => (z =? n)%Z | _ => false end.

(* ------------------------------------------------------------------ *)
(** ** Data model *)
(* ------------------------------------------------------------------ *)

Record AuthorizationListItem : Type := {
  chainId : string;
  address : string;
  nonce : string;
  yParity : string;
  r : string;
  s : string
}.

(** The object handed to [eth.signTransaction]: one shape per branch of
    [EthWallet.signTransaction]. *)
Inductive TxData : Type :=
| LegacyTx (nonce gasPrice gasLimit : string) (to : option string)
    (value : string) (data : option string) (chainId : string) (type : Z)
| FeeMarketTx (nonce gasLimit : string) (to : option string)
    (value : string) (data : option string) (chainId : string) (type : Z)
    (maxPriorityFeePerGas maxFeePerGas : string)
| DelegatedAuthTx (nonce gasLimit : string) (to : option string)
    (value : string) (data : option string) (chainId : string) (type : Z)
    (maxPriorityFeePerGas maxFeePerGas : string)
    (authorizationList : list AuthorizationListItem).

Definition tx_to (t : TxData) : option string :=
  match t with
  | LegacyTx _ _ _ to _ _ _ _ => to
  | FeeMarketTx _ _ to _ _ _ _ _ _ => to
  | DelegatedAuthTx _ _ to _ _ _ _ _ _ _ => to
  end.

Definition tx_value (t : TxData) : string :=
  match t with
  | LegacyTx _ _ _ _ v _ _ _ => v
  | FeeMarketTx _ _ _ v _ _ _ _ _ => v
  | DelegatedAuthTx _ _ _ v _ _ _ _ _ _ => v
  end.

Definition tx_data (t : TxData) : option string :=
  match t with
  | LegacyTx _ _ _ _ _ d _ _ => d
  | FeeMarketTx _ _ _ _ d _ _ _ _ => d
  | DelegatedAuthTx _ _ _ _ d _ _ _ _ _ => d
  end.

Definition tx_type (t : TxData) : Z :=
  match t with
  | LegacyTx _ _ _ _ _ _ _ ty => ty
  | FeeMarketTx _ _ _ _ _ _ ty _ _ => ty
  | DelegatedAuthTx _ _ _ _ _ _ ty _ _ _ => ty
  end.

(** What [ecdsaSign] returns. *)
Record EcdsaSignature : Type := {
  sig_v : Z;
  sig_r : bytes;
  sig_s : bytes
}.

(** What [eth.signTransaction] returns: the signed transaction as hex text
    when a key is given, the unsigned context otherwise.  The wallet hands the
    unsigned context ([raw], [serializeRaw]) on without looking inside, so
    its representation [R] is left to the library. *)
Inductive SignOutput (R : Type) : Type :=
| SignedHex (signedTx : string)
| UnsignedRaw (raw : R) (hash : string) (serializeRaw : R).
Arguments SignedHex {R} signedTx.
Arguments UnsignedRaw {R} raw hash serializeRaw.

(** [x.raw], [x.hash], [x.serializeRaw] on such a value ([undefined] on a
    string). *)
Definition out_raw {R} (o : SignOutput R) : option R :=
  match o with UnsignedRaw raw _ _ => Some raw | SignedHex _ => None end.
Definition out_hash {R} (o : SignOutput R) : option string :=
  match o with UnsignedRaw _ hash _ => Some hash | SignedHex _ => None end.
Definition out_serializeRaw {R} (o : SignOutput R) : option R :=
  match o with UnsignedRaw _ _ sr => Some sr | SignedHex _ => None end.

Record MpcRaw (R : Type) : Type := {
  mpc_raw : option R;
  mpc_hash : option string
}.
Arguments mpc_raw {R} _.
Arguments mpc_hash {R} _.

Record MpcTransactionParam (R : Type) : Type := {
  mp_raw : option R;
  mp_sigs : string;
  mp_publicKey : option string
}.
Arguments mp_raw {R} _.
Arguments mp_sigs {R} _.
Arguments mp_publicKey {R} _.

Record HardwareRawTransactionParam (R : Type) : Type := {
  hw_raw : option R;
  hw_r : option string;
  hw_s : option string;
  hw_v : option string
}.
Arguments hw_raw {R} _.
Arguments hw_r {R} _.
Arguments hw_s {R} _.
Arguments hw_v {R} _.

(** Sui side. *)
Record SuiObjectRef : Type := {
  objectId : string;
  version : string;
  digest : string
}.

Record PaySuiTransaction : Type := {
  inputCoins : option (list SuiObjectRef);
  recipient : string;
  amount : string;
  gasBudget : string;
  gasPrice : string;
  epoch : option Z
}.

(** [SuiSignData.data]: [string | PaySuiTransaction]. *)
Inductive SuiPayload : Type :=
| PayloadString (s : string)
| PayloadPaySui (p : PaySuiTransaction).

Record SuiSignData : Type := {
  sd_type : string;
  sd_data : SuiPayload
}.

Inductive TxCommand : Type :=
| SplitCoins (amount : Z)
| TransferObjects (recipient : string).

(** The mutable [TransactionBlock] under construction. *)
Record TransactionBlock : Type := {
  tb_gasPrice : option Z;
  tb_gasBudget : option Z;
  tb_expiration : option Z;
  tb_gasPayment : list SuiObjectRef;
  tb_sender : option string;
  tb_commands : list TxCommand
}.

Definition new_TransactionBlock : TransactionBlock :=
  {| tb_gasPrice := None; tb_gasBudget := None; tb_expiration := None;
     tb_gasPayment := []; tb_sender := None; tb_commands := [] |}.

Record ValidAddressData : Type := {
  isValid : bool;
  va_address : string
}.

(* ------------------------------------------------------------------ *)
(** ** The libraries behind the wallets *)
(* ------------------------------------------------------------------ *)

(** The functions of [./index], [@okxweb3/crypto-lib] and the Sui SDK that
    the two classes call and whose code is elsewhere.  [World] is whatever
    ambient state a signing call may read or advance (an entropy source, a
    clock); the other functions are pure but may throw.  The signer methods
    [getAddress] and [signTransactionBlock] are [async]: for them a failure
    stands for the rejection of the promise they return, and [RawTx] is the
    unsigned context of a split signing, which the wallet passes on without
    looking inside. *)
Class Libraries : Type := {
  World : Type;
  RawTx : Type;
  BigNumber : Type;
  SuiKeypair : Type;
  SuiSigned : Type;
  SerializedTx : Type;
  new_BigNumber : jsval BigNumber -> result BigNumber;
  base_toBigIntHex : BigNumber -> result string;
  base_fromHex : string -> result bytes;
  base_fromBase64 : SuiPayload -> result bytes;
  abi_RawEncode : option string -> string -> result bytes;
  eth_keccak256 : bytes -> bytes;
  eth_ecdsaSign : bytes -> bytes -> World -> result EcdsaSignature * World;
  eth_signTransaction :
    option string -> TxData -> World -> result (SignOutput RawTx) * World;
  eth_getMPCTransaction :
    option RawTx -> string -> option string -> result string;
  eth_getSignedTransaction :
    option RawTx -> option string -> option string -> option string ->
    result string;
  TransactionFactory_fromSerializedData : bytes -> result SerializedTx;
  tx_hash : SerializedTx -> result bytes;
  tryDecodeSuiPrivateKey : string -> result string;
  Ed25519Keypair_fromSeed : bytes -> result SuiKeypair;
  signer_getAddress : SuiKeypair -> result string;
  signer_signTransactionBlock :
    SuiKeypair -> bytes -> World -> result SuiSigned * World;
  js_BigInt : string -> result Z;
  tx_build : TransactionBlock -> result bytes;
  getDigestFromBytes : bytes -> result string
}.

(* ------------------------------------------------------------------ *)
(** ** Control flow: exceptions, call log, promises *)
(* ------------------------------------------------------------------ *)

Section Control.
Context {L : Libraries}.

(** Library calls worth observing: each signing, assembling and building
    call leaves one entry in the call log. *)
Inductive Call : Type :=
| CallEcdsaSign (msgHash privateKey : bytes)
| CallSignTransaction (privateKey : option string) (txData : TxData)
| CallGetMPCTransaction (raw : option RawTx) (sigs : string)
    (publicKey : option string)
| CallGetSignedTransaction (raw : option RawTx) (r s v : option string)
| CallNewTransactionBlock
| CallBuild (tx : TransactionBlock)
| CallSignTransactionBlock (transactionBlock : bytes).

Record State : Type := { world : World; calls : list Call }.

(** A computation that returns or throws, and may call into the libraries. *)
Definition M (A : Type) : Type := State -> result A * State.

Definition ret {A} (a : A) : M A := fun st => (Ok a, st).

Definition throw {A} (e : thrown) : M A := fun st => (Throw e, st).

Definition bind {A B} (c : M A) (k : A -> M B) : M B :=
  fun st =>
    match c st with
    | (inr a, st') => k a st'
    | (inl e, st') => (inl e, st')
    end.

(** [try { c } catch (e) { h e }] *)
Definition try_catch {A} (c : M A) (h : thrown -> M A) : M A :=
  fun st =>
    match c st with
    | (inr a, st') => (inr a, st')
    | (inl e, st') => h e st'
    end.

(** A pure library call that may throw. *)
Definition lift {A} (x : result A) : M A := fun st => (x, st).

(** A logged library call that reads and advances the world. *)
Definition call {A} (ev : Call) (f : World -> result A * World) : M A :=
  fun st =>
    let (x, w') := f (world st) in
    (x, {| world := w'; calls := calls st ++ [ev] |}).

(** A logged library call that leaves the world alone. *)
Definition call_pure {A} (ev : Call) (x : result A) : M A :=
  fun st => (x, {| world := world st; calls := calls st ++ [ev] |}).

(** A call of an [async] method (or of a method that returns a promise on
    every path): it always yields a promise. *)
Definition Async (A : Type) : Type := State -> Promise A * State.

(** The body of an [async] method either returns a promise ([Promise.resolve],
    [Promise.reject]) or throws; a throw that escapes rejects the promise. *)
Definition async {A} (body : M (Promise A)) : Async A :=
  fun st =>
    match body st with
    | (inr p, st') => (p, st')
    | (inl e, st') => (Rejected e, st')
    end.

(** [await p] *)
Definition await {A} (p : Async A) : M A :=
  fun st =>
    match p st with
    | (Resolved a, st') => (Ok a, st')
    | (Rejected e, st') => (Throw e, st')
    end.

(** A promise handed back as it is, [Promise.resolve(p)], or through a
    chain [p.then(f).catch(err => Promise.reject(err))], where [p] comes from
    an [async] method of the signer: a rejection anywhere is the rejection
    of the result, passed on as it is; nothing is thrown to the enclosing
    [try]. *)
Definition promise_chain {A} (c : M A) : M (Promise A) :=
  fun st =>
    match c st with
    | (inr a, st') => (Ok (Resolved a), st')
    | (inl err, st') => (Ok (Rejected err), st')
    end.

End Control.

Declare Scope wallet_scope.
Delimit Scope wallet_scope with wallet.
Notation "x <- c ;; k" := (bind c (fun x => k))
  (at level 61, c at next level, right associativity) : wallet_scope.
Notation "' pat <- c ;; k" :=
  (bind c (fun x => match x with pat => k end))
  (at level 61, pat pattern, c at next level, right associativity)
  : wallet_scope.
Notation "c ;;; k" := (bind c (fun _ => k))
  (at level 61, right associativity) : wallet_scope.
Local Open Scope wallet_scope.

(* ------------------------------------------------------------------ *)
(** ** class EthWallet *)
(* ------------------------------------------------------------------ *)

Module EthWallet.
Section Methods.
Context {L : Libraries}.

Definition TOKEN_TRANSFER_FUNCTION_SIGNATURE : string := "0xa9059cbb".

(** [param.data] of [signTransaction], before normalization. *)
Record TxInput : Type := {
  d_to : option string;
  d_value : jsval BigNumber;
  d_nonce : jsval BigNumber;
  d_contractAddress : option string;
  d_gasPrice : jsval BigNumber;
  d_gasLimit : jsval BigNumber;
  d_data : option string;
  d_chainId : jsval BigNumber;
  d_type : jsval BigNumber;
  d_maxPriorityFeePerGas : jsval BigNumber;
  d_maxFeePerGas : jsval BigNumber;
  d_authorizationList : option (list AuthorizationListItem);
  d_useValue : jsval BigNumber
}.

(** [EthTxParams] *)
Record EthTxParams : Type := {
  tp_to : option string;
  tp_value : string;
  tp_nonce : string;
  tp_contractAddress : option string;
  tp_gasPrice : string;
  tp_gasLimit : string;
  tp_data : option string;
  tp_chainId : string;
  tp_type : jsval BigNumber;
  tp_maxPriorityFeePerGas : string;
  tp_maxFeePerGas : string;
  tp_authorizationList : list AuthorizationListItem;
  tp_useValue : jsval BigNumber
}.

Record SignTxParams (D : Type) : Type := {
  privateKey : option string;
  data : D
}.
Arguments privateKey {D} _.
Arguments data {D} _.

(** [param.data] of [signAuthorizationListItem]: the three fields it
    destructures, and whatever else the object carries. *)
Record AuthInput : Type := {
  ad_chainId : string;
  ad_nonce : option string;
  ad_address : string;
  ad_other : list (string * string)
}.

Definition convert2HexString (data : jsval BigNumber) : M string :=
  n <- match data with
       | JBig n => ret n
       | _ => lift (new_BigNumber data)
       end ;;
  lift (base_toBigIntHex n).

Definition convert2TxParam (data : TxInput) : M EthTxParams :=
  value <- convert2HexString (js_or (d_value data) (JNumber 0)) ;;
  nonce <- convert2HexString (d_nonce data) ;;
  gasPrice <- convert2HexString (js_or (d_gasPrice data) (JNumber 0)) ;;
  gasLimit <- convert2HexString (js_or (d_gasLimit data) (JNumber 0)) ;;
  chainId <- convert2HexString (js_or (d_chainId data) (JNumber 1)) ;;
  maxPriorityFeePerGas <-
    convert2HexString (js_or (d_maxPriorityFeePerGas data) (JNumber 0)) ;;
  maxFeePerGas <- convert2HexString (js_or (d_maxFeePerGas data) (JNumber 0)) ;;
  ret {| tp_to := d_to data;
         tp_value := value;
         tp_nonce := nonce;
         tp_contractAddress := d_contractAddress data;
         tp_gasPrice := gasPrice;
         tp_gasLimit := gasLimit;
         tp_data := d_data data;
         tp_chainId := chainId;
         tp_type := js_or (d_type data) (JNumber 0);
         tp_maxPriorityFeePerGas := maxPriorityFeePerGas;
         tp_maxFeePerGas := maxFeePerGas;
         tp_authorizationList :=
           match d_authorizationList data with Some l => l | None => [] end;
         tp_useValue := js_or (d_useValue data) (JBool false) |}.

(** [x.toString(16)] for a byte [x]. *)
Definition toString16 (x : byte) : list ascii :=
  let n := Byte.to_N x in
  if (n <? 16)%N then [hexdigit n] else [hexdigit (n / 16); hexdigit (n mod 16)].

(** [`00${t}`.slice(-2)]: the last two characters of ["00"] followed by [t]. *)
Definition pad00_slice2 (t : list ascii) : list ascii :=
  let padded := "0"%char :: "0"%char :: t in
  skipn (List.length padded - 2) padded.

(** [TOKEN_TRANSFER_FUNCTION_SIGNATURE + Array.prototype.map.call(
       abi.RawEncode(['address', 'uint256'], [toAddress, value]),
       x => `00${x.toString(16)}`.slice(-2)).join('')] *)
Definition transferData (toAddress : option string) (value : string)
  : M string :=
  encoded <- lift (abi_RawEncode toAddress value) ;;
  ret (TOKEN_TRANSFER_FUNCTION_SIGNATURE ++
       string_of_list_ascii
         (flat_map (fun x => pad00_slice2 (toString16 x)) encoded))%string.

Definition signTransaction (param : SignTxParams TxInput)
  : Async (SignOutput RawTx) :=
  async (try_catch
    (let privateKey := privateKey param in
     (if truthy_str privateKey then
        match privateKey with
        | Some pk => buf <- lift (base_fromHex pk) ;;
                     lift (assertBufferLength buf 32)
        | None => ret tt
        end
      else ret tt) ;;;
     txParams <- convert2TxParam (data param) ;;
     let chainId := tp_chainId txParams in
     let nonce := tp_nonce txParams in
     let type := tp_type txParams in
     if strict_eq_number type 0 || strict_eq_number type 1 then
       let gasPrice := tp_gasPrice txParams in
       let tokenAddress := tp_contractAddress txParams in
       let toAddress := tp_to txParams in
       let value := tp_value txParams in
       '(toAddress, value, data) <-
         (if truthy_str tokenAddress then
            data <- transferData toAddress value ;;
            let value := if negb (truthy (tp_useValue txParams))
                         then "0x0" else value in
            ret (tokenAddress, value, Some data)
          else ret (toAddress, value, tp_data txParams)) ;;
       let txData :=
         LegacyTx nonce gasPrice (tp_gasLimit txParams) toAddress value data
           chainId (if strict_eq_number type 0 then 0 else 1) in
       out <- call (CallSignTransaction privateKey txData)
                (eth_signTransaction privateKey txData) ;;
       ret (Resolved out)
     else if strict_eq_number type 2 then
       let tokenAddress := tp_contractAddress txParams in
       let toAddress := tp_to txParams in
       let value := tp_value txParams in
       '(toAddress, value, data) <-
         (if truthy_str tokenAddress then
            data <- transferData toAddress value ;;
            ret (tokenAddress, "0x0", Some data)
          else ret (toAddress, value, tp_data txParams)) ;;
       let txData :=
         FeeMarketTx nonce (tp_gasLimit txParams) toAddress value data
           chainId 2 (tp_maxPriorityFeePerGas txParams)
           (tp_maxFeePerGas txParams) in
       out <- call (CallSignTransaction privateKey txData)
                (eth_signTransaction privateKey txData) ;;
       ret (Resolved out)
     else if strict_eq_number type 4 then
       let tokenAddress := tp_contractAddress txParams in
       let toAddress := tp_to txParams in
       let value := tp_value txParams in
       '(toAddress, value, data) <-
         (if truthy_str tokenAddress then
            data <- transferData toAddress value ;;
            ret (tokenAddress, "0x0", Some data)
          else ret (toAddress, value, tp_data txParams)) ;;
       let txData :=
         DelegatedAuthTx nonce (tp_gasLimit txParams) toAddress value data
           chainId 4 (tp_maxPriorityFeePerGas txParams)
           (tp_maxFeePerGas txParams) (tp_authorizationList txParams) in
       out <- call (CallSignTransaction privateKey txData)
                (eth_signTransaction privateKey txData) ;;
       ret (Resolved out)
     else ret (Rejected (Typed SignTxError)))
    (fun _ => ret (Rejected (Typed SignTxError)))).

Definition signAuthorizationListItem (param : SignTxParams AuthInput)
  : Async AuthorizationListItem :=
  async
    (match privateKey param with
     | Some pk =>
         if negb (str_nonempty pk) then throw (RawError "privateKey is invalid")
         else
           privateKey <- lift (base_fromHex pk) ;;
           (buf <- lift (base_fromHex pk) ;; lift (assertBufferLength buf 32)) ;;;
           let chainId := ad_chainId (data param) in
           let nonce := ad_nonce (data param) in
           let address := ad_address (data param) in
           chainIdBytes <- (b <- lift (hexToBytes chainId) ;; ret (unpadBytes b)) ;;
           nonceBytes <-
             match nonce with
             | Some n => b <- lift (hexToBytes n) ;; ret (unpadBytes b)
             | None => ret []
             end ;;
           addressBytes <- lift (hexToBytes address) ;;
           let rlpdMsg :=
             rlp_encode
               (RList [RBytes chainIdBytes; RBytes addressBytes;
                       RBytes nonceBytes]) in
           let msgToSign := eth_keccak256 (concatBytes [x05] rlpdMsg) in
           signed <- call (CallEcdsaSign msgToSign privateKey)
                       (eth_ecdsaSign msgToSign privateKey) ;;
           let auth :=
             {| chainId := bytesToHex chainIdBytes;
                address := address;
                nonce := bytesToHex nonceBytes;
                yParity := if (sig_v signed - 27 =? 0)%Z then "0x" else "0x1";
                r := base_toHex (unpadBuffer (sig_r signed)) true;
                s := base_toHex (unpadBuffer (sig_s signed)) true |} in
           ret (Resolved auth)
     | None => throw (RawError "privateKey is invalid")
     end).

(** [body.replace(/^0+/, '')] *)
Fixpoint strip_leading_zeros (body : string) : string :=
  match body with
  | String "0" rest => strip_leading_zeros rest
  | _ => body
  end.

Definition toRpcHex (hex : string) : string :=
  let body := slice2 hex in
  let trimmedBody :=
    let t := strip_leading_zeros body in
    if str_nonempty t then t else "0" in
  ("0x" ++ trimmedBody)%string.

Definition toRpcAuth (auth : AuthorizationListItem) : AuthorizationListItem :=
  {| chainId := toRpcHex (chainId auth);
     address := address auth;
     nonce := toRpcHex (nonce auth);
     yParity := toRpcHex (yParity auth);
     r := toRpcHex (r auth);
     s := toRpcHex (s auth) |}.

Definition signAuthorizationListItemForRPC (param : SignTxParams AuthInput)
  : Async AuthorizationListItem :=
  async (auth <- await (signAuthorizationListItem param) ;;
         ret (Resolved (toRpcAuth auth))).

Definition getMPCRawTransaction (param : SignTxParams TxInput)
  : Async (MpcRaw RawTx) :=
  async (try_catch
    (mpcRaw <- await (signTransaction param) ;;
     ret (Resolved {| mpc_raw := out_raw mpcRaw;
                      mpc_hash := out_hash mpcRaw |}))
    (fun _ => ret (Rejected (Typed GetMpcRawTransactionError)))).

Definition getMPCTransaction (param : MpcTransactionParam RawTx)
  : Async string :=
  async (try_catch
    (signedTx <-
       call_pure
         (CallGetMPCTransaction (mp_raw param) (mp_sigs param)
            (mp_publicKey param))
         (eth_getMPCTransaction (mp_raw param) (mp_sigs param)
            (mp_publicKey param)) ;;
     ret (Resolved signedTx))
    (fun _ => ret (Rejected (Typed GetMpcTransactionError)))).

Definition getHardWareRawTransaction (param : SignTxParams TxInput)
  : Async (option RawTx) :=
  async (try_catch
    (rawTx <- await (signTransaction param) ;;
     ret (Resolved (out_serializeRaw rawTx)))
    (fun _ => ret (Rejected (Typed GetHardwareRawTransactionError)))).

Definition getHardWareSignedTransaction
  (param : HardwareRawTransactionParam RawTx) : Async string :=
  async (try_catch
    (signedTx <-
       call_pure
         (CallGetSignedTransaction (hw_raw param) (hw_r param) (hw_s param)
            (hw_v param))
         (eth_getSignedTransaction (hw_raw param) (hw_r param) (hw_s param)
            (hw_v param)) ;;
     ret (Resolved signedTx))
    (fun _ => ret (Rejected (Typed GetHardwareSignedTransactionError)))).

Definition calcTxHash (param_data : string) : Async string :=
  async (serializedData <- lift (base_fromHex param_data) ;;
         signedTx <- lift (TransactionFactory_fromSerializedData serializedData) ;;
         h <- lift (tx_hash signedTx) ;;
         ret (Resolved (base_toHex h true))).

End Methods.
Arguments privateKey {D} _.
Arguments data {D} _.
End EthWallet.

(* ------------------------------------------------------------------ *)
(** ** class SuiWallet *)
(* ------------------------------------------------------------------ *)

Module SuiWallet.
Section Methods.
Context {L : Libraries}.

Record SignTxParams : Type := {
  privateKey : string;
  data : SuiSignData
}.

(** [s.inputCoins == undefined || s.inputCoins.length == 0], where [s] is
    [data.data] read as a [PaySuiTransaction]. *)
Definition inputCoins_missing (payload : SuiPayload) : bool :=
  match payload with
  | PayloadPaySui p =>
      match inputCoins p with
      | None => true
      | Some l => (List.length l =? 0)%nat
      end
  | PayloadString _ => true
  end.

Definition epoch_truthy (e : option Z) : bool :=
  match e with Some z => negb (z =? 0)%Z | None => false end.

Definition signTransaction (param : SignTxParams) : Async SuiSigned :=
  async (try_catch
    (let data := data param in
     keyPair <- (k <- lift (tryDecodeSuiPrivateKey (privateKey param)) ;;
                 seed <- lift (base_fromHex k) ;;
                 lift (Ed25519Keypair_fromSeed seed)) ;;
     if String.eqb (sd_type data) "raw" then
       d <- lift (base_fromBase64 (sd_data data)) ;;
       promise_chain
         (call (CallSignTransactionBlock d)
            (signer_signTransactionBlock keyPair d))
     else if String.eqb (sd_type data) "paySUI" then
       tx <- call_pure CallNewTransactionBlock (Ok new_TransactionBlock) ;;
       if inputCoins_missing (sd_data data) then
         ret (Rejected (Typed SignTxError))
       else
         match sd_data data with
         | PayloadString _ => ret (Rejected (Typed SignTxError))
         | PayloadPaySui s =>
             gp <- lift (js_BigInt (gasPrice s)) ;;
             let tx := {| tb_gasPrice := Some gp;
                          tb_gasBudget := tb_gasBudget tx;
                          tb_expiration := tb_expiration tx;
                          tb_gasPayment := tb_gasPayment tx;
                          tb_sender := tb_sender tx;
                          tb_commands := tb_commands tx |} in
             gb <- lift (js_BigInt (gasBudget s)) ;;
             let tx := {| tb_gasPrice := tb_gasPrice tx;
                          tb_gasBudget := Some gb;
                          tb_expiration := tb_expiration tx;
                          tb_gasPayment := tb_gasPayment tx;
                          tb_sender := tb_sender tx;
                          tb_commands := tb_commands tx |} in
             let tx := {| tb_gasPrice := tb_gasPrice tx;
                          tb_gasBudget := tb_gasBudget tx;
                          tb_expiration :=
                            if epoch_truthy (epoch s) then epoch s
                            else tb_expiration tx;
                          tb_gasPayment :=
                            match inputCoins s with Some l => l | None => [] end;
                          tb_sender := tb_sender tx;
                          tb_commands := tb_commands tx |} in
             promise_chain
                 (sender <- lift (signer_getAddress keyPair) ;;
                  amt <- lift (js_BigInt (amount s)) ;;
                  let tx := {| tb_gasPrice := tb_gasPrice tx;
                               tb_gasBudget := tb_gasBudget tx;
                               tb_expiration := tb_expiration tx;
                               tb_gasPayment := tb_gasPayment tx;
                               tb_sender := Some sender;
                               tb_commands :=
                                 tb_commands tx ++
                                 [SplitCoins amt; TransferObjects (recipient s)]
                            |} in
                  transactionBlock <- call_pure (CallBuild tx) (tx_build tx) ;;
                  call (CallSignTransactionBlock transactionBlock)
                    (signer_signTransactionBlock keyPair transactionBlock))
         end
     else ret (Rejected (Typed SignTxError)))
    (fun _ => ret (Rejected (Typed SignTxError)))).

Definition validAddress (param_address : string) : Async ValidAddressData :=
  async
    (isValid <-
       try_catch
         (array <- lift (base_fromHex param_address) ;;
          ret (List.length array =? 32)%nat)
         (fun _ => ret false) ;;
     let data := {| isValid := isValid; va_address := param_address |} in
     ret (Resolved data)).

Definition calcTxHash (param_data : SuiPayload) : Async string :=
  async (try_catch
    (b <- lift (base_fromBase64 param_data) ;;
     hash <- lift (getDigestFromBytes b) ;;
     ret (Resolved hash))
    (fun _ => ret (Rejected (Typed CalcTxHashError)))).

End Methods.
End SuiWallet.

(* ------------------------------------------------------------------ *)
(** ** Vocabulary of the statements about [EthWallet.signTransaction] *)
(* ------------------------------------------------------------------ *)

Section Vocabulary.
Context {L : Libraries}.

(** The private-key check that opens [signTransaction] passes: there is no
    key, or the key decodes to exactly 32 bytes. *)
Definition key_check (pk : option string) : bool :=
  match pk with
  | Some k =>
      if str_nonempty k then
        match base_fromHex k with
        | inr buf => (List.length buf =? 32)%nat
        | inl _ => false
        end
      else true
  | None => true
  end.

(** [Promise.resolve(eth.signTransaction(privateKey, txData))] inside the
    [try] of [signTransaction]: the call is logged, and a throw becomes the
    rejection of the [catch] clause. *)
Definition run_signer (pk : option string) (tx : TxData)
  : Async (SignOutput RawTx) :=
  fun st =>
    match eth_signTransaction pk tx (world st) with
    | (inr out, w') =>
        (Resolved out,
         {| world := w'; calls := calls st ++ [CallSignTransaction pk tx] |})
    | (inl _, w') =>
        (Rejected (Typed SignTxError),
         {| world := w'; calls := calls st ++ [CallSignTransaction pk tx] |})
    end.

(** [c] neither touches the state nor depends on it. *)
Definition pure_as {A} (c : M A) (x : result A) : Prop :=
  forall st, c st = (x, st).

(** The transaction object [signTransaction] assembles for a normalized
    type [ty]. *)
Definition assembled (tp : EthWallet.EthTxParams) (ty : Z) (to : option string)
  (value : string) (data : option string) : TxData :=
  if ((ty =? 0) || (ty =? 1))%Z then
    LegacyTx (EthWallet.tp_nonce tp) (EthWallet.tp_gasPrice tp) (EthWallet.tp_gasLimit tp) to value data
      (EthWallet.tp_chainId tp) ty
  else if (ty =? 2)%Z then
    FeeMarketTx (EthWallet.tp_nonce tp) (EthWallet.tp_gasLimit tp) to value data (EthWallet.tp_chainId tp)
      ty (EthWallet.tp_maxPriorityFeePerGas tp) (EthWallet.tp_maxFeePerGas tp)
  else
    DelegatedAuthTx (EthWallet.tp_nonce tp) (EthWallet.tp_gasLimit tp) to value data
      (EthWallet.tp_chainId tp) ty (EthWallet.tp_maxPriorityFeePerGas tp) (EthWallet.tp_maxFeePerGas tp)
      (EthWallet.tp_authorizationList tp).

(** The normalized [type] is none of [0], [1], [2], [4]. *)
Definition unsupported (ty : jsval BigNumber) : Prop :=
  strict_eq_number ty 0 = false /\ strict_eq_number ty 1 = false /\
  strict_eq_number ty 2 = false /\ strict_eq_number ty 4 = false.

(** The shape of transaction object that goes with a normalized [type]. *)
Definition selected_shape (ty : jsval BigNumber) (tx : TxData) : Prop :=
  match tx with
  | LegacyTx _ _ _ _ _ _ _ t => (t = 0 \/ t = 1)%Z /\ ty = JNumber t
  | FeeMarketTx _ _ _ _ _ _ t _ _ => t = 2%Z /\ ty = JNumber 2
  | DelegatedAuthTx _ _ _ _ _ _ t _ _ _ => t = 4%Z /\ ty = JNumber 4
  end.

(** A promise that respects the boundary of an operation whose typed error
    is [err]: resolved, or rejected with exactly that error. *)
Definition boundary_ok {A} (err : WalletError) (p : Promise A) : Prop :=
  match p with
  | Resolved _ => True
  | Rejected e => e = Typed err
  end.

(** [c] is the byte string [b] without its leading zero bytes. *)
Definition stripped_of (b c : bytes) : Prop :=
  (exists k, b = repeat x00 k ++ c) /\ (forall t, c <> x00 :: t).

(** The value a hex text stands for, when it is [0x] followed by hex digits. *)
Definition hex_value (hex : string) : option N :=
  match hex with
  | String "0" (String "x" body) =>
      option_map digits_value (hexvals (list_ascii_of_string body))
  | _ => None
  end.

(** The two hex digits of a byte, as numbers. *)
Definition nibbles (x : byte) : list N :=
  [Byte.to_N x / 16; Byte.to_N x mod 16]%N.

(** What the RPC transformation may do to one hex field: the value it
    stands for stays; so do the bytes it decodes to, unless the field is the
    empty ["0x"], which becomes ["0x0"] and then decodes to one zero byte
    instead of none. *)
Definition rpc_preserves (before after : string) : Prop :=
  (exists n, hex_value before = Some n /\ hex_value after = Some n) /\
  (before <> "0x" -> hexToBytes after = hexToBytes before) /\
  (before = "0x" ->
   after = "0x0" /\ hexToBytes before = Ok [] /\ hexToBytes after = Ok [x00]).

End Vocabulary.

(* ------------------------------------------------------------------ *)
(** ** The signing pipeline behind the two-phase operations *)
(* ------------------------------------------------------------------ *)

(** The signature as a signed transaction carries it, and as a hardware
    signer supplies it: three hex texts. *)
Record TxSignature : Type := {
  ts_r : string;
  ts_s : string;
  ts_v : string
}.

(** Modelled from the spec: the signature of section 3 as the ECDSA signer
    of [./index] returns it, whose code is not part of this source unit: the
    two scalars and the recovery indicator, which is 0 or 1. *)
Record Signature : Type := {
  sg_r : string;
  sg_s : string;
  sg_yParity : bool
}.

(** Modelled from the spec: the signing pipeline of [./index]
    ([eth.signTransaction], [eth.getMPCTransaction],
    [eth.getSignedTransaction]), whose code is not part of this source unit.
    Section 4.4 gives it as the state machine
    Built(unsigned tx) -> Hashed(signing hash) -> Signed(signature) ->
    Serialized(signed tx).  Phase 1 of a split signing stops at Hashed and
    returns the hash with a context of the unsigned transaction, one for an
    MPC signer ([raw]) and one for a hardware signer ([serializeRaw]); phase
    2 gets the unsigned transaction back from the context.  The local signer
    signs the hash with the key; the ECDSA nonce is deterministic (section
    8), so its signature [ecdsa] is a function of the hash and the key and
    takes nothing from the ambient state.  In a signed transaction the
    recovery indicator appears as [v]: for the legacy shape it encodes the
    chain id and the indicator, for the newer shapes it is the indicator
    (section 3), hence [v_of].  An MPC signer hands over a text from which
    the two scalars are read ([mpc_signature]); [recover] is the recovery of
    the signer's public key from (hash, r, s, yParity) of section 4.5. *)
Class Pipeline : Type := {
  Ctx : Type;
  raw_of : TxData -> Ctx;
  serializeRaw_of : TxData -> Ctx;
  restore_raw : Ctx -> result TxData;
  restore_serializeRaw : Ctx -> result TxData;
  signing_hash : TxData -> string;
  ecdsa : string -> bytes -> Signature;
  v_of : TxData -> bool -> string;
  serialize_signed : TxData -> TxSignature -> string;
  public_key : bytes -> string;
  mpc_signature : string -> result (string * string);
  recover : string -> string -> string -> bool -> option string
}.

(** Modelled from the spec: the properties of the pipeline of [./index] that
    the spec states.  Phase 2 re-derives the hash from the original unsigned
    transaction of the context (section 4.4), so each context gives its
    transaction back (the round trip of section 8).  For a signature made
    with a key, recovery yields that key's public key (section 8, validator
    soundness, with the recovery of section 4.5).  The recovery indicator
    identifies which of two possible public keys produced a signature
    (glossary), so no public key is recovered under both indicators. *)
Class PipelineLaws (P : Pipeline) : Prop := {
  restore_raw_of : forall tx, restore_raw (raw_of tx) = Ok tx;
  restore_serializeRaw_of :
    forall tx, restore_serializeRaw (serializeRaw_of tx) = Ok tx;
  recover_signer :
    forall h key,
      recover h (sg_r (ecdsa h key)) (sg_s (ecdsa h key))
        (sg_yParity (ecdsa h key)) = Some (public_key key);
  recover_one :
    forall h r s pub,
      recover h r s false = Some pub -> recover h r s true = Some pub -> False
}.

Section PipelineLibraries.
Context (L0 : Libraries) (P : Pipeline).

(** Modelled from the spec: the signature embedded in a signed transaction
    of [./index]: the two scalars, and the recovery indicator in the form
    that goes with the transaction. *)
Definition embedded (tx : TxData) (r s : string) (yParity : bool)
  : TxSignature :=
  {| ts_r := r; ts_s := s; ts_v := v_of tx yParity |}.

(** Modelled from the spec: the Local backend of [./index]: the private key
    signs the hash directly and the signature is immediately embedded. *)
Definition local_signature (tx : TxData) (key : bytes) : TxSignature :=
  let sg := ecdsa (signing_hash tx) key in
  embedded tx (sg_r sg) (sg_s sg) (sg_yParity sg).

(** Modelled from the spec: [eth.signTransaction] of [./index]: with a key
    the request runs through to Serialized; without one it stops at Hashed
    and returns the hash and the two contexts. *)
Definition pipeline_signTransaction (privateKey : option string)
  (txData : TxData) : result (SignOutput Ctx) :=
  match privateKey with
  | Some k =>
      if str_nonempty k then
        match base_fromHex k with
        | inr key =>
            Ok (SignedHex (serialize_signed txData (local_signature txData key)))
        | inl e => Throw e
        end
      else Ok (UnsignedRaw (raw_of txData) (signing_hash txData)
                 (serializeRaw_of txData))
  | None => Ok (UnsignedRaw (raw_of txData) (signing_hash txData)
                  (serializeRaw_of txData))
  end.

(** Modelled from the spec: whether (hash, r, s, yParity) recovers the given
    public key, in [./index]. *)
Definition recovers (h r s : string) (yParity : bool) (pub : string) : bool :=
  match recover h r s yParity with
  | Some q => String.eqb q pub
  | None => false
  end.

(** Modelled from the spec: [eth.getMPCTransaction] of [./index]: resumes at
    Signed; the hash is derived again from the unsigned transaction of the
    context, the scalars are those of the signature handed over, and the
    recovery indicator is the one under which they recover the signer's
    public key. *)
Definition pipeline_getMPCTransaction (raw : option Ctx) (sigs : string)
  (publicKey : option string) : result string :=
  match raw, publicKey with
  | Some c, Some pub =>
      match restore_raw c with
      | inr tx =>
          match mpc_signature sigs with
          | inr (r, s) =>
              let h := signing_hash tx in
              if recovers h r s false pub then
                Ok (serialize_signed tx (embedded tx r s false))
              else if recovers h r s true pub then
                Ok (serialize_signed tx (embedded tx r s true))
              else Throw (RawError "signature does not match the public key")
          | inl e => Throw e
          end
      | inl e => Throw e
      end
  | _, _ => Throw (RawError "missing raw transaction or public key")
  end.

(** Modelled from the spec: [eth.getSignedTransaction] of [./index]: the
    hardware analogue, with the components [(r, s, v)] supplied directly and
    embedded as they are. *)
Definition pipeline_getSignedTransaction (raw : option Ctx)
  (r s v : option string) : result string :=
  match raw, r, s, v with
  | Some c, Some r, Some s, Some v =>
      match restore_serializeRaw c with
      | inr tx => Ok (serialize_signed tx {| ts_r := r; ts_s := s; ts_v := v |})
      | inl e => Throw e
      end
  | _, _, _, _ => Throw (RawError "missing raw transaction or signature")
  end.

(** The libraries [L0] with the three functions above in place. *)
Definition pipeline_libraries : Libraries :=
  {| World := @World L0;
     RawTx := Ctx;
     BigNumber := @BigNumber L0;
     SuiKeypair := @SuiKeypair L0;
     SuiSigned := @SuiSigned L0;
     SerializedTx := @SerializedTx L0;
     new_BigNumber := @new_BigNumber L0;
     base_toBigIntHex := @base_toBigIntHex L0;
     base_fromHex := @base_fromHex L0;
     base_fromBase64 := @base_fromBase64 L0;
     abi_RawEncode := @abi_RawEncode L0;
     eth_keccak256 := @eth_keccak256 L0;
     eth_ecdsaSign := @eth_ecdsaSign L0;
     eth_signTransaction :=
       fun pk tx w => (pipeline_signTransaction pk tx, w);
     eth_getMPCTransaction := pipeline_getMPCTransaction;
     eth_getSignedTransaction := pipeline_getSignedTransaction;
     TransactionFactory_fromSerializedData :=
       @TransactionFactory_fromSerializedData L0;
     tx_hash := @tx_hash L0;
     tryDecodeSuiPrivateKey := @tryDecodeSuiPrivateKey L0;
     Ed25519Keypair_fromSeed := @Ed25519Keypair_fromSeed L0;
     signer_getAddress := @signer_getAddress L0;
     signer_signTransactionBlock := @signer_signTransactionBlock L0;
     js_BigInt := @js_BigInt L0;
     tx_build := @tx_build L0;
     getDigestFromBytes := @getDigestFromBytes L0 |}.

End PipelineLibraries.

(* ------------------------------------------------------------------ *)
(** ** A concrete stand-in for the libraries *)
(* ------------------------------------------------------------------ *)

(** Small executable stand-ins for the library functions, used to run the
    wallets on concrete inputs.  None of them is cryptography: the digest is
    the identity and a "signature" merely pairs its inputs. *)
Module Fixture.

Definition fromHex (data : string) : result bytes :=
  match data with
  | String "0" (String "x" _) => hexToBytes data
  | _ => hexToBytes ("0x" ++ data)%string
  end.

Definition newBigNumber (v : jsval Z) : result Z :=
  match v with
  | JNumber z => Ok z
  | JBig n => Ok n
  | JString t =>
      match hex_value t with
      | Some n => Ok (Z.of_N n)
      | None => Throw (RawError "not a number")
      end
  | _ => Throw (RawError "not a number")
  end.

Definition toBigIntHex (z : Z) : result string :=
  Ok (EthWallet.toRpcHex (bytesToHex (be_bytes (Z.to_N z)))).

Definition pad32 (b : bytes) : bytes :=
  repeat x00 (32 - List.length b) ++ b.

Definition rawEncode (to : option string) (value : string) : result bytes :=
  match to with
  | Some a =>
      match hexToBytes a, hexToBytes value with
      | inr ab, inr vb => Ok (pad32 ab ++ pad32 vb)
      | inl e, _ => Throw e
      | _, inl e => Throw e
      end
  | None => Throw (RawError "missing address")
  end.

Definition ecdsaSign (msgHash key : bytes) (w : nat)
  : result EcdsaSignature * nat :=
  (Ok {| sig_v := 27 + Z.of_nat (List.length msgHash) mod 2;
         sig_r := msgHash;
         sig_s := key |}, S w).

Definition hashOf (tx : TxData) : string :=
  (match tx_to tx with Some a => a | None => "" end ++ tx_value tx)%string.

Definition sign (h : string) (key : bytes) : TxSignature :=
  {| ts_r := h; ts_s := bytesToHex key; ts_v := "0x1b" |}.

Definition serializeSigned (tx : TxData) (sig : TxSignature) : string :=
  (hashOf tx ++ ts_r sig ++ ts_s sig ++ ts_v sig)%string.

(** Stand-ins for the pipeline: a context is the unsigned transaction with
    a mark that tells the two kinds apart; a "signature" has the hash as
    [r] and the public key as [s], so that recovery reads the public key
    off [s] whatever [r] is. *)
Definition parityOf (h : string) : bool := Nat.odd (String.length h).

Definition toySign (h : string) (key : bytes) : Signature :=
  {| sg_r := h; sg_s := bytesToHex key; sg_yParity := parityOf h |}.

Definition toyRecover (h r s : string) (yParity : bool) : option string :=
  if Bool.eqb yParity (parityOf h) then Some s else None.

Definition splitSigs (sigs : string) : result (string * string) :=
  match String.index 0 "," sigs with
  | Some i =>
      Ok (String.substring 0 i sigs,
          String.substring (S i) (String.length sigs - S i) sigs)
  | None => Throw (RawError "malformed signature")
  end.

Definition pipeline : Pipeline :=
  {| Ctx := bool * TxData;
     raw_of := fun tx => (false, tx);
     serializeRaw_of := fun tx => (true, tx);
     restore_raw := fun c =>
       if fst c then Throw (RawError "not a raw context") else Ok (snd c);
     restore_serializeRaw := fun c =>
       if fst c then Ok (snd c) else Throw (RawError "not a serialized context");
     signing_hash := hashOf;
     ecdsa := toySign;
     v_of := fun _ yParity => if yParity then "0x1c" else "0x1b";
     serialize_signed := serializeSigned;
     public_key := bytesToHex;
     mpc_signature := splitSigs;
     recover := toyRecover |}.

Definition signTransaction (pk : option string) (tx : TxData) (w : nat)
  : result (SignOutput TxData) * nat :=
  match pk with
  | Some k =>
      match fromHex k with
      | inr key => (Ok (SignedHex (serializeSigned tx (sign (hashOf tx) key))), S w)
      | inl e => (Throw e, w)
      end
  | None => (Ok (UnsignedRaw tx (hashOf tx) tx), w)
  end.

Definition decodeSuiPrivateKey (k : string) : result string :=
  if String.prefix "suiprivkey" k then Ok (String.substring 10 (String.length k - 10) k)
  else Throw (RawError "invalid private key prefix").

Definition fromBase64 (p : SuiPayload) : result bytes :=
  match p with
  | PayloadString t => Ok (map byte_of_ascii (list_ascii_of_string t))
  | PayloadPaySui _ => Throw (RawError "not a string")
  end.

Definition bigInt (t : string) : result Z :=
  match hex_value t with
  | Some n => Ok (Z.of_N n)
  | None => Throw (RawError "Cannot convert to a BigInt")
  end.

Definition lib : Libraries :=
  {| World := nat;
     RawTx := TxData;
     BigNumber := Z;
     SuiKeypair := bytes;
     SuiSigned := bytes;
     SerializedTx := bytes;
     new_BigNumber := newBigNumber;
     base_toBigIntHex := toBigIntHex;
     base_fromHex := fromHex;
     base_fromBase64 := fromBase64;
     abi_RawEncode := rawEncode;
     eth_keccak256 := fun b => b;
     eth_ecdsaSign := ecdsaSign;
     eth_signTransaction := signTransaction;
     eth_getMPCTransaction := fun raw sigs pub =>
       match raw with
       | Some tx => Ok (hashOf tx ++ sigs)%string
       | None => Throw (RawError "missing raw transaction")
       end;
     eth_getSignedTransaction := fun raw r s v =>
       match raw, r, s, v with
       | Some tx, Some r, Some s, Some v => Ok (hashOf tx ++ r ++ s ++ v)%string
       | _, _, _, _ => Throw (RawError "missing raw transaction or signature")
       end;
     TransactionFactory_fromSerializedData := fun b =>
       match b with
       | [] => Throw (RawError "invalid serialized transaction")
       | _ => Ok b
       end;
     tx_hash := fun b => Ok b;
     tryDecodeSuiPrivateKey := decodeSuiPrivateKey;
     Ed25519Keypair_fromSeed := fun seed =>
       if (List.length seed =? 32)%nat then Ok seed
       else Throw (RawError "wrong seed size");
     signer_getAddress := fun kp => Ok (bytesToHex kp);
     signer_signTransactionBlock := fun kp b w => (Ok (b ++ kp), S w);
     js_BigInt := bigInt;
     tx_build := fun tb =>
       Ok (map (fun c => match c with
                         | SplitCoins _ => x01
                         | TransferObjects _ => x02
                         end) (tb_commands tb));
     getDigestFromBytes := fun b => Ok (bytesToHex b) |}.

(** A 32-byte key and sample parameters, for any choice of libraries. *)
Definition key32 : string :=
  "0x0101010101010101010101010101010101010101010101010101010101010101".

Definition key32_bytes : bytes := repeat x01 32.

Definition token : string := "0x00000000000000000000000000000000000000cc".

Definition txInput {L : Libraries} (ty : Z) (contract : option string)
  (useValue : bool) : EthWallet.TxInput :=
  {| EthWallet.d_to := Some "0x00000000000000000000000000000000000000aa";
     EthWallet.d_value := JString "0x10";
     EthWallet.d_nonce := JNumber 5;
     EthWallet.d_contractAddress := contract;
     EthWallet.d_gasPrice := JNumber 20;
     EthWallet.d_gasLimit := JNumber 21000;
     EthWallet.d_data := None;
     EthWallet.d_chainId := JUndefined;
     EthWallet.d_type := JNumber ty;
     EthWallet.d_maxPriorityFeePerGas := JUndefined;
     EthWallet.d_maxFeePerGas := JUndefined;
     EthWallet.d_authorizationList := None;
     EthWallet.d_useValue := JBool useValue |}.

(** What [convert2TxParam] makes of [txInput]. *)
Definition txParams {L : Libraries} (ty : Z) (contract : option string)
  (useValue : bool) : EthWallet.EthTxParams :=
  {| EthWallet.tp_to := Some "0x00000000000000000000000000000000000000aa";
     EthWallet.tp_value := "0x10";
     EthWallet.tp_nonce := "0x5";
     EthWallet.tp_contractAddress := contract;
     EthWallet.tp_gasPrice := "0x14";
     EthWallet.tp_gasLimit := "0x5208";
     EthWallet.tp_data := None;
     EthWallet.tp_chainId := "0x1";
     EthWallet.tp_type := JNumber ty;
     EthWallet.tp_maxPriorityFeePerGas := "0x0";
     EthWallet.tp_maxFeePerGas := "0x0";
     EthWallet.tp_authorizationList := [];
     EthWallet.tp_useValue := JBool useValue |}.

(** The ABI encoding of (0x..aa, 0x10). *)
Definition transferEncoding : bytes :=
  repeat x00 31 ++ [xaa] ++ repeat x00 31 ++ [x10].

Definition authInput (nonce : option string) : EthWallet.AuthInput :=
  {| EthWallet.ad_chainId := "0x01";
     EthWallet.ad_nonce := nonce;
     EthWallet.ad_address := "0x0000000000000000000000000000000000000001";
     EthWallet.ad_other := [] |}.

Definition authAddressBytes : bytes := repeat x00 19 ++ [x01].

Definition suiKey : string :=
  "suiprivkey0101010101010101010101010101010101010101010101010101010101010101".

Definition coin : SuiObjectRef :=
  {| objectId := "0x1"; version := "1"; digest := "d" |}.

Definition paySuiTransaction (coins : option (list SuiObjectRef))
  : PaySuiTransaction :=
  {| inputCoins := coins; recipient := "0xbb"; amount := "0x64";
     gasBudget := "0x0a"; gasPrice := "0x01"; epoch := None |}.

Definition paySui (coins : option (list SuiObjectRef)) : SuiSignData :=
  {| sd_type := "paySUI"; sd_data := PayloadPaySui (paySuiTransaction coins) |}.

Definition st0 : @State lib := @Build_State lib 0%nat [].

Definition signParam (pk : option string) (ty : Z) (contract : option string)
  (useValue : bool) : EthWallet.SignTxParams (@EthWallet.TxInput lib) :=
  {| EthWallet.privateKey := pk;
     EthWallet.data := @txInput lib ty contract useValue |}.

Definition authParam (pk : option string) (nonce : option string)
  : EthWallet.SignTxParams EthWallet.AuthInput :=
  {| EthWallet.privateKey := pk; EthWallet.data := authInput nonce |}.

Definition suiParam (pk : string) (coins : option (list SuiObjectRef))
  : SuiWallet.SignTxParams :=
  {| SuiWallet.privateKey := pk; SuiWallet.data := paySui coins |}.

(** The stand-in libraries with the pipeline functions in place. *)
Definition pipelined : Libraries := pipeline_libraries lib pipeline.

Definition pst0 : @State pipelined := @Build_State pipelined 0%nat [].

End Fixture.

(* ------------------------------------------------------------------ *)
(** ** The remaining methods of the two classes *)
(* ------------------------------------------------------------------ *)

Record NewAddressData : Type := {
  na_address : string;
  na_publicKey : string
}.

Record ValidPrivateKeyData : Type := {
  vp_isValid : bool;
  vp_privateKey : string
}.

(** [TypedMessage]: a message kind (the [MessageTypes] enum) and a payload. *)
Record TypedMessage : Type := {
  tm_type : Z;
  tm_message : string
}.

Record VerifyMessageParams : Type := {
  vm_data : TypedMessage;
  vm_signature : string;
  vm_address : option string
}.

(** [param.data] of [SuiWallet.signMessage]: a [Uint8Array] or anything
    else. *)
Inductive SuiMessageData : Type :=
| MsgBytes (message : bytes)
| MsgOther.

Record SuiSignMsgParams : Type := {
  sm_privateKey : string;
  sm_data : SuiMessageData
}.

(** The further library functions these methods call. *)
Class MoreLibraries (L : Libraries) : Type := {
  SuiSignedMessage : Type;
  eth_validPrivateKey : string -> result bool;
  eth_getNewAddress : string -> result NewAddressData;
  eth_signMessage :
    Z -> string -> option bytes -> World -> result string * World;
  eth_verifyMessage : Z -> string -> bytes -> result bytes;
  eth_publicToAddress : bytes -> result bytes;
  getAddressFromPrivate : string -> result NewAddressData;
  signer_signMessage :
    SuiKeypair -> bytes -> World -> result SuiSignedMessage * World
}.

(** [String.prototype.toLowerCase] on ASCII text (keys, addresses and hex
    strings are ASCII): the letters [A]-[Z] become [a]-[z], every other
    character stays. *)
Definition lower_char (c : ascii) : ascii :=
  let n := N_of_ascii c in
  if ((65 <=? n) && (n <=? 90))%N then ascii_of_N (n + 32) else c.

Fixpoint toLowerCase (t : string) : string :=
  match t with
  | EmptyString => EmptyString
  | String c rest => String (lower_char c) (toLowerCase rest)
  end.

(** [`${index}`] for an index that is a non-negative integer below 10^21
    (above, JavaScript switches to exponent notation). *)
Definition decimal (index : N) : string :=
  DecimalString.NilEmpty.string_of_uint (N.to_uint index).

Section MoreControl.
Context {L : Libraries}.

(** A library call that reads and advances the world and is not logged. *)
Definition call_world {A} (f : World -> result A * World) : M A :=
  fun st =>
    let (x, w') := f (world st) in
    (x, {| world := w'; calls := calls st |}).

End MoreControl.

Module EthWalletRest.
Section Methods.
Context {L : Libraries} {ML : MoreLibraries L}.
Import EthWallet.

Definition getDerivedPath (index : N) : Async string :=
  async (ret (Resolved ("m/44'/60'/0'/0/" ++ decimal index)%string)).

Definition getNewAddress (param_privateKey : string) : Async NewAddressData :=
  async
    (let pri := param_privateKey in
     ok <- lift (eth_validPrivateKey pri) ;;
     if negb ok then throw (RawError "invalid key")
     else
       returned <-
         try_catch
           (privateKey <- lift (base_fromHex (toLowerCase pri)) ;;
            lift (assertBufferLength privateKey 32) ;;;
            a <- lift (eth_getNewAddress (toLowerCase pri)) ;;
            ret (Some (Resolved a)))
           (fun _ => ret None) ;;
       match returned with
       | Some p => ret p
       | None => ret (Rejected (Typed NewAddressError))
       end).

Definition validPrivateKey (param_privateKey : string)
  : Async ValidPrivateKeyData :=
  async
    (isValid <- lift (eth_validPrivateKey param_privateKey) ;;
     let data := {| vp_isValid := isValid;
                    vp_privateKey := param_privateKey |} in
     ret (Resolved data)).

Definition signMessage (param : SignTxParams TypedMessage) : Async string :=
  async
    (privateKey <-
       (if truthy_str (privateKey param) then
          match privateKey param with
          | Some k =>
              (buf <- lift (base_fromHex k) ;;
               lift (assertBufferLength buf 32)) ;;;
              key <- lift (base_fromHex k) ;;
              ret (Some key)
          | None => ret None
          end
        else ret None) ;;
     let data := data param in
     let t := tm_type data in
     result <- call_world (eth_signMessage t (tm_message data) privateKey) ;;
     ret (Resolved result)).

Definition ecRecover (message : TypedMessage) (signature : string)
  : Async string :=
  async
    (let t := tm_type message in
     sig <- lift (base_fromHex signature) ;;
     publicKey <- lift (eth_verifyMessage t (tm_message message) sig) ;;
     addr <- lift (eth_publicToAddress publicKey) ;;
     let address := base_toHex addr true in
     ret (Resolved address)).

Definition verifyMessage (param : VerifyMessageParams) : Async bool :=
  async
    (let d := vm_data param in
     r <- await (ecRecover d (vm_signature param)) ;;
     let address :=
       if truthy_str (vm_address param) then
         match vm_address param with Some a => a | None => "" end
       else "" in
     ret (Resolved (String.eqb (toLowerCase address) (toLowerCase r)))).

Definition getMPCRawMessage (param : SignTxParams TypedMessage)
  : Async string :=
  async (try_catch
    (msgHash <- await (signMessage param) ;;
     ret (Resolved msgHash))
    (fun _ => ret (Rejected (Typed GetMpcRawTransactionError)))).

End Methods.
End EthWalletRest.

Module SuiWalletRest.
Section Methods.
Context {L : Libraries} {ML : MoreLibraries L}.

Definition getDerivedPath (index : N) : Async string :=
  async (ret (Resolved ("m/44'/784'/0'/0'/" ++ decimal index ++ "'")%string)).

Definition getNewAddress (param_privateKey : string) : Async NewAddressData :=
  async (try_catch
    (address <- (k <- lift (tryDecodeSuiPrivateKey param_privateKey) ;;
                 lift (getAddressFromPrivate k)) ;;
     let data := {| na_address := na_address address;
                    na_publicKey := na_publicKey address |} in
     ret (Resolved data))
    (fun _ => ret (Rejected (Typed NewAddressError)))).

Definition validPrivateKey (param_privateKey : string)
  : Async ValidPrivateKeyData :=
  async
    (isValid <-
       try_catch
         (lift (tryDecodeSuiPrivateKey param_privateKey) ;;; ret true)
         (fun _ => ret false) ;;
     let data := {| vp_isValid := isValid;
                    vp_privateKey := param_privateKey |} in
     ret (Resolved data)).

Definition signMessage (param : SuiSignMsgParams)
  : Async SuiSignedMessage :=
  async (try_catch
    (match sm_data param with
     | MsgOther => ret (Rejected (Typed SignMsgError))
     | MsgBytes message =>
         keyPair <- (k <- lift (tryDecodeSuiPrivateKey (sm_privateKey param)) ;;
                     seed <- lift (base_fromHex k) ;;
                     lift (Ed25519Keypair_fromSeed seed)) ;;
         promise_chain (call_world (signer_signMessage keyPair message))
     end)
    (fun _ => ret (Rejected (Typed SignTxError)))).

End Methods.
End SuiWalletRest.

(** Vocabulary of the further statements about [signTransaction]. *)
Section MoreVocabulary.
Context {L : Libraries}.
Import EthWallet.

(** [d'] hands the same seven numbers to [convert2HexString] as [d]. *)
Definition same_numbers (d d' : TxInput) : Prop :=
  js_or (d_value d') (JNumber 0) = js_or (d_value d) (JNumber 0) /\
  d_nonce d' = d_nonce d /\
  js_or (d_gasPrice d') (JNumber 0) = js_or (d_gasPrice d) (JNumber 0) /\
  js_or (d_gasLimit d') (JNumber 0) = js_or (d_gasLimit d) (JNumber 0) /\
  js_or (d_chainId d') (JNumber 1) = js_or (d_chainId d) (JNumber 1) /\
  js_or (d_maxPriorityFeePerGas d') (JNumber 0) =
    js_or (d_maxPriorityFeePerGas d) (JNumber 0) /\
  js_or (d_maxFeePerGas d') (JNumber 0) = js_or (d_maxFeePerGas d) (JNumber 0).

(** [d] with every falsy optional field replaced by the value
    [convert2TxParam] falls back to. *)
Definition with_defaults (d : TxInput) : TxInput :=
  {| d_to := d_to d;
     d_value := js_or (d_value d) (JNumber 0);
     d_nonce := d_nonce d;
     d_contractAddress := d_contractAddress d;
     d_gasPrice := js_or (d_gasPrice d) (JNumber 0);
     d_gasLimit := js_or (d_gasLimit d) (JNumber 0);
     d_data := d_data d;
     d_chainId := js_or (d_chainId d) (JNumber 1);
     d_type := js_or (d_type d) (JNumber 0);
     d_maxPriorityFeePerGas := js_or (d_maxPriorityFeePerGas d) (JNumber 0);
     d_maxFeePerGas := js_or (d_maxFeePerGas d) (JNumber 0);
     d_authorizationList :=
       Some (match d_authorizationList d with Some l => l | None => [] end);
     d_useValue := js_or (d_useValue d) (JBool false) |}.

(** [d] with another [useValue], and with another [authorizationList]. *)
Definition set_useValue (d : TxInput) (u : jsval BigNumber) : TxInput :=
  {| d_to := d_to d; d_value := d_value d; d_nonce := d_nonce d;
     d_contractAddress := d_contractAddress d; d_gasPrice := d_gasPrice d;
     d_gasLimit := d_gasLimit d; d_data := d_data d; d_chainId := d_chainId d;
     d_type := d_type d;
     d_maxPriorityFeePerGas := d_maxPriorityFeePerGas d;
     d_maxFeePerGas := d_maxFeePerGas d;
     d_authorizationList := d_authorizationList d;
     d_useValue := u |}.

Definition set_authorizationList (d : TxInput)
  (l : option (list AuthorizationListItem)) : TxInput :=
  {| d_to := d_to d; d_value := d_value d; d_nonce := d_nonce d;
     d_contractAddress := d_contractAddress d; d_gasPrice := d_gasPrice d;
     d_gasLimit := d_gasLimit d; d_data := d_data d; d_chainId := d_chainId d;
     d_type := d_type d;
     d_maxPriorityFeePerGas := d_maxPriorityFeePerGas d;
     d_maxFeePerGas := d_maxFeePerGas d;
     d_authorizationList := l;
     d_useValue := d_useValue d |}.

(** The normalized parameters, given the seven normalized numbers. *)
Definition params_of (d : TxInput)
  (nums : string * string * string * string * string * string * string)
  : EthTxParams :=
  let '(value, nonce, gasPrice, gasLimit, chainId, maxPriority, maxFee) :=
    nums in
  {| tp_to := d_to d;
     tp_value := value;
     tp_nonce := nonce;
     tp_contractAddress := d_contractAddress d;
     tp_gasPrice := gasPrice;
     tp_gasLimit := gasLimit;
     tp_data := d_data d;
     tp_chainId := chainId;
     tp_type := js_or (d_type d) (JNumber 0);
     tp_maxPriorityFeePerGas := maxPriority;
     tp_maxFeePerGas := maxFee;
     tp_authorizationList :=
       match d_authorizationList d with Some l => l | None => [] end;
     tp_useValue := js_or (d_useValue d) (JBool false) |}.

End MoreVocabulary.

Section SuiVocabulary.
Context {L : Libraries}.

(** [Ed25519Keypair.fromSeed(base.fromHex(tryDecodeSuiPrivateKey(k)))], as
    the value it returns or the error it throws. *)
Definition sui_keypair_of (k : string) : result SuiKeypair :=
  match tryDecodeSuiPrivateKey k with
  | inr hex =>
      match base_fromHex hex with
      | inr seed => Ed25519Keypair_fromSeed seed
      | inl e => inl e
      end
  | inl e => inl e
  end.

(** The transaction block a paySUI call has put together when it asks for
    it to be built. *)
Definition paySui_block (pay : PaySuiTransaction) (coins : list SuiObjectRef)
  (gp gb amt : Z) (sender : string) : TransactionBlock :=
  {| tb_gasPrice := Some gp;
     tb_gasBudget := Some gb;
     tb_expiration :=
       match epoch pay with
       | Some e => if (e =? 0)%Z then None else Some e
       | None => None
       end;
     tb_gasPayment := coins;
     tb_sender := Some sender;
     tb_commands := [SplitCoins amt; TransferObjects (recipient pay)] |}.

End SuiVocabulary.

(** Stand-ins for the further library functions, over [Fixture.lib]. *)
Module FixtureRest.

Definition validKey (k : string) : result bool :=
  match Fixture.fromHex (toLowerCase k) with
  | inr b => Ok (List.length b =? 32)%nat
  | inl _ => Ok false
  end.

Definition signMsg (t : Z) (m : string) (key : option bytes) (w : nat)
  : result string * nat :=
  match key with
  | Some b => (Ok (m ++ bytesToHex b)%string, S w)
  | None => (Ok m, w)
  end.

Definition suiSignMsg (kp m : bytes) (w : nat) : result bytes * nat :=
  (Ok (m ++ kp), S w).

Definition more : MoreLibraries Fixture.lib :=
  @Build_MoreLibraries Fixture.lib
    bytes
    validKey
    (fun k => Ok {| na_address := k; na_publicKey := k |})
    signMsg
    (fun t m sig => Ok sig)
    (fun pub => Ok (firstn 20 pub))
    (fun k => Ok {| na_address := ("0x" ++ k)%string; na_publicKey := k |})
    suiSignMsg.

Definition message : TypedMessage :=
  {| tm_type := 0; tm_message := "hello" |}.

Definition msgParam (pk : option string) : EthWallet.SignTxParams TypedMessage :=
  {| EthWallet.privateKey := pk; EthWallet.data := message |}.

Definition signatureHex : string :=
  "0xab000000000000000000000000000000000000cd".

Definition verifyParam (a : option string) : VerifyMessageParams :=
  {| vm_data := message; vm_signature := signatureHex; vm_address := a |}.

Definition payWith (price amt : string) (ep : option Z) : PaySuiTransaction :=
  {| inputCoins := Some [Fixture.coin]; recipient := "0xbb"; amount := amt;
     gasBudget := "0x0a"; gasPrice := price; epoch := ep |}.

Definition payParam (pay : PaySuiTransaction) : SuiWallet.SignTxParams :=
  {| SuiWallet.privateKey := Fixture.suiKey;
     SuiWallet.data := {| sd_type := "paySUI"; sd_data := PayloadPaySui pay |}
  |}.

End FixtureRest.

(* ================================================================== *)
(** * Properties *)
(* ================================================================== *)

(* ------------------------------------------------------------------ *)
(** ** Facts about the control operators *)
(* ------------------------------------------------------------------ *)

Section ControlFacts.
Context {L : Libraries}.

Lemma pure_ret {A} (a : A) : pure_as (ret a) (inr a).
Proof. intro st; reflexivity. Qed.

Lemma pure_lift {A} (x : result A) : pure_as (lift x) x.
Proof. intro st; reflexivity. Qed.

Lemma bind_pure {A B} (c : M A) (k : A -> M B) x st :
  pure_as c x ->
  bind c k st = match x with inr a => k a st | inl e => (inl e, st) end.
Proof. intros H. unfold bind. rewrite H. destruct x; reflexivity. Qed.

Lemma bind_assoc {A B C} (c : M A) (k1 : A -> M B) (k2 : B -> M C) st :
  bind (bind c k1) k2 st = bind c (fun a => bind (k1 a) k2) st.
Proof. unfold bind. destruct (c st) as [[e|a] st']; reflexivity. Qed.

Lemma bind_ret {A B} (a : A) (k : A -> M B) st : bind (ret a) k st = k a st.
Proof. reflexivity. Qed.

Lemma bind_call {A B} ev (f : World -> result A * World) (k : A -> M B) st :
  bind (call ev f) k st =
  match f (world st) with
  | (inr a, w') => k a {| world := w'; calls := calls st ++ [ev] |}
  | (inl e, w') => (inl e, {| world := w'; calls := calls st ++ [ev] |})
  end.
Proof. unfold bind, call. destruct (f (world st)) as [[e|a] w']; reflexivity. Qed.

Lemma pure_bind {A B} (c : M A) (k : A -> M B) x :
  pure_as c x ->
  (forall a, x = inr a -> exists y, pure_as (k a) y) ->
  exists y, pure_as (bind c k) y.
Proof.
  intros Hc Hk. destruct x as [e|a].
  - exists (inl e). intro st. rewrite (bind_pure _ _ _ _ Hc). reflexivity.
  - destruct (Hk a eq_refl) as [y Hy]. exists y. intro st.
    rewrite (bind_pure _ _ _ _ Hc). apply Hy.
Qed.

Lemma pure_bind_inl {A B} (c : M A) (k : A -> M B) e :
  pure_as c (inl e) -> pure_as (bind c k) (inl e).
Proof. intros H st. rewrite (bind_pure _ _ _ _ H). reflexivity. Qed.

Lemma pure_bind_inr {A B} (c : M A) (k : A -> M B) a (P : result B -> Prop) :
  pure_as c (inr a) ->
  (exists x, pure_as (k a) x /\ P x) ->
  exists x, pure_as (bind c k) x /\ P x.
Proof.
  intros H [x [Hx HP]]. exists x. split; [|exact HP].
  intro st. rewrite (bind_pure _ _ _ _ H). apply Hx.
Qed.

Lemma pure_as_unique {A} (c : M A) x y st :
  pure_as c x -> c st = (y, st) -> x = y.
Proof. intros H E. rewrite H in E. congruence. Qed.

(** An operation whose whole body sits in [try { ... } catch (e) { return
    Promise.reject(err) }] settles within its boundary as soon as the
    promises its body returns do. *)
Lemma boundary_try_catch {A} (body : M (Promise A)) err st :
  (forall st1 p st2, body st1 = (inr p, st2) -> boundary_ok err p) ->
  boundary_ok err
    (fst (async (try_catch body (fun _ => ret (Rejected (Typed err)))) st)).
Proof.
  intros H. unfold async, try_catch, ret.
  destruct (body st) as [[e|p] st'] eqn:E; simpl; [reflexivity|].
  exact (H _ _ _ E).
Qed.

Lemma app_one_neq {A} (l : list A) (x : A) : l <> l ++ [x].
Proof.
  intro E. apply (f_equal (@List.length A)) in E.
  rewrite length_app in E. simpl in E. lia.
Qed.

End ControlFacts.

(* ------------------------------------------------------------------ *)
(** ** EthWallet.signTransaction *)
(* ------------------------------------------------------------------ *)

Section SignTransactionFacts.
Context {L : Libraries}.
Import EthWallet.

Lemma convert2HexString_pure v :
  exists x, pure_as (convert2HexString v) x.
Proof.
  unfold convert2HexString.
  assert (H : exists n, pure_as
            (match v with JBig n => ret n | _ => lift (new_BigNumber v) end) n).
  { destruct v; eexists; first [apply pure_ret | apply pure_lift]. }
  destruct H as [n Hn]. eapply pure_bind; [exact Hn|].
  intros a _. eexists. apply pure_lift.
Qed.

Lemma convert2TxParam_pure d :
  exists x, pure_as (convert2TxParam d) x /\
    forall tp, x = inr tp ->
      tp_to tp = d_to d /\
      tp_contractAddress tp = d_contractAddress d /\
      tp_data tp = d_data d /\
      tp_type tp = js_or (d_type d) (JNumber 0) /\
      tp_useValue tp = js_or (d_useValue d) (JBool false) /\
      tp_authorizationList tp =
        match d_authorizationList d with Some l => l | None => [] end.
Proof.
  unfold convert2TxParam.
  repeat match goal with
  | |- exists x, pure_as (bind (convert2HexString ?v) ?k) x /\ _ =>
      let H := fresh "H" in
      destruct (convert2HexString_pure v) as [[?|?] H];
      [ eexists; split; [ apply (pure_bind_inl _ _ _ H) | discriminate ]
      | apply (pure_bind_inr _ _ _ _ H); cbv beta ]
  end.
  eexists; split; [apply pure_ret|].
  intros tp [= <-]; simpl; auto 10.
Qed.

(** [convert2HexString] in terms of the two library calls it makes. *)
Lemma convert2HexString_run (v : jsval BigNumber) st :
  convert2HexString v st =
  (match match v with JBig n => inr n | _ => new_BigNumber v end with
   | inr n => base_toBigIntHex n
   | inl e => inl e
   end, st).
Proof.
  unfold convert2HexString, bind, lift, ret.
  destruct v; try reflexivity;
    match goal with |- context [new_BigNumber ?x] =>
      destruct (new_BigNumber x); reflexivity end.
Qed.

(** The [value] of the normalized parameters is what the converter makes of
    the caller's [value] (or of 0 when that is falsy). *)
Lemma convert2TxParam_value d st tp :
  convert2TxParam d st = (inr tp, st) ->
  convert2HexString (js_or (d_value d) (JNumber 0)) st = (inr (tp_value tp), st).
Proof.
  unfold convert2TxParam. intros H.
  destruct (convert2HexString_pure (js_or (d_value d) (JNumber 0)))
    as [[e|value] H1];
    rewrite (bind_pure _ _ _ _ H1) in H; [discriminate|].
  repeat match type of H with
  | bind (convert2HexString ?v) _ _ = _ =>
      let x := fresh "x" in
      let Hx := fresh "Hx" in
      destruct (convert2HexString_pure v) as [[?|x] Hx];
      rewrite (bind_pure _ _ _ _ Hx) in H; [discriminate|]
  end.
  unfold ret in H. injection H as <-. cbn [tp_value]. apply H1.
Qed.

Lemma key_prelude_pure (pk : option string) :
  exists x,
    pure_as (if truthy_str pk then
               match pk with
               | Some k => buf <- lift (base_fromHex k) ;;
                           lift (assertBufferLength buf 32)
               | None => ret tt
               end
             else ret tt) x /\
    (key_check pk = true -> x = inr tt) /\
    (key_check pk = false -> exists e, x = inl e).
Proof.
  unfold key_check. destruct pk as [k|]; simpl.
  2:{ exists (inr tt). split; [apply pure_ret|]. split; [auto|discriminate]. }
  destruct (str_nonempty k).
  2:{ exists (inr tt). split; [apply pure_ret|]. split; [auto|discriminate]. }
  destruct (base_fromHex k) as [e|buf] eqn:Hk.
  - exists (inl e). split; [|split; [discriminate|eauto]].
    intro st. unfold bind, lift. reflexivity.
  - unfold assertBufferLength.
    destruct (List.length buf =? 32)%nat eqn:Hlen.
    + exists (inr tt). split; [|split; [auto|discriminate]].
      intro st. unfold bind, lift. rewrite Hlen. reflexivity.
    + eexists. split; [|split; [discriminate|eauto]].
      intro st. unfold bind, lift. rewrite Hlen. reflexivity.
Qed.

(** The source's per-byte formatting is two-digit lower-case hex. *)
Lemma pad00_slice2_toString16 x : pad00_slice2 (toString16 x) = byte_hex x.
Proof. destruct x; reflexivity. Qed.

Lemma transfer_hex (enc : bytes) :
  flat_map (fun x => pad00_slice2 (toString16 x)) enc = hex_body enc.
Proof.
  unfold hex_body. induction enc as [|x enc IH]; simpl; [reflexivity|].
  rewrite IH, pad00_slice2_toString16. reflexivity.
Qed.

Lemma transferData_pure to v :
  pure_as (transferData to v)
    (match abi_RawEncode to v with
     | inr enc =>
         inr (TOKEN_TRANSFER_FUNCTION_SIGNATURE ++
              string_of_list_ascii (hex_body enc))%string
     | inl e => inl e
     end).
Proof.
  intro st. unfold transferData, bind, lift, ret.
  destruct (abi_RawEncode to v); [reflexivity|]. rewrite transfer_hex. reflexivity.
Qed.

Ltac sign_prelude p x Hx Hok Hbad y Hy Hf :=
  unfold signTransaction, async, try_catch; cbv zeta;
  destruct (key_prelude_pure (privateKey p)) as [x [Hx [Hok Hbad]]];
  rewrite (bind_pure _ _ _ _ Hx);
  destruct (convert2TxParam_pure (data p)) as [y [Hy Hf]].

Lemma signTransaction_unsupported p st :
  unsupported (js_or (d_type (data p)) (JNumber 0)) ->
  signTransaction p st = (Rejected (Typed SignTxError), st).
Proof.
  intros (H0 & H1 & H2 & H4).
  sign_prelude p x Hx Hok Hbad y Hy Hf.
  destruct x as [e|[]]; [reflexivity|].
  rewrite (bind_pure _ _ _ _ Hy). destruct y as [e|tp]; [reflexivity|].
  destruct (Hf tp eq_refl) as (_ & _ & _ & Hty & _).
  rewrite Hty, H0, H1, H2, H4. reflexivity.
Qed.

Lemma signTransaction_bad_key p st :
  key_check (privateKey p) = false ->
  signTransaction p st = (Rejected (Typed SignTxError), st).
Proof.
  intros Hk. sign_prelude p x Hx Hok Hbad y Hy Hf.
  destruct (Hbad Hk) as [e ->]. reflexivity.
Qed.

Lemma signTransaction_bad_param p st e :
  pure_as (convert2TxParam (data p)) (inl e) ->
  signTransaction p st = (Rejected (Typed SignTxError), st).
Proof.
  intros He. sign_prelude p x Hx Hok Hbad y Hy Hf.
  destruct x as [e'|[]]; [reflexivity|].
  rewrite (bind_pure _ _ _ _ He). reflexivity.
Qed.

Lemma signTransaction_supported p st tp ty :
  key_check (privateKey p) = true ->
  pure_as (convert2TxParam (data p)) (inr tp) ->
  tp_type tp = JNumber ty ->
  (ty = 0 \/ ty = 1 \/ ty = 2 \/ ty = 4)%Z ->
  signTransaction p st =
    if truthy_str (tp_contractAddress tp) then
      match abi_RawEncode (tp_to tp) (tp_value tp) with
      | inr enc =>
          run_signer (privateKey p)
            (assembled tp ty (tp_contractAddress tp)
               (if ((ty =? 0) || (ty =? 1))%Z && truthy (tp_useValue tp)
                then tp_value tp else "0x0")
               (Some (TOKEN_TRANSFER_FUNCTION_SIGNATURE ++
                      string_of_list_ascii (hex_body enc))%string)) st
      | inl _ => (Rejected (Typed SignTxError), st)
      end
    else
      run_signer (privateKey p)
        (assembled tp ty (tp_to tp) (tp_value tp) (tp_data tp)) st.
Proof.
  intros Hk Htp Hty Hsup.
  sign_prelude p x Hx Hok Hbad y Hy Hf.
  rewrite (Hok Hk).
  rewrite (bind_pure _ _ _ _ Htp). rewrite Hty.
  unfold strict_eq_number, run_signer, assembled.
  destruct Hsup as [ -> | [ -> | [ -> | -> ] ] ]; cbn [Z.eqb Pos.eqb orb andb].
  all: destruct (truthy_str (tp_contractAddress tp)).
  all: try (rewrite bind_assoc, (bind_pure _ _ _ _ (transferData_pure _ _));
            destruct (abi_RawEncode _ _) as [e|enc]; [reflexivity|]).
  all: rewrite bind_ret, bind_call.
  all: try destruct (truthy (tp_useValue tp)); cbn [negb].
  all: destruct (eth_signTransaction _ _ _) as [[e|out] w']; reflexivity.
Qed.

Lemma type_cases (ty : jsval BigNumber) :
  (exists z, ty = JNumber z /\ (z = 0 \/ z = 1 \/ z = 2 \/ z = 4)%Z) \/
  unsupported ty.
Proof.
  unfold unsupported.
  destruct ty as [|b|z|t|n]; try (right; simpl; auto; fail).
  simpl.
  destruct (Z.eqb_spec z 0); [left; eauto 6|].
  destruct (Z.eqb_spec z 1); [left; eauto 6|].
  destruct (Z.eqb_spec z 2); [left; eauto 6|].
  destruct (Z.eqb_spec z 4); [left; eauto 6|].
  right; auto.
Qed.

Lemma assembled_shape tp ty to value data :
  (ty = 0 \/ ty = 1 \/ ty = 2 \/ ty = 4)%Z ->
  selected_shape (JNumber ty) (assembled tp ty to value data).
Proof.
  unfold assembled.
  intros [ -> | [ -> | [ -> | -> ] ] ]; simpl; auto.
Qed.

(** Every call either is rejected with [SignTxError] before the signer is
    reached, or hands one transaction object, which depends on the
    parameters only, to the signer. *)
Lemma signTransaction_cases d :
  (forall pk st,
      signTransaction {| privateKey := pk; data := d |} st =
      (Rejected (Typed SignTxError), st)) \/
  (exists tx,
      selected_shape (js_or (d_type d) (JNumber 0)) tx /\
      forall pk st,
        signTransaction {| privateKey := pk; data := d |} st =
        if key_check pk then run_signer pk tx st
        else (Rejected (Typed SignTxError), st)).
Proof.
  destruct (convert2TxParam_pure d) as [[e|tp] [Hy Hf]].
  { left. intros pk st. eapply signTransaction_bad_param. exact Hy. }
  destruct (Hf tp eq_refl) as (_ & _ & _ & Hty & _).
  destruct (type_cases (js_or (d_type d) (JNumber 0)))
    as [[z [Hz Hsup]] | Hun].
  2:{ left. intros pk st. apply signTransaction_unsupported. exact Hun. }
  rewrite Hz in Hty. rewrite Hz.
  destruct (truthy_str (tp_contractAddress tp)) eqn:Htok.
  - destruct (abi_RawEncode (tp_to tp) (tp_value tp)) as [e|enc] eqn:Henc.
    + left. intros pk st. destruct (key_check pk) eqn:Hk.
      * rewrite (signTransaction_supported {| privateKey := pk; data := d |}
                   st tp z Hk Hy Hty Hsup); cbn [privateKey].
        rewrite Htok, Henc. reflexivity.
      * apply signTransaction_bad_key. exact Hk.
    + right. eexists. split; [apply assembled_shape; exact Hsup|].
      intros pk st. destruct (key_check pk) eqn:Hk.
      * rewrite (signTransaction_supported {| privateKey := pk; data := d |}
                   st tp z Hk Hy Hty Hsup); cbn [privateKey].
        rewrite Htok, Henc. reflexivity.
      * apply signTransaction_bad_key. exact Hk.
  - right. eexists. split; [apply assembled_shape; exact Hsup|].
    intros pk st. destruct (key_check pk) eqn:Hk.
    + rewrite (signTransaction_supported {| privateKey := pk; data := d |}
                   st tp z Hk Hy Hty Hsup); cbn [privateKey].
      rewrite Htok. reflexivity.
    + apply signTransaction_bad_key. exact Hk.
Qed.

Lemma run_signer_calls pk tx st :
  calls (snd (run_signer pk tx st)) = calls st ++ [CallSignTransaction pk tx].
Proof.
  unfold run_signer.
  destruct (eth_signTransaction pk tx (world st)) as [[e|o] w']; reflexivity.
Qed.

Lemma run_signer_boundary pk tx st :
  boundary_ok SignTxError (fst (run_signer pk tx st)).
Proof.
  unfold run_signer.
  destruct (eth_signTransaction pk tx (world st)) as [[e|o] w']; simpl; auto.
Qed.

Lemma truthy_js_or_false (v : jsval BigNumber) :
  truthy (js_or v (JBool false)) = truthy v.
Proof. unfold js_or. destruct (truthy v) eqn:E; [exact E|reflexivity]. Qed.

End SignTransactionFacts.

(* ------------------------------------------------------------------ *)
(** ** Type dispatch and token transfers *)
(* ------------------------------------------------------------------ *)

Section SignTransactionClaims.
Context {L : Libraries}.
Import EthWallet.

(** C3 (amended).  A [signTransaction] call whose normalized [type] is none
    of 0, 1, 2, 4 is rejected with [SignTxError], the constant every other
    failure of the operation is rejected with, and the signer is not called;
    and whenever the signer is called, the transaction object it receives has
    the shape the normalized type selects: Legacy for 0 and 1, FeeMarket for
    2, DelegatedAuth for 4. *)
Theorem unsupported_type_rejected (p : SignTxParams TxInput) (st : State) :
  (unsupported (js_or (d_type (data p)) (JNumber 0)) ->
   signTransaction p st = (Rejected (Typed SignTxError), st)) /\
  (forall pk tx,
     calls (snd (signTransaction p st)) =
       calls st ++ [CallSignTransaction pk tx] ->
     selected_shape (js_or (d_type (data p)) (JNumber 0)) tx).
Proof.
  split; [apply signTransaction_unsupported|].
  intros pk tx Hcalls. destruct p as [k d]. cbn [data] in *.
  destruct (signTransaction_cases d) as [Hrej | [tx' [Hshape Hrun]]].
  - rewrite Hrej in Hcalls. simpl in Hcalls.
    exfalso. exact (app_one_neq _ _ Hcalls).
  - rewrite Hrun in Hcalls. destruct (key_check k).
    + rewrite run_signer_calls in Hcalls.
      apply app_inv_head in Hcalls. injection Hcalls as _ <-. exact Hshape.
    + simpl in Hcalls. exfalso. exact (app_one_neq _ _ Hcalls).
Qed.

(** C2.  When the parameters carry a contract address (and the key check and
    the normalization pass, the type is supported and the ABI encoder
    returns), the signer receives a transaction object whose [data] is the
    selector [0xa9059cbb] followed by the hex of the ABI encoding of
    (recipient, amount), whose [to] is the contract address, and whose
    [value] is ["0x0"] for types 2 and 4 and, for types 0 and 1, ["0x0"]
    exactly when [useValue] is falsy and the amount otherwise.  The recipient
    is the caller's [to]; the amount is the caller's [value] (0 when that is
    falsy) as [convert2HexString] renders it: taken as it is when it is a
    [BigNumber], passed through [new BigNumber] otherwise, then through
    [base.toBigIntHex]. *)
Theorem token_transfer_fields (p : SignTxParams TxInput) (st : State)
  (tp : EthTxParams) (c : string) (ty : Z) (n : BigNumber) (amount : string)
  (enc : bytes) :
  key_check (privateKey p) = true ->
  convert2TxParam (data p) st = (inr tp, st) ->
  d_contractAddress (data p) = Some c ->
  str_nonempty c = true ->
  js_or (d_type (data p)) (JNumber 0) = JNumber ty ->
  (ty = 0 \/ ty = 1 \/ ty = 2 \/ ty = 4)%Z ->
  match js_or (d_value (data p)) (JNumber 0) with
  | JBig m => m = n
  | v => new_BigNumber v = inr n
  end ->
  base_toBigIntHex n = inr amount ->
  abi_RawEncode (d_to (data p)) amount = inr enc ->
  exists tx,
    signTransaction p st = run_signer (privateKey p) tx st /\
    calls (snd (signTransaction p st)) =
      calls st ++ [CallSignTransaction (privateKey p) tx] /\
    tx_data tx =
      Some ("0xa9059cbb" ++ string_of_list_ascii (hex_body enc))%string /\
    tx_to tx = Some c /\
    tx_value tx =
      (if ((ty =? 2) || (ty =? 4))%Z then "0x0"
       else if truthy (d_useValue (data p)) then amount else "0x0").
Proof.
  intros Hk Hconv Hc Hne Hty Hsup Hn Hamount Henc.
  assert (Hval : tp_value tp = amount).
  { pose proof (convert2TxParam_value _ _ _ Hconv) as Hv.
    rewrite convert2HexString_run in Hv.
    destruct (js_or (d_value (data p)) (JNumber 0));
      rewrite Hn, Hamount in Hv; congruence. }
  destruct (convert2TxParam_pure (data p)) as [x [Hx Hf]].
  assert (x = inr tp) as -> by (eapply pure_as_unique; eassumption).
  destruct (Hf tp eq_refl) as (Hto & Htok & _ & Htype & Huse & _).
  rewrite Hty in Htype.
  pose proof (signTransaction_supported p st tp ty Hk Hx Htype Hsup) as E.
  rewrite Htok, Hc in E. cbn [truthy_str] in E. rewrite Hne in E.
  rewrite Hto, Hval, Henc in E.
  eexists. split; [exact E|]. rewrite E, run_signer_calls.
  split; [reflexivity|].
  rewrite Huse, truthy_js_or_false. unfold assembled.
  destruct Hsup as [ -> | [ -> | [ -> | -> ] ] ]; cbn; auto.
Qed.

End SignTransactionClaims.

(* ------------------------------------------------------------------ *)
(** ** Operation boundaries *)
(* ------------------------------------------------------------------ *)

Section BoundaryClaims.
Context {L : Libraries}.

Lemma signTransaction_boundary p st :
  boundary_ok SignTxError (fst (EthWallet.signTransaction p st)).
Proof.
  destruct p as [k d].
  destruct (signTransaction_cases d) as [Hrej | [tx [_ Hrun]]].
  - rewrite Hrej. reflexivity.
  - rewrite Hrun. destruct (key_check k); [apply run_signer_boundary|reflexivity].
Qed.

Lemma missing_key_raw_error p st :
  truthy_str (EthWallet.privateKey p) = false ->
  EthWallet.signAuthorizationListItem p st =
  (Rejected (RawError "privateKey is invalid"), st).
Proof.
  unfold EthWallet.signAuthorizationListItem, async, throw.
  destruct (EthWallet.privateKey p) as [k|]; simpl; [|reflexivity].
  intros ->. reflexivity.
Qed.

(** [EthWallet.calcTxHash] has no [try]/[catch] either: what [base.fromHex]
    throws on its input is the rejection of the call. *)
Lemma eth_calcTxHash_raw_error d st e :
  base_fromHex d = inl e ->
  EthWallet.calcTxHash d st = (Rejected e, st).
Proof.
  intros H. unfold EthWallet.calcTxHash, async.
  rewrite (bind_pure _ _ _ _ (pure_lift _)), H. reflexivity.
Qed.


End BoundaryClaims.

(* ------------------------------------------------------------------ *)
(** ** EthWallet.signAuthorizationListItem *)
(* ------------------------------------------------------------------ *)

Section AuthorizationFacts.
Context {L : Libraries}.
Import EthWallet.

Lemma unpadBytes_stripped (b : bytes) : stripped_of b (unpadBytes b).
Proof.
  unfold stripped_of. induction b as [|x b [[k Hk] Hnz]].
  - split; [exists 0%nat; reflexivity | intros t; discriminate].
  - destruct (Byte.byte_eq_dec x x00) as [-> | Hx].
    + simpl. split; [|exact Hnz].
      exists (S k). simpl. f_equal. exact Hk.
    + assert (E : unpadBytes (x :: b) = x :: b)
        by (destruct x; try reflexivity; contradiction).
      rewrite E. split; [exists 0%nat; reflexivity|].
      intros t [= Hx' _]. contradiction.
Qed.

Lemma signAuthorizationListItem_run p st pk key cb ab nb :
  privateKey p = Some pk ->
  str_nonempty pk = true ->
  base_fromHex pk = inr key ->
  List.length key = 32%nat ->
  hexToBytes (ad_chainId (data p)) = inr cb ->
  match ad_nonce (data p) with
  | Some n => hexToBytes n = inr nb
  | None => nb = []
  end ->
  hexToBytes (ad_address (data p)) = inr ab ->
  signAuthorizationListItem p st =
    let msg :=
      eth_keccak256
        ([x05] ++
         rlp_encode
           (RList [RBytes (unpadBytes cb); RBytes ab; RBytes (unpadBytes nb)]))
    in
    match eth_ecdsaSign msg key (world st) with
    | (inr signed, w') =>
        (Resolved
           {| chainId := bytesToHex (unpadBytes cb);
              address := ad_address (data p);
              nonce := bytesToHex (unpadBytes nb);
              yParity := if (sig_v signed - 27 =? 0)%Z then "0x" else "0x1";
              r := base_toHex (unpadBuffer (sig_r signed)) true;
              s := base_toHex (unpadBuffer (sig_s signed)) true |},
         {| world := w'; calls := calls st ++ [CallEcdsaSign msg key] |})
    | (inl e, w') =>
        (Rejected e,
         {| world := w'; calls := calls st ++ [CallEcdsaSign msg key] |})
    end.
Proof.
  intros Hpk Hne Hkey Hlen Hc Hn Ha.
  unfold signAuthorizationListItem, async. rewrite Hpk, Hne. cbn [negb].
  rewrite (bind_pure _ _ _ _ (pure_lift _)), Hkey.
  rewrite bind_assoc, (bind_pure _ _ _ _ (pure_lift _)).
  rewrite (bind_pure _ _ _ _ (pure_lift _)).
  unfold assertBufferLength. rewrite Hlen. cbn [Nat.eqb].
  rewrite bind_assoc, (bind_pure _ _ _ _ (pure_lift _)), Hc, bind_ret.
  assert (Hnonce :
    pure_as
      (match ad_nonce (data p) with
       | Some n => b <- lift (hexToBytes n) ;; ret (unpadBytes b)
       | None => ret []
       end) (inr (unpadBytes nb))).
  { intro st0. destruct (ad_nonce (data p)) as [n|].
    - unfold bind, lift, ret. rewrite Hn. reflexivity.
    - subst nb. reflexivity. }
  rewrite (bind_pure _ _ _ _ Hnonce).
  rewrite (bind_pure _ _ _ _ (pure_lift _)), Ha.
  rewrite bind_call. unfold concatBytes. cbv zeta.
  destruct (eth_ecdsaSign _ key (world st)) as [[e|signed] w']; reflexivity.
Qed.

Lemma signAuthorizationListItem_resolved p st auth st' :
  signAuthorizationListItem p st = (Resolved auth, st') ->
  exists pk key cb ab nb,
    privateKey p = Some pk /\
    str_nonempty pk = true /\
    base_fromHex pk = inr key /\
    List.length key = 32%nat /\
    hexToBytes (ad_chainId (data p)) = inr cb /\
    match ad_nonce (data p) with
    | Some n => hexToBytes n = inr nb
    | None => nb = []
    end /\
    hexToBytes (ad_address (data p)) = inr ab.
Proof.
  unfold signAuthorizationListItem, async, throw.
  destruct (privateKey p) as [pk|]; [|discriminate].
  destruct (str_nonempty pk) eqn:Hne; cbn [negb]; [|discriminate].
  rewrite (bind_pure _ _ _ _ (pure_lift _)).
  destruct (base_fromHex pk) as [e|key] eqn:Hkey; [discriminate|].
  rewrite bind_assoc, (bind_pure _ _ _ _ (pure_lift _)).
  rewrite (bind_pure _ _ _ _ (pure_lift _)).
  unfold assertBufferLength.
  destruct (List.length key =? 32)%nat eqn:Hlen; [|discriminate].
  apply Nat.eqb_eq in Hlen.
  rewrite bind_assoc, (bind_pure _ _ _ _ (pure_lift _)).
  destruct (hexToBytes (ad_chainId (data p))) as [e|cb] eqn:Hc; [discriminate|].
  rewrite bind_ret.
  destruct (ad_nonce (data p)) as [n|] eqn:Hn.
  - rewrite bind_assoc, (bind_pure _ _ _ _ (pure_lift _)).
    destruct (hexToBytes n) as [e|nb] eqn:Hnb; [discriminate|].
    rewrite bind_ret, (bind_pure _ _ _ _ (pure_lift _)).
    destruct (hexToBytes (ad_address (data p))) as [e|ab] eqn:Ha; [discriminate|].
    intros _. exists pk, key, cb, ab, nb. auto 10.
  - rewrite bind_ret, (bind_pure _ _ _ _ (pure_lift _)).
    destruct (hexToBytes (ad_address (data p))) as [e|ab] eqn:Ha; [discriminate|].
    intros _. exists pk, key, cb, ab, []. auto 10.
Qed.

(** C1.  With a key that decodes to 32 bytes and well-formed hex fields, the
    one signing call of [signAuthorizationListItem] is over
    keccak256(0x05 || RLP([chainId, address, nonce])), where the [chainId]
    and [nonce] bytes are the decoded ones without their leading zero bytes
    and the [address] bytes are the decoded ones as they are; nothing else
    the parameter object carries reaches the signer. *)
Theorem authorization_message (p : SignTxParams AuthInput) (st : State)
  (pk : string) (key cb ab nb : bytes) :
  privateKey p = Some pk ->
  str_nonempty pk = true ->
  base_fromHex pk = inr key ->
  List.length key = 32%nat ->
  hexToBytes (ad_chainId (data p)) = inr cb ->
  match ad_nonce (data p) with
  | Some n => hexToBytes n = inr nb
  | None => nb = []
  end ->
  hexToBytes (ad_address (data p)) = inr ab ->
  exists c n,
    stripped_of cb c /\ stripped_of nb n /\
    calls (snd (signAuthorizationListItem p st)) =
      calls st ++
      [CallEcdsaSign
         (eth_keccak256
            (x05 :: rlp_encode (RList [RBytes c; RBytes ab; RBytes n])))
         key] /\
    forall other,
      signAuthorizationListItem
        {| privateKey := privateKey p;
           data := {| ad_chainId := ad_chainId (data p);
                      ad_nonce := ad_nonce (data p);
                      ad_address := ad_address (data p);
                      ad_other := other |} |} st =
      signAuthorizationListItem p st.
Proof.
  intros Hpk Hne Hkey Hlen Hc Hn Ha.
  exists (unpadBytes cb), (unpadBytes nb).
  split; [apply unpadBytes_stripped|]. split; [apply unpadBytes_stripped|].
  split.
  - rewrite (signAuthorizationListItem_run p st pk key cb ab nb) by assumption.
    cbv zeta.
    destruct (eth_ecdsaSign _ key (world st)) as [[e|signed] w']; reflexivity.
  - intro other.
    rewrite (signAuthorizationListItem_run p st pk key cb ab nb) by assumption.
    rewrite (signAuthorizationListItem_run _ st pk key cb ab nb) by assumption.
    reflexivity.
Qed.

(** C9.  A successful [signAuthorizationListItem] returns [yParity] ["0x"]
    when the recovery parity [v - 27] of the signature is 0 and ["0x1"] when
    it is 1; it never returns ["0x0"], which only the RPC transformation
    produces (from ["0x"]). *)
Theorem yParity_rendering (p : SignTxParams AuthInput) (st st' : State)
  (auth : AuthorizationListItem) :
  signAuthorizationListItem p st = (Resolved auth, st') ->
  exists msg key signed w',
    calls st' = calls st ++ [CallEcdsaSign msg key] /\
    eth_ecdsaSign msg key (world st) = (inr signed, w') /\
    (sig_v signed - 27 = 0 -> yParity auth = "0x")%Z /\
    (sig_v signed - 27 = 1 -> yParity auth = "0x1")%Z /\
    yParity auth <> "0x0" /\
    (sig_v signed - 27 = 0 -> yParity (toRpcAuth auth) = "0x0")%Z.
Proof.
  intros Hrun.
  destruct (signAuthorizationListItem_resolved _ _ _ _ Hrun)
    as (pk & key & cb & ab & nb & Hpk & Hne & Hkey & Hlen & Hc & Hn & Ha).
  rewrite (signAuthorizationListItem_run p st pk key cb ab nb) in Hrun
    by assumption.
  cbv zeta in Hrun.
  destruct (eth_ecdsaSign _ key (world st)) as [[e|signed] w'] eqn:Hs;
    [discriminate|].
  injection Hrun as <- <-.
  eexists _, key, signed, w'. split; [reflexivity|]. split; [exact Hs|].
  cbn [yParity toRpcAuth].
  destruct (Z.eqb_spec (sig_v signed - 27) 0) as [E|E].
  - repeat split; try discriminate; try reflexivity. intros; lia.
  - repeat split; try discriminate; try reflexivity; intros; lia.
Qed.

End AuthorizationFacts.

(* ------------------------------------------------------------------ *)
(** ** The JSON-RPC form of an authorization item *)
(* ------------------------------------------------------------------ *)

Section RpcFacts.
Context {L : Libraries}.
Import EthWallet.

Lemma byte_digits x :
  hexval (hexdigit (Byte.to_N x / 16)) = Some (Byte.to_N x / 16)%N /\
  hexval (hexdigit (Byte.to_N x mod 16)) = Some (Byte.to_N x mod 16)%N.
Proof. destruct x; split; reflexivity. Qed.

Lemma hexvals_hex_body b : hexvals (hex_body b) = Some (flat_map nibbles b).
Proof.
  unfold hex_body. induction b as [|x b IH]; [reflexivity|].
  cbn [flat_map byte_hex app hexvals nibbles].
  destruct (byte_digits x) as [-> ->].
  fold (flat_map byte_hex b). rewrite IH. reflexivity.
Qed.

Lemma nibbles_even b : Nat.even (List.length (flat_map nibbles b)) = true.
Proof. induction b as [|x b IH]; [reflexivity|exact IH]. Qed.

Lemma pair_up_nibbles b : pair_up (flat_map nibbles b) = b.
Proof.
  induction b as [|x b IH]; [reflexivity|].
  cbn [flat_map nibbles app pair_up]. rewrite IH. f_equal.
  destruct x; reflexivity.
Qed.

(** Decoding undoes encoding. *)
Lemma hexToBytes_bytesToHex b : hexToBytes (bytesToHex b) = Ok b.
Proof.
  unfold hexToBytes, bytesToHex.
  rewrite list_ascii_of_string_of_list_ascii, hexvals_hex_body, nibbles_even.
  rewrite pair_up_nibbles. reflexivity.
Qed.

Lemma strip_nonzero (h : ascii) (rest : string) :
  h <> "0"%char ->
  strip_leading_zeros (String h rest) = String h rest.
Proof.
  intro Hh. destruct h as [[] [] [] [] [] [] [] []];
    try reflexivity; contradiction.
Qed.

Lemma strip_zero (rest : string) :
  strip_leading_zeros (String "0" rest) = strip_leading_zeros rest.
Proof. reflexivity. Qed.

Lemma first_byte x :
  x <> x00 ->
  hexdigit (Byte.to_N x / 16) <> "0"%char \/
  (hexdigit (Byte.to_N x / 16) = "0"%char /\
   (Byte.to_N x / 16 = 0)%N /\
   hexdigit (Byte.to_N x mod 16) <> "0"%char).
Proof.
  intro Hx. destruct x; try contradiction;
    first [ left; discriminate | right; repeat split; discriminate ].
Qed.

Lemma bytesToHex_not_empty x t : bytesToHex (x :: t) <> "0x".
Proof. unfold bytesToHex. simpl. discriminate. Qed.

Lemma hex_value_bytesToHex b :
  hex_value (bytesToHex b) = Some (digits_value (flat_map nibbles b)).
Proof.
  unfold hex_value, bytesToHex.
  rewrite list_ascii_of_string_of_list_ascii, hexvals_hex_body. reflexivity.
Qed.

Lemma rpc_preserves_same t :
  (exists n, hex_value t = Some n) -> t <> "0x" -> rpc_preserves t t.
Proof.
  intros [n Hn] Hne. unfold rpc_preserves. repeat split; eauto; contradiction.
Qed.

Lemma rpc_preserves_unpadded b :
  (forall t, b <> x00 :: t) ->
  rpc_preserves (bytesToHex b) (toRpcHex (bytesToHex b)).
Proof.
  intros Hnz. destruct b as [|x t].
  { unfold rpc_preserves. cbn. repeat split; eauto; contradiction. }
  assert (Hx : x <> x00) by (intros ->; exact (Hnz t eq_refl)).
  destruct (first_byte x Hx) as [Hh | (Hh & Hd & Hl)].
  - assert (E : toRpcHex (bytesToHex (x :: t)) = bytesToHex (x :: t)).
    { unfold toRpcHex, bytesToHex. cbn [slice2 hex_body flat_map byte_hex app
        string_of_list_ascii].
      rewrite strip_nonzero by exact Hh. reflexivity. }
    rewrite E. apply rpc_preserves_same.
    + rewrite hex_value_bytesToHex. eauto.
    + apply bytesToHex_not_empty.
  - assert (E : toRpcHex (bytesToHex (x :: t)) =
                String "0" (String "x"
                  (String (hexdigit (Byte.to_N x mod 16))
                     (string_of_list_ascii (hex_body t))))).
    { unfold toRpcHex, bytesToHex. cbn [slice2 hex_body flat_map byte_hex app
        string_of_list_ascii].
      rewrite Hh, strip_zero, strip_nonzero by exact Hl. reflexivity. }
    rewrite E. unfold rpc_preserves.
    assert (Hv : hexvals (hexdigit (Byte.to_N x mod 16) :: hex_body t) =
                 Some ((Byte.to_N x mod 16)%N :: flat_map nibbles t)).
    { cbn [hexvals]. destruct (byte_digits x) as [_ ->].
      rewrite hexvals_hex_body. reflexivity. }
    split; [|split].
    + exists (digits_value (flat_map nibbles (x :: t))).
      split; [apply hex_value_bytesToHex|].
      unfold hex_value. cbn [list_ascii_of_string].
      rewrite list_ascii_of_string_of_list_ascii, Hv.
      cbn [option_map flat_map nibbles app]. rewrite Hd.
      unfold digits_value. reflexivity.
    + intros _. rewrite hexToBytes_bytesToHex.
      unfold hexToBytes. cbn [list_ascii_of_string].
      rewrite list_ascii_of_string_of_list_ascii, Hv.
      cbn [List.length].
      assert (Ho : Nat.even (S (List.length (flat_map nibbles t))) = false).
      { rewrite Nat.even_succ, <- Nat.negb_even, nibbles_even. reflexivity. }
      rewrite Ho. rewrite <- Hd.
      f_equal. exact (pair_up_nibbles (x :: t)).
    + intros Hemp. exfalso. exact (bytesToHex_not_empty _ _ Hemp).
Qed.

Lemma rpc_preserves_yParity (b : bool) :
  let y := if b then "0x" else "0x1" in rpc_preserves y (toRpcHex y).
Proof.
  destruct b; unfold rpc_preserves; cbn;
    repeat split; eauto; try contradiction; discriminate.
Qed.

(** C7 (amended).  For an item produced by [signAuthorizationListItem], the
    RPC transformation leaves [address] alone and, in each of [chainId],
    [nonce], [yParity], [r] and [s], keeps the number the hex text stands
    for; it also keeps the bytes the text decodes to, except for an empty
    field ["0x"], which becomes ["0x0"] and so decodes to the single byte
    0x00 instead of the empty byte string. *)
Theorem rpc_transformation_values (p : SignTxParams AuthInput)
  (st st' : State) (auth : AuthorizationListItem) :
  signAuthorizationListItem p st = (Resolved auth, st') ->
  signAuthorizationListItemForRPC p st = (Resolved (toRpcAuth auth), st') /\
  address (toRpcAuth auth) = address auth /\
  rpc_preserves (chainId auth) (chainId (toRpcAuth auth)) /\
  rpc_preserves (nonce auth) (nonce (toRpcAuth auth)) /\
  rpc_preserves (yParity auth) (yParity (toRpcAuth auth)) /\
  rpc_preserves (r auth) (r (toRpcAuth auth)) /\
  rpc_preserves (s auth) (s (toRpcAuth auth)).
Proof.
  intros Hrun. split.
  { unfold signAuthorizationListItemForRPC, async, bind, await, ret.
    rewrite Hrun. reflexivity. }
  destruct (signAuthorizationListItem_resolved _ _ _ _ Hrun)
    as (pk & key & cb & ab & nb & Hpk & Hne & Hkey & Hlen & Hc & Hn & Ha).
  rewrite (signAuthorizationListItem_run p st pk key cb ab nb) in Hrun
    by assumption.
  cbv zeta in Hrun.
  destruct (eth_ecdsaSign _ key (world st)) as [[e|signed] w'] eqn:Hs;
    [discriminate|].
  injection Hrun as <- <-.
  cbn [toRpcAuth chainId address nonce yParity r s base_toHex].
  split; [reflexivity|].
  pose proof (rpc_preserves_yParity (sig_v signed - 27 =? 0)%Z) as Hy.
  split; [|split; [|split; [exact Hy|split]]];
    apply rpc_preserves_unpadded; apply unpadBytes_stripped.
Qed.

End RpcFacts.

(* ------------------------------------------------------------------ *)
(** ** SuiWallet *)
(* ------------------------------------------------------------------ *)

Section SuiClaims.
Context {L : Libraries}.
Import SuiWallet.

Lemma keypair_pure (k : string) :
  exists x,
    pure_as (k' <- lift (tryDecodeSuiPrivateKey k) ;;
             seed <- lift (base_fromHex k') ;;
             lift (Ed25519Keypair_fromSeed seed)) x.
Proof.
  eapply pure_bind; [apply pure_lift|]. intros k' _.
  eapply pure_bind; [apply pure_lift|]. intros seed _.
  eexists. apply pure_lift.
Qed.

(** C8 (amended).  A paySUI [signTransaction] call whose [inputCoins] is
    missing or empty is rejected with [SignTxError], the constant every
    other failure of the operation is rejected with; the transaction block
    object may have been created by then, but it is neither built nor
    signed. *)
Theorem paySUI_missing_coins_rejected (p : SignTxParams) (st : State)
  (pay : PaySuiTransaction) :
  sd_type (data p) = "paySUI" ->
  sd_data (data p) = PayloadPaySui pay ->
  inputCoins pay = None \/ inputCoins pay = Some [] ->
  fst (signTransaction p st) = Rejected (Typed SignTxError) /\
  world (snd (signTransaction p st)) = world st /\
  (calls (snd (signTransaction p st)) = calls st \/
   calls (snd (signTransaction p st)) = calls st ++ [CallNewTransactionBlock]).
Proof.
  intros Hty Hdata Hcoins.
  assert (Hmiss : inputCoins_missing (sd_data (data p)) = true).
  { rewrite Hdata. unfold inputCoins_missing.
    destruct Hcoins as [-> | ->]; reflexivity. }
  unfold signTransaction, async, try_catch. cbv zeta.
  destruct (keypair_pure (privateKey p)) as [x Hx].
  rewrite (bind_pure _ _ _ _ Hx).
  destruct x as [e|keyPair]; [simpl; auto|].
  rewrite Hty. cbn [String.eqb Ascii.eqb Bool.eqb andb].
  unfold bind, call_pure, Ok. rewrite Hmiss. simpl. auto.
Qed.

(** C10.  [validAddress] never rejects: it resolves with the address it was
    given and with [isValid] true exactly when [base.fromHex] returns, with
    exactly 32 bytes (false as well when it throws). *)
Theorem validAddress_total (addr : string) (st : State) :
  exists v,
    validAddress addr st = (Resolved v, st) /\
    va_address v = addr /\
    (isValid v = true <->
     exists b, base_fromHex addr = inr b /\ List.length b = 32%nat).
Proof.
  unfold validAddress, async, try_catch, bind, lift, ret.
  destruct (base_fromHex addr) as [e|b]; simpl.
  - eexists. split; [reflexivity|]. split; [reflexivity|]. simpl.
    split; [discriminate|]. intros [b [Hb _]]. discriminate.
  - eexists. split; [reflexivity|]. split; [reflexivity|]. simpl.
    rewrite Nat.eqb_eq. split.
    + intros H. exists b. auto.
    + intros [b' [[= <-] H]]. exact H.
Qed.

End SuiClaims.

(* ------------------------------------------------------------------ *)
(** ** Over the signing pipeline: determinism and two-phase signing *)
(* ------------------------------------------------------------------ *)

Section TwoPhase.
Variable L0 : Libraries.
Variable P : Pipeline.

Local Abbreviation LP := (pipeline_libraries L0 P).

Lemma key_check_valid (k : string) (key : bytes) :
  str_nonempty k = true ->
  @base_fromHex L0 k = inr key ->
  List.length key = 32%nat ->
  @key_check LP (Some k) = true.
Proof.
  intros Hne Hkey Hlen. unfold key_check. rewrite Hne.
  cbn [base_fromHex pipeline_libraries]. rewrite Hkey, Hlen. reflexivity.
Qed.

(** A run of the signer of the pipeline with a key. *)
Lemma run_signer_keyed (k : string) (key : bytes) (tx : TxData)
  (st : @State LP) :
  str_nonempty k = true ->
  @base_fromHex L0 k = inr key ->
  @run_signer LP (Some k) tx st =
  (Resolved (SignedHex (serialize_signed tx (local_signature P tx key))),
   {| world := world st;
      calls := calls st ++ [CallSignTransaction (Some k) tx] |}).
Proof.
  intros Hne Hkey. unfold run_signer.
  cbn [eth_signTransaction pipeline_libraries]. unfold pipeline_signTransaction.
  rewrite Hne, Hkey. reflexivity.
Qed.

(** A run of the signer of the pipeline without a key. *)
Lemma run_signer_keyless (tx : TxData) (st : @State LP) :
  @run_signer LP None tx st =
  (Resolved (UnsignedRaw (raw_of tx) (signing_hash tx) (serializeRaw_of tx)),
   {| world := world st; calls := calls st ++ [CallSignTransaction None tx] |}).
Proof. reflexivity. Qed.

Lemma calcTxHash_stateless (signedTx : string) (st3 st4 : @State LP) :
  fst (@EthWallet.calcTxHash LP signedTx st3) =
  fst (@EthWallet.calcTxHash LP signedTx st4).
Proof.
  unfold EthWallet.calcTxHash, async, bind, lift, ret.
  destruct (base_fromHex signedTx) as [e|ser]; [reflexivity|].
  destruct (TransactionFactory_fromSerializedData ser) as [e|t]; [reflexivity|].
  destruct (tx_hash t); reflexivity.
Qed.



End TwoPhase.

(* ------------------------------------------------------------------ *)
(** ** The statements on concrete runs *)
(* ------------------------------------------------------------------ *)

Section ConcreteRuns.
Import Fixture.

(** The message of a sample authorization item: chain id 1 and nonce 0
    (given as ["0x0"]) lose their leading zeros, the address keeps its
    nineteen. *)
Lemma authorization_message_witness :
  exists c n,
    stripped_of [x01] c /\ stripped_of [x00] n /\
    calls (snd (@EthWallet.signAuthorizationListItem lib
                  (authParam (Some key32) (Some "0x0")) st0)) =
      [CallEcdsaSign
         (x05 :: rlp_encode
                   (RList [RBytes c; RBytes authAddressBytes; RBytes n]))
         key32_bytes].
Proof.
  destruct (@authorization_message lib (authParam (Some key32) (Some "0x0"))
              st0 key32 key32_bytes [x01] authAddressBytes [x00])
    as (c & n & Hc & Hn & Hcalls & _);
    try reflexivity.
  exists c, n. split; [exact Hc|]. split; [exact Hn|]. exact Hcalls.
Defined.

(** A legacy token transfer of the amount ["0x10"], with [useValue]: the
    amount is encoded in [data] and kept as [value]. *)
Lemma token_transfer_fields_witness :
  exists tx,
    calls (snd (@EthWallet.signTransaction lib
                  (signParam (Some key32) 0 (Some token) true) st0)) =
      [CallSignTransaction (Some key32) tx] /\
    tx_data tx =
      Some ("0xa9059cbb" ++
            string_of_list_ascii (hex_body transferEncoding))%string /\
    tx_to tx = Some token /\ tx_value tx = "0x10".
Proof.
  destruct (@token_transfer_fields lib
              (signParam (Some key32) 0 (Some token) true) st0
              (@txParams lib 0 (Some token) true) token 0 16%Z "0x10"
              transferEncoding
              eq_refl eq_refl eq_refl eq_refl eq_refl (or_introl eq_refl)
              eq_refl eq_refl eq_refl)
    as (tx & _ & Hcalls & Hdata & Hto & Hval).
  exists tx. auto.
Defined.

(** Type 3 is rejected; a type 2 call reaches the signer with a FeeMarket
    object. *)
Lemma unsupported_type_rejected_witness :
  @EthWallet.signTransaction lib (signParam None 3 None false) st0 =
    (Rejected (Typed SignTxError), st0) /\
  forall pk tx,
    calls (snd (@EthWallet.signTransaction lib
                  (signParam None 2 None false) st0)) =
      [CallSignTransaction pk tx] ->
    selected_shape (@JNumber (@BigNumber lib) 2) tx.
Proof.
  split.
  - apply (proj1 (@unsupported_type_rejected lib
                    (signParam None 3 None false) st0)).
    repeat split; reflexivity.
  - intros pk tx H.
    exact (proj2 (@unsupported_type_rejected lib
                    (signParam None 2 None false) st0) pk tx H).
Defined.

(** An unsupported type gets the very error a malformed key gets:
    [SignTxError], not an error of its own. *)
Lemma unsupported_type_counterexample :
  fst (@EthWallet.signTransaction lib (signParam None 3 None false) st0) =
    Rejected (Typed SignTxError) /\
  fst (@EthWallet.signTransaction lib (signParam (Some "0x01") 0 None false)
         st0) =
    Rejected (Typed SignTxError).
Proof. split; reflexivity. Qed.



Lemma fixture_pipeline_laws : PipelineLaws pipeline.
Proof.
  split; try reflexivity.
  - intros h key. cbn. unfold toyRecover. cbn.
    rewrite Bool.eqb_reflx. reflexivity.
  - intros h r s pub. cbn. unfold toyRecover.
    destruct (parityOf h); discriminate.
Defined.




(** The RPC form of a sample item with nonce 0. *)
Lemma rpc_transformation_values_witness :
  exists auth st',
    @EthWallet.signAuthorizationListItem lib
      (authParam (Some key32) (Some "0x0")) st0 = (Resolved auth, st') /\
    rpc_preserves (nonce auth) (nonce (EthWallet.toRpcAuth auth)) /\
    rpc_preserves (r auth) (r (EthWallet.toRpcAuth auth)).
Proof.
  assert (Hrun : exists auth st',
            @EthWallet.signAuthorizationListItem lib
              (authParam (Some key32) (Some "0x0")) st0 = (Resolved auth, st'))
    by (eexists; eexists; reflexivity).
  destruct Hrun as (auth & st' & Hrun).
  destruct (@rpc_transformation_values lib _ _ _ _ Hrun)
    as (_ & _ & _ & Hn & _ & Hr & _).
  exists auth, st'. auto.
Defined.

(** For nonce 0 the item carries ["0x"], which decodes to no byte; its RPC
    form carries ["0x0"], which decodes to one zero byte. *)
Lemma rpc_bytes_counterexample :
  exists auth st',
    @EthWallet.signAuthorizationListItem lib
      (authParam (Some key32) (Some "0x0")) st0 = (Resolved auth, st') /\
    hexToBytes (nonce auth) = Ok [] /\
    hexToBytes (nonce (EthWallet.toRpcAuth auth)) = Ok [x00] /\
    hexToBytes (nonce (EthWallet.toRpcAuth auth)) <> hexToBytes (nonce auth).
Proof.
  eexists. eexists. split; [reflexivity|].
  split; [reflexivity|]. split; [reflexivity|]. discriminate.
Qed.

Lemma paySUI_missing_coins_rejected_witness :
  fst (@SuiWallet.signTransaction lib (suiParam suiKey (Some [])) st0) =
    Rejected (Typed SignTxError) /\
  calls (snd (@SuiWallet.signTransaction lib (suiParam suiKey (Some [])) st0))
    = [CallNewTransactionBlock].
Proof.
  destruct (@paySUI_missing_coins_rejected lib (suiParam suiKey (Some []))
              st0 (paySuiTransaction (Some [])))
    as (Hrej & _ & Hcalls); try reflexivity.
  - right. reflexivity.
  - split; [exact Hrej|]. reflexivity.
Defined.

(** An empty coin set gets the very error an undecodable key gets:
    [SignTxError], not an error of its own. *)
Lemma missing_coins_counterexample :
  fst (@SuiWallet.signTransaction lib (suiParam suiKey (Some [])) st0) =
    Rejected (Typed SignTxError) /\
  fst (@SuiWallet.signTransaction lib (suiParam "0x01" (Some [coin])) st0) =
    Rejected (Typed SignTxError).
Proof. split; reflexivity. Qed.

(** Parity 1 in the sample run. *)
Lemma yParity_rendering_witness :
  exists auth st',
    @EthWallet.signAuthorizationListItem lib
      (authParam (Some key32) (Some "0x0")) st0 = (Resolved auth, st') /\
    yParity auth <> "0x0".
Proof.
  assert (Hrun : exists auth st',
            @EthWallet.signAuthorizationListItem lib
              (authParam (Some key32) (Some "0x0")) st0 = (Resolved auth, st'))
    by (eexists; eexists; reflexivity).
  destruct Hrun as (auth & st' & Hrun).
  destruct (@yParity_rendering lib _ _ _ _ Hrun)
    as (msg & key & signed & w' & _ & _ & _ & _ & Hy & _).
  exists auth, st'. auto.
Defined.

End ConcreteRuns.

(* ================================================================== *)
(** * Further properties *)
(* ================================================================== *)

(* ------------------------------------------------------------------ *)
(** ** toRpcHex and toRpcAuth *)
(* ------------------------------------------------------------------ *)

Section RpcHexAlgebra.
Import EthWallet.

Lemma strip_leading_zeros_head (body : string) :
  strip_leading_zeros body = EmptyString \/
  exists c rest,
    strip_leading_zeros body = String c rest /\ c <> "0"%char.
Proof.
  induction body as [|a body IH]; [left; reflexivity|].
  destruct (ascii_dec a "0"%char) as [-> | Ha].
  - rewrite strip_zero. exact IH.
  - right. exists a, body. split; [apply strip_nonzero; exact Ha | exact Ha].
Qed.

Lemma toRpcHex_shape (hex : string) :
  toRpcHex hex = "0x0" \/
  exists c rest,
    toRpcHex hex = String "0" (String "x" (String c rest)) /\
    c <> "0"%char /\
    strip_leading_zeros (slice2 hex) = String c rest.
Proof.
  unfold toRpcHex.
  destruct (strip_leading_zeros_head (slice2 hex)) as [E | (c & rest & E & Hc)].
  - left. rewrite E. reflexivity.
  - right. exists c, rest. rewrite E. cbn. auto.
Qed.

(** X1.  [toRpcHex] is idempotent on every text, and so is [toRpcAuth] on
    every item: an item already in RPC form is left as it is. *)
Theorem toRpc_idempotent :
  (forall hex, toRpcHex (toRpcHex hex) = toRpcHex hex) /\
  (forall auth, toRpcAuth (toRpcAuth auth) = toRpcAuth auth).
Proof.
  assert (H : forall hex, toRpcHex (toRpcHex hex) = toRpcHex hex).
  { intro hex.
    destruct (toRpcHex_shape hex) as [E | (c & rest & E & Hc & _)];
      rewrite E.
    - reflexivity.
    - unfold toRpcHex. cbn [slice2].
      rewrite strip_nonzero by exact Hc. reflexivity. }
  split; [exact H|].
  intro auth. unfold toRpcAuth. cbn [chainId address nonce yParity r s].
  rewrite !H. reflexivity.
Qed.

(** X2.  Whatever text it is given (its first two characters are dropped
    unread, be they ["0x"] or not), [toRpcHex] returns ["0x0"] or ["0x"]
    followed by a non-empty body that does not start with the digit 0; the
    body is a suffix of the input. *)
Theorem toRpcHex_canonical (hex : string) :
  (toRpcHex hex = "0x0" \/
   exists c rest,
     toRpcHex hex = String "0" (String "x" (String c rest)) /\
     c <> "0"%char /\
     exists zeros, slice2 hex = (zeros ++ String c rest)%string) /\
  (forall a b rest,
     toRpcHex (String a (String b rest)) = toRpcHex ("0x" ++ rest)%string) /\
  toRpcHex "" = "0x0" /\
  (forall a, toRpcHex (String a "") = "0x0").
Proof.
  split; [|repeat split].
  destruct (toRpcHex_shape hex) as [E | (c & rest & E & Hc & Hs)];
    [left; exact E|].
  right. exists c, rest. split; [exact E|]. split; [exact Hc|].
  clear E. revert Hs. generalize (slice2 hex) as body.
  induction body as [|a body IH]; [discriminate|].
  destruct (ascii_dec a "0"%char) as [-> | Ha].
  - rewrite strip_zero. intro Hs. destruct (IH Hs) as [zeros ->].
    exists (String "0" zeros). reflexivity.
  - rewrite strip_nonzero by exact Ha. intros [= -> ->].
    exists EmptyString. reflexivity.
Qed.

Lemma digits_value_zero ds : digits_value (0%N :: ds) = digits_value ds.
Proof. reflexivity. Qed.

Lemma hexvals_strip (body : string) (ds : list N) :
  hexvals (list_ascii_of_string body) = Some ds ->
  exists ds',
    hexvals (list_ascii_of_string (strip_leading_zeros body)) = Some ds' /\
    digits_value ds' = digits_value ds.
Proof.
  revert ds. induction body as [|a body IH]; intros ds H.
  - exists ds. auto.
  - destruct (ascii_dec a "0"%char) as [-> | Ha].
    + rewrite strip_zero. cbn [list_ascii_of_string hexvals] in H.
      change (hexval "0"%char) with (Some 0%N) in H.
      destruct (hexvals (list_ascii_of_string body)) as [ds0|] eqn:E;
        [|discriminate].
      injection H as <-. destruct (IH ds0 eq_refl) as (ds' & H1 & H2).
      exists ds'. split; [exact H1|]. rewrite digits_value_zero. exact H2.
    + rewrite strip_nonzero by exact Ha. exists ds. auto.
Qed.

(** X3.  On every well-formed hex text, not only on the fields of a signed
    item, [toRpcHex] keeps the number the text stands for. *)
Theorem toRpcHex_value (hex : string) (n : N) :
  hex_value hex = Some n -> hex_value (toRpcHex hex) = Some n.
Proof.
  unfold hex_value.
  destruct hex as [|a hex]; [discriminate|].
  destruct (ascii_dec a "0"%char) as [-> | Ha].
  2:{ destruct a as [[] [] [] [] [] [] [] []]; try discriminate;
        contradiction. }
  destruct hex as [|b body]; [discriminate|].
  destruct (ascii_dec b "x"%char) as [-> | Hb].
  2:{ destruct b as [[] [] [] [] [] [] [] []]; try discriminate;
        contradiction. }
  destruct (hexvals (list_ascii_of_string body)) as [ds|] eqn:E;
    [|discriminate].
  cbn [option_map]. intros [= <-].
  destruct (hexvals_strip body ds E) as (ds' & H1 & H2).
  unfold toRpcHex. cbn [slice2].
  destruct (strip_leading_zeros body) as [|c rest] eqn:Es.
  - cbn in H1. injection H1 as <-. cbn. rewrite <- H2. reflexivity.
  - cbn [str_nonempty]. cbn [append]. rewrite H1. cbn. rewrite H2. reflexivity.
Qed.

End RpcHexAlgebra.

(* ------------------------------------------------------------------ *)
(** ** signAuthorizationListItem, step by step *)
(* ------------------------------------------------------------------ *)

Section AuthorizationSteps.
Context {L : Libraries}.
Import EthWallet.

(** The whole of [signAuthorizationListItem], as the sequence of checks it
    makes and the one signing call that follows them. *)
Lemma signAuthorizationListItem_steps (p : SignTxParams AuthInput) st :
  signAuthorizationListItem p st =
  match privateKey p with
  | None => (Rejected (RawError "privateKey is invalid"), st)
  | Some pk =>
      if negb (str_nonempty pk)
      then (Rejected (RawError "privateKey is invalid"), st)
      else
        match base_fromHex pk with
        | inl e => (Rejected e, st)
        | inr key =>
        match assertBufferLength key 32 with
        | inl e => (Rejected e, st)
        | inr _ =>
        match hexToBytes (ad_chainId (data p)) with
        | inl e => (Rejected e, st)
        | inr cb =>
        match match ad_nonce (data p) with
              | Some n => hexToBytes n
              | None => inr []
              end with
        | inl e => (Rejected e, st)
        | inr nb =>
        match hexToBytes (ad_address (data p)) with
        | inl e => (Rejected e, st)
        | inr ab =>
            let msg :=
              eth_keccak256
                (x05 :: rlp_encode
                   (RList [RBytes (unpadBytes cb); RBytes ab;
                           RBytes (unpadBytes nb)])) in
            match eth_ecdsaSign msg key (world st) with
            | (inr signed, w') =>
                (Resolved
                   {| chainId := bytesToHex (unpadBytes cb);
                      address := ad_address (data p);
                      nonce := bytesToHex (unpadBytes nb);
                      yParity :=
                        if (sig_v signed - 27 =? 0)%Z then "0x" else "0x1";
                      r := bytesToHex (unpadBytes (sig_r signed));
                      s := bytesToHex (unpadBytes (sig_s signed)) |},
                 {| world := w';
                    calls := calls st ++ [CallEcdsaSign msg key] |})
            | (inl e, w') =>
                (Rejected e,
                 {| world := w';
                    calls := calls st ++ [CallEcdsaSign msg key] |})
            end
        end end end end end
  end.
Proof.
  destruct (privateKey p) as [pk|] eqn:Hpk.
  2:{ apply missing_key_raw_error. rewrite Hpk. reflexivity. }
  destruct (str_nonempty pk) eqn:Hne; cbn [negb].
  2:{ apply missing_key_raw_error. rewrite Hpk. exact Hne. }
  destruct (base_fromHex pk) as [e|key] eqn:Hkey.
  { unfold signAuthorizationListItem, async. rewrite Hpk, Hne. cbn [negb].
    rewrite (bind_pure _ _ _ _ (pure_lift _)), Hkey. reflexivity. }
  destruct (assertBufferLength key 32) as [e|[]] eqn:Hlen.
  { unfold signAuthorizationListItem, async. rewrite Hpk, Hne. cbn [negb].
    rewrite (bind_pure _ _ _ _ (pure_lift _)), Hkey.
    rewrite bind_assoc, (bind_pure _ _ _ _ (pure_lift _)).
    rewrite (bind_pure _ _ _ _ (pure_lift _)), Hlen. reflexivity. }
  assert (Hlen' : List.length key = 32%nat).
  { unfold assertBufferLength in Hlen.
    destruct (List.length key =? 32)%nat eqn:E; [|discriminate].
    apply Nat.eqb_eq. exact E. }
  destruct (hexToBytes (ad_chainId (data p))) as [e|cb] eqn:Hc.
  { unfold signAuthorizationListItem, async. rewrite Hpk, Hne. cbn [negb].
    rewrite (bind_pure _ _ _ _ (pure_lift _)), Hkey.
    rewrite bind_assoc, (bind_pure _ _ _ _ (pure_lift _)).
    rewrite (bind_pure _ _ _ _ (pure_lift _)), Hlen.
    rewrite bind_assoc, (bind_pure _ _ _ _ (pure_lift _)), Hc. reflexivity. }
  destruct (ad_nonce (data p)) as [n|] eqn:Hn.
  - destruct (hexToBytes n) as [e|nb] eqn:Hnb.
    { unfold signAuthorizationListItem, async. rewrite Hpk, Hne. cbn [negb].
      rewrite (bind_pure _ _ _ _ (pure_lift _)), Hkey.
      rewrite bind_assoc, (bind_pure _ _ _ _ (pure_lift _)).
      rewrite (bind_pure _ _ _ _ (pure_lift _)), Hlen.
      rewrite bind_assoc, (bind_pure _ _ _ _ (pure_lift _)), Hc, bind_ret.
      rewrite Hn.
      rewrite bind_assoc, (bind_pure _ _ _ _ (pure_lift _)), Hnb.
      reflexivity. }
    destruct (hexToBytes (ad_address (data p))) as [e|ab] eqn:Ha.
    { unfold signAuthorizationListItem, async. rewrite Hpk, Hne. cbn [negb].
      rewrite (bind_pure _ _ _ _ (pure_lift _)), Hkey.
      rewrite bind_assoc, (bind_pure _ _ _ _ (pure_lift _)).
      rewrite (bind_pure _ _ _ _ (pure_lift _)), Hlen.
      rewrite bind_assoc, (bind_pure _ _ _ _ (pure_lift _)), Hc, bind_ret.
      rewrite Hn.
      rewrite bind_assoc, (bind_pure _ _ _ _ (pure_lift _)), Hnb, bind_ret.
      rewrite (bind_pure _ _ _ _ (pure_lift _)), Ha. reflexivity. }
    rewrite (signAuthorizationListItem_run p st pk key cb ab nb);
      try assumption; [reflexivity | rewrite Hn; exact Hnb].
  - destruct (hexToBytes (ad_address (data p))) as [e|ab] eqn:Ha.
    { unfold signAuthorizationListItem, async. rewrite Hpk, Hne. cbn [negb].
      rewrite (bind_pure _ _ _ _ (pure_lift _)), Hkey.
      rewrite bind_assoc, (bind_pure _ _ _ _ (pure_lift _)).
      rewrite (bind_pure _ _ _ _ (pure_lift _)), Hlen.
      rewrite bind_assoc, (bind_pure _ _ _ _ (pure_lift _)), Hc, bind_ret.
      rewrite Hn, bind_ret.
      rewrite (bind_pure _ _ _ _ (pure_lift _)), Ha. reflexivity. }
    rewrite (signAuthorizationListItem_run p st pk key cb ab []);
      try assumption; [reflexivity | rewrite Hn; reflexivity].
Qed.

(** X4.  [chainId] and [nonce] count modulo their leading zero bytes, and
    an omitted [nonce] counts as zero: two calls with the same key and the
    same address text whose [chainId] texts, and whose [nonce] texts, decode
    to the same bytes once leading zeros are dropped settle alike (same item
    or error, same signing call). *)
Theorem authorization_modulo_leading_zeros
  (pk : option string) (a : string)
  (c1 c2 : string) (n1 n2 : option string) (o1 o2 : list (string * string))
  (cb1 cb2 nb1 nb2 : bytes) (st : State) :
  hexToBytes c1 = inr cb1 ->
  hexToBytes c2 = inr cb2 ->
  unpadBytes cb1 = unpadBytes cb2 ->
  match n1 with Some n => hexToBytes n | None => inr [] end = inr nb1 ->
  match n2 with Some n => hexToBytes n | None => inr [] end = inr nb2 ->
  unpadBytes nb1 = unpadBytes nb2 ->
  signAuthorizationListItem
    {| privateKey := pk;
       data := {| ad_chainId := c1; ad_nonce := n1; ad_address := a;
                  ad_other := o1 |} |} st =
  signAuthorizationListItem
    {| privateKey := pk;
       data := {| ad_chainId := c2; ad_nonce := n2; ad_address := a;
                  ad_other := o2 |} |} st.
Proof.
  intros Hc1 Hc2 Hc Hn1 Hn2 Hn.
  rewrite !signAuthorizationListItem_steps.
  cbn [privateKey data ad_chainId ad_nonce ad_address].
  rewrite Hc1, Hc2, Hn1, Hn2, Hc, Hn. reflexivity.
Qed.

(** X5.  The item that a successful call returns is in canonical form, as
    the source comment asks: each of [chainId], [nonce], [r] and [s] decodes
    to a byte string without a leading zero byte (the empty one for zero),
    [yParity] is ["0x"] or ["0x1"], and [address] is the text that was
    given, untouched. *)
Theorem authorization_item_canonical (p : SignTxParams AuthInput)
  (st st' : State) (auth : AuthorizationListItem) :
  signAuthorizationListItem p st = (Resolved auth, st') ->
  (forall f, In f [chainId auth; nonce auth; r auth; s auth] ->
     exists b, hexToBytes f = Ok b /\ forall t, b <> x00 :: t) /\
  (yParity auth = "0x" \/ yParity auth = "0x1") /\
  address auth = ad_address (data p).
Proof.
  rewrite signAuthorizationListItem_steps.
  destruct (privateKey p) as [pk|]; [|discriminate].
  destruct (negb (str_nonempty pk)); [discriminate|].
  destruct (base_fromHex pk) as [e|key]; [discriminate|].
  destruct (assertBufferLength key 32) as [e|[]]; [discriminate|].
  destruct (hexToBytes (ad_chainId (data p))) as [e|cb]; [discriminate|].
  destruct (match ad_nonce (data p) with
            | Some n => hexToBytes n
            | None => inr []
            end) as [e|nb]; [discriminate|].
  destruct (hexToBytes (ad_address (data p))) as [e|ab]; [discriminate|].
  cbv zeta.
  destruct (eth_ecdsaSign _ key (world st)) as [[e|signed] w'];
    [discriminate|].
  intros [= <- _]. cbn [chainId nonce r s yParity address].
  split; [|split; [|reflexivity]].
  - intros f [<- | [<- | [<- | [<- | []]]]];
      eexists; (split; [apply hexToBytes_bytesToHex
                       | apply unpadBytes_stripped]).
  - destruct (sig_v signed - 27 =? 0)%Z; auto.
Qed.

(** X6.  Nothing is signed before the input is validated: a call either is
    rejected with the state untouched (no signing call, the world as it
    was), or its key decodes to exactly 32 bytes, its three fields decode,
    and exactly one signing call is made, with that key. *)
Theorem authorization_signs_validated_input (p : SignTxParams AuthInput)
  (st : State) :
  (exists e, signAuthorizationListItem p st = (Rejected e, st)) \/
  (exists pk key cb ab msg,
     privateKey p = Some pk /\
     base_fromHex pk = inr key /\
     List.length key = 32%nat /\
     hexToBytes (ad_chainId (data p)) = inr cb /\
     hexToBytes (ad_address (data p)) = inr ab /\
     calls (snd (signAuthorizationListItem p st)) =
       calls st ++ [CallEcdsaSign msg key]).
Proof.
  rewrite signAuthorizationListItem_steps.
  destruct (privateKey p) as [pk|] eqn:Hpk; [|left; eauto].
  destruct (negb (str_nonempty pk)); [left; eauto|].
  destruct (base_fromHex pk) as [e|key] eqn:Hkey; [left; eauto|].
  destruct (assertBufferLength key 32) as [e|[]] eqn:Hlen; [left; eauto|].
  destruct (hexToBytes (ad_chainId (data p))) as [e|cb] eqn:Hc;
    [left; eauto|].
  destruct (match ad_nonce (data p) with
            | Some n => hexToBytes n
            | None => inr []
            end) as [e|nb]; [left; eauto|].
  destruct (hexToBytes (ad_address (data p))) as [e|ab] eqn:Ha;
    [left; eauto|].
  right. exists pk, key, cb, ab. eexists.
  split; [reflexivity|]. split; [exact Hkey|].
  split.
  { unfold assertBufferLength in Hlen.
    destruct (List.length key =? 32)%nat eqn:E; [|discriminate].
    apply Nat.eqb_eq. exact E. }
  split; [reflexivity|]. split; [reflexivity|].
  cbv zeta.
  destruct (eth_ecdsaSign _ key (world st)) as [[e|signed] w']; reflexivity.
Qed.

End AuthorizationSteps.

(* ------------------------------------------------------------------ *)
(** ** More on EthWallet.signTransaction *)
(* ------------------------------------------------------------------ *)

Section SignTransactionMore.
Context {L : Libraries}.
Import EthWallet.

Lemma js_or_idem {B} (x y : jsval B) : js_or (js_or x y) y = js_or x y.
Proof.
  unfold js_or. destruct (truthy x) eqn:E; [rewrite E; reflexivity|].
  destruct (truthy y); reflexivity.
Qed.

(** The normalization depends on the seven numbers only through what the
    converter makes of them. *)
Lemma convert2TxParam_record (d : TxInput) :
  exists x,
    forall d', same_numbers d d' ->
      pure_as (convert2TxParam d')
        (match x with
         | inl e => inl e
         | inr nums => inr (params_of d' nums)
         end).
Proof.
  destruct (convert2HexString_pure (js_or (d_value d) (JNumber 0)))
    as [[e|value] H1];
    [exists (inl e); intros d' (E1 & _); unfold convert2TxParam; rewrite E1;
     apply (pure_bind_inl _ _ _ H1)|].
  destruct (convert2HexString_pure (d_nonce d)) as [[e|nonce] H2].
  { exists (inl e). intros d' (E1 & E2 & _). unfold convert2TxParam.
    rewrite E1, E2. intro st. rewrite (bind_pure _ _ _ _ H1).
    apply (pure_bind_inl _ _ _ H2). }
  destruct (convert2HexString_pure (js_or (d_gasPrice d) (JNumber 0)))
    as [[e|gasPrice] H3].
  { exists (inl e). intros d' (E1 & E2 & E3 & _). unfold convert2TxParam.
    rewrite E1, E2, E3. intro st.
    rewrite (bind_pure _ _ _ _ H1), (bind_pure _ _ _ _ H2).
    apply (pure_bind_inl _ _ _ H3). }
  destruct (convert2HexString_pure (js_or (d_gasLimit d) (JNumber 0)))
    as [[e|gasLimit] H4].
  { exists (inl e). intros d' (E1 & E2 & E3 & E4 & _). unfold convert2TxParam.
    rewrite E1, E2, E3, E4. intro st.
    rewrite (bind_pure _ _ _ _ H1), (bind_pure _ _ _ _ H2),
      (bind_pure _ _ _ _ H3).
    apply (pure_bind_inl _ _ _ H4). }
  destruct (convert2HexString_pure (js_or (d_chainId d) (JNumber 1)))
    as [[e|chainId] H5].
  { exists (inl e). intros d' (E1 & E2 & E3 & E4 & E5 & _).
    unfold convert2TxParam. rewrite E1, E2, E3, E4, E5. intro st.
    rewrite (bind_pure _ _ _ _ H1), (bind_pure _ _ _ _ H2),
      (bind_pure _ _ _ _ H3), (bind_pure _ _ _ _ H4).
    apply (pure_bind_inl _ _ _ H5). }
  destruct (convert2HexString_pure
              (js_or (d_maxPriorityFeePerGas d) (JNumber 0)))
    as [[e|maxPriority] H6].
  { exists (inl e). intros d' (E1 & E2 & E3 & E4 & E5 & E6 & _).
    unfold convert2TxParam. rewrite E1, E2, E3, E4, E5, E6. intro st.
    rewrite (bind_pure _ _ _ _ H1), (bind_pure _ _ _ _ H2),
      (bind_pure _ _ _ _ H3), (bind_pure _ _ _ _ H4), (bind_pure _ _ _ _ H5).
    apply (pure_bind_inl _ _ _ H6). }
  destruct (convert2HexString_pure (js_or (d_maxFeePerGas d) (JNumber 0)))
    as [[e|maxFee] H7].
  { exists (inl e). intros d' (E1 & E2 & E3 & E4 & E5 & E6 & E7).
    unfold convert2TxParam. rewrite E1, E2, E3, E4, E5, E6, E7. intro st.
    rewrite (bind_pure _ _ _ _ H1), (bind_pure _ _ _ _ H2),
      (bind_pure _ _ _ _ H3), (bind_pure _ _ _ _ H4), (bind_pure _ _ _ _ H5),
      (bind_pure _ _ _ _ H6).
    apply (pure_bind_inl _ _ _ H7). }
  exists (inr (value, nonce, gasPrice, gasLimit, chainId, maxPriority, maxFee)).
  intros d' (E1 & E2 & E3 & E4 & E5 & E6 & E7).
  unfold convert2TxParam. rewrite E1, E2, E3, E4, E5, E6, E7. intro st.
  rewrite (bind_pure _ _ _ _ H1), (bind_pure _ _ _ _ H2),
    (bind_pure _ _ _ _ H3), (bind_pure _ _ _ _ H4), (bind_pure _ _ _ _ H5),
    (bind_pure _ _ _ _ H6), (bind_pure _ _ _ _ H7).
  reflexivity.
Qed.

Lemma same_numbers_refl d : same_numbers d d.
Proof. unfold same_numbers. auto 10. Qed.

(** What [signTransaction] does once the parameters are normalized, for
    any outcome of the normalization. *)
Lemma signTransaction_by_params p st x :
  pure_as (convert2TxParam (data p)) x ->
  signTransaction p st =
  if key_check (privateKey p) then
    match x with
    | inl _ => (Rejected (Typed SignTxError), st)
    | inr tp =>
        match tp_type tp with
        | JNumber ty =>
            if ((ty =? 0) || (ty =? 1) || (ty =? 2) || (ty =? 4))%Z then
              if truthy_str (tp_contractAddress tp) then
                match abi_RawEncode (tp_to tp) (tp_value tp) with
                | inr enc =>
                    run_signer (privateKey p)
                      (assembled tp ty (tp_contractAddress tp)
                         (if ((ty =? 0) || (ty =? 1))%Z &&
                             truthy (tp_useValue tp)
                          then tp_value tp else "0x0")
                         (Some (TOKEN_TRANSFER_FUNCTION_SIGNATURE ++
                                string_of_list_ascii (hex_body enc))%string))
                      st
                | inl _ => (Rejected (Typed SignTxError), st)
                end
              else
                run_signer (privateKey p)
                  (assembled tp ty (tp_to tp) (tp_value tp) (tp_data tp)) st
            else (Rejected (Typed SignTxError), st)
        | _ => (Rejected (Typed SignTxError), st)
        end
    end
  else (Rejected (Typed SignTxError), st).
Proof.
  intros Hx. destruct (key_check (privateKey p)) eqn:Hk.
  2:{ apply signTransaction_bad_key. exact Hk. }
  destruct x as [e|tp].
  { eapply signTransaction_bad_param. exact Hx. }
  destruct (convert2TxParam_pure (data p)) as [y [Hy Hf]].
  assert (y = inr tp) as ->.
  { specialize (Hx st). specialize (Hy st). congruence. }
  destruct (Hf tp eq_refl) as (_ & _ & _ & Hty & _).
  destruct (type_cases (tp_type tp)) as [[z [Hz Hsup]] | Hun].
  - rewrite Hz.
    rewrite (signTransaction_supported p st tp z Hk Hx Hz Hsup).
    destruct Hsup as [ -> | [ -> | [ -> | -> ] ] ]; reflexivity.
  - rewrite signTransaction_unsupported by (rewrite <- Hty; exact Hun).
    destruct Hun as (H0 & H1 & H2 & H4).
    destruct (tp_type tp) as [|b|z|t|n]; try reflexivity.
    cbn in H0, H1, H2, H4. rewrite H0, H1, H2, H4. reflexivity.
Qed.

(** X7.  A private key that is given but does not decode to exactly 32
    bytes never reaches the signer: the call is rejected with [SignTxError]
    and the state is as before. *)
Theorem signTransaction_rejects_bad_key (p : SignTxParams TxInput)
  (st : State) (k : string) :
  privateKey p = Some k ->
  str_nonempty k = true ->
  match base_fromHex k with
  | inr buf => List.length buf <> 32%nat
  | inl _ => True
  end ->
  signTransaction p st = (Rejected (Typed SignTxError), st).
Proof.
  intros Hk Hne Hbad. apply signTransaction_bad_key.
  unfold key_check. rewrite Hk, Hne.
  destruct (base_fromHex k) as [e|buf]; [reflexivity|].
  apply Nat.eqb_neq. exact Hbad.
Qed.

(** X8.  Without a contract address the transfer fields go through as they
    are: the signer receives the caller's [to] and [data] and the normalized
    [value]; nothing is synthesized and [useValue] plays no part. *)
Theorem plain_transfer_fields (p : SignTxParams TxInput) (st : State)
  (tp : EthTxParams) (ty : Z) :
  key_check (privateKey p) = true ->
  convert2TxParam (data p) st = (inr tp, st) ->
  truthy_str (d_contractAddress (data p)) = false ->
  js_or (d_type (data p)) (JNumber 0) = JNumber ty ->
  (ty = 0 \/ ty = 1 \/ ty = 2 \/ ty = 4)%Z ->
  exists tx,
    calls (snd (signTransaction p st)) =
      calls st ++ [CallSignTransaction (privateKey p) tx] /\
    tx_to tx = d_to (data p) /\
    tx_value tx = tp_value tp /\
    tx_data tx = d_data (data p) /\
    tx_type tx = ty.
Proof.
  intros Hk Hconv Htok Hty Hsup.
  destruct (convert2TxParam_pure (data p)) as [x [Hx Hf]].
  assert (x = inr tp) as -> by (eapply pure_as_unique; eassumption).
  destruct (Hf tp eq_refl) as (Hto & Hc & Hdata & Htype & _).
  rewrite Hty in Htype.
  pose proof (signTransaction_supported p st tp ty Hk Hx Htype Hsup) as E.
  rewrite Hc, Htok in E.
  eexists. rewrite E, run_signer_calls. split; [reflexivity|].
  rewrite <- Hto, <- Hdata. unfold assembled.
  destruct Hsup as [ -> | [ -> | [ -> | -> ] ] ]; cbn; auto.
Qed.

Lemma params_of_with_defaults d nums :
  params_of (with_defaults d) nums = params_of d nums.
Proof.
  destruct nums as [[[[[[v n] gp] gl] c] mp] mf].
  unfold params_of, with_defaults. cbn. rewrite !js_or_idem. reflexivity.
Qed.

(** X9.  A falsy optional field acts as its fallback: [signTransaction]
    settles on [d] exactly as on [d] with the fallbacks written out, so a
    missing [type] is type 0, and a [chainId] of 0 (or an empty one) is
    signed as chain 1, as a missing one is. *)
Theorem falsy_fields_take_fallbacks (pk : option string) (d : TxInput)
  (st : State) :
  signTransaction {| privateKey := pk; data := with_defaults d |} st =
  signTransaction {| privateKey := pk; data := d |} st.
Proof.
  destruct (convert2TxParam_record d) as [x Hx].
  assert (Hsame : same_numbers d (with_defaults d)).
  { unfold same_numbers, with_defaults. cbn. rewrite !js_or_idem. auto 10. }
  rewrite (signTransaction_by_params
             {| privateKey := pk; data := with_defaults d |} st _
             (Hx _ Hsame)).
  rewrite (signTransaction_by_params {| privateKey := pk; data := d |} st _
             (Hx _ (same_numbers_refl d))).
  cbn [privateKey data].
  destruct x as [e|nums]; [reflexivity|].
  rewrite params_of_with_defaults. reflexivity.
Qed.

(** X10.  [useValue] matters only to a token transfer of type 0 or 1:
    without a contract address, or with type 2 or 4, any two values of it
    give the same settlement. *)
Theorem useValue_only_for_legacy_token_transfer (pk : option string)
  (d : TxInput) (u : jsval BigNumber) (st : State) :
  truthy_str (d_contractAddress d) = false \/
  js_or (d_type d) (JNumber 0) = JNumber 2 \/
  js_or (d_type d) (JNumber 0) = JNumber 4 ->
  signTransaction {| privateKey := pk; data := set_useValue d u |} st =
  signTransaction {| privateKey := pk; data := d |} st.
Proof.
  intros Hcase.
  destruct (convert2TxParam_record d) as [x Hx].
  assert (Hsame : same_numbers d (set_useValue d u))
    by (unfold same_numbers; cbn; auto 10).
  rewrite (signTransaction_by_params
             {| privateKey := pk; data := set_useValue d u |} st _
             (Hx _ Hsame)).
  rewrite (signTransaction_by_params {| privateKey := pk; data := d |} st _
             (Hx _ (same_numbers_refl d))).
  cbn [privateKey data].
  destruct x as [e|nums]; [reflexivity|].
  destruct nums as [[[[[[v n] gp] gl] c] mp] mf].
  unfold params_of. cbn [tp_type tp_contractAddress tp_to tp_value tp_data
    tp_useValue set_useValue d_type d_contractAddress d_to d_data d_useValue
    d_authorizationList].
  destruct Hcase as [Htok | [Hty | Hty]].
  - rewrite Htok. reflexivity.
  - rewrite Hty. reflexivity.
  - rewrite Hty. reflexivity.
Qed.

(** X11.  The authorization list reaches the signer with type 4 only: for
    every other normalized type, any two lists give the same settlement. *)
Theorem authorizationList_only_for_type_4 (pk : option string)
  (d : TxInput) (l : option (list AuthorizationListItem)) (st : State) :
  strict_eq_number (js_or (d_type d) (JNumber 0)) 4 = false ->
  signTransaction {| privateKey := pk; data := set_authorizationList d l |} st
  = signTransaction {| privateKey := pk; data := d |} st.
Proof.
  intros Hty.
  destruct (convert2TxParam_record d) as [x Hx].
  assert (Hsame : same_numbers d (set_authorizationList d l))
    by (unfold same_numbers; cbn; auto 10).
  rewrite (signTransaction_by_params
             {| privateKey := pk; data := set_authorizationList d l |} st _
             (Hx _ Hsame)).
  rewrite (signTransaction_by_params {| privateKey := pk; data := d |} st _
             (Hx _ (same_numbers_refl d))).
  cbn [privateKey data].
  destruct x as [e|nums]; [reflexivity|].
  destruct nums as [[[[[[v n] gp] gl] c] mp] mf].
  unfold params_of. cbn [tp_type tp_contractAddress tp_to tp_value tp_data
    tp_useValue set_authorizationList d_type d_contractAddress d_to d_data
    d_useValue d_authorizationList].
  destruct (js_or (d_type d) (JNumber 0)) as [|b|ty|t|bn]; try reflexivity.
  cbn in Hty.
  destruct (Z.eqb_spec ty 0) as [-> | H0]; [reflexivity|].
  destruct (Z.eqb_spec ty 1) as [-> | H1]; [reflexivity|].
  destruct (Z.eqb_spec ty 2) as [-> | H2]; [reflexivity|].
  rewrite Hty. reflexivity.
Qed.

(** X12.  A call makes at most one library call, the signer's, and hands it
    the private key it was given; the transaction object it hands over is
    fixed by the parameters and is the same for every key (and for none),
    and without that call the state is left as it was. *)
Theorem signTransaction_single_signer_call (d : TxInput) :
  exists otx : option TxData,
    forall pk st,
      match otx with
      | Some tx =>
          if key_check pk
          then calls (snd (signTransaction {| privateKey := pk; data := d |}
                             st)) =
               calls st ++ [CallSignTransaction pk tx]
          else snd (signTransaction {| privateKey := pk; data := d |} st) = st
      | None =>
          snd (signTransaction {| privateKey := pk; data := d |} st) = st
      end.
Proof.
  destruct (signTransaction_cases d) as [Hrej | [tx [_ Hrun]]].
  - exists None. intros pk st. rewrite Hrej. reflexivity.
  - exists (Some tx). intros pk st. rewrite Hrun.
    destruct (key_check pk); [apply run_signer_calls | reflexivity].
Qed.

End SignTransactionMore.

(* ------------------------------------------------------------------ *)
(** ** Phase 1 of a split signing, and EthWallet.calcTxHash *)
(* ------------------------------------------------------------------ *)

Section PhaseOneMore.
Context {L : Libraries}.
Import EthWallet.

(** X13.  The two phase-1 operations settle with [signTransaction]: they
    leave the state [signTransaction] leaves; when it rejects they reject,
    each with its own error and never with [SignTxError]; when it resolves
    they resolve with the [raw]/[hash] (resp. [serializeRaw]) of its result,
    which are [undefined] when the result is a signed transaction, as it is
    when a private key was passed along. *)
Theorem phase1_follows_signTransaction (p : SignTxParams TxInput)
  (st : State) :
  match signTransaction p st with
  | (Resolved o, st') =>
      getMPCRawTransaction p st =
        (Resolved {| mpc_raw := out_raw o; mpc_hash := out_hash o |}, st') /\
      getHardWareRawTransaction p st = (Resolved (out_serializeRaw o), st') /\
      (forall signedTx, o = SignedHex signedTx ->
         getMPCRawTransaction p st =
           (Resolved {| mpc_raw := None; mpc_hash := None |}, st') /\
         getHardWareRawTransaction p st = (Resolved None, st'))
  | (Rejected _, st') =>
      getMPCRawTransaction p st =
        (Rejected (Typed GetMpcRawTransactionError), st') /\
      getHardWareRawTransaction p st =
        (Rejected (Typed GetHardwareRawTransactionError), st')
  end.
Proof.
  unfold getMPCRawTransaction, getHardWareRawTransaction, async, try_catch,
    bind, await, ret.
  destruct (signTransaction p st) as [[o|e] st']; [|split; reflexivity].
  split; [reflexivity|]. split; [reflexivity|].
  intros signedTx ->. split; reflexivity.
Qed.

(** X14.  [EthWallet.calcTxHash] never touches the state; the text it
    resolves with decodes back to the hash bytes of the decoded
    transaction; and when it rejects, the rejection is the very error one
    of its three library calls threw (nothing is mapped to
    [CalcTxHashError]). *)
Theorem eth_calcTxHash_outcomes (d : string) (st : State) :
  snd (calcTxHash d st) = st /\
  (forall t, fst (calcTxHash d st) = Resolved t ->
     exists ser tx h,
       base_fromHex d = inr ser /\
       TransactionFactory_fromSerializedData ser = inr tx /\
       tx_hash tx = inr h /\
       hexToBytes t = Ok h) /\
  (forall e, fst (calcTxHash d st) = Rejected e ->
     base_fromHex d = inl e \/
     (exists ser, base_fromHex d = inr ser /\
        (TransactionFactory_fromSerializedData ser = inl e \/
         exists tx, TransactionFactory_fromSerializedData ser = inr tx /\
                    tx_hash tx = inl e))).
Proof.
  unfold calcTxHash, async.
  rewrite (bind_pure _ _ _ _ (pure_lift _)).
  destruct (base_fromHex d) as [e|ser].
  { cbn. split; [reflexivity|]. split; [discriminate|].
    intros e' [= <-]. auto. }
  rewrite (bind_pure _ _ _ _ (pure_lift _)).
  destruct (TransactionFactory_fromSerializedData ser) as [e|tx] eqn:Htx.
  { cbn. split; [reflexivity|]. split; [discriminate|].
    intros e' [= <-]. right. exists ser. auto. }
  rewrite (bind_pure _ _ _ _ (pure_lift _)).
  destruct (tx_hash tx) as [e|h] eqn:Hh.
  { cbn. split; [reflexivity|]. split; [discriminate|].
    intros e' [= <-]. right. exists ser. split; [reflexivity|].
    right. exists tx. auto. }
  cbn. split; [reflexivity|]. split; [|discriminate].
  intros t [= <-]. exists ser, tx, h.
  repeat (split; [reflexivity || assumption|]).
  apply hexToBytes_bytesToHex.
Qed.

End PhaseOneMore.

(* ------------------------------------------------------------------ *)
(** ** More on SuiWallet.signTransaction *)
(* ------------------------------------------------------------------ *)

Section SuiSignMore.
Context {L : Libraries}.
Import SuiWallet.

Lemma sui_keypair_pure (k : string) :
  pure_as (k' <- lift (tryDecodeSuiPrivateKey k) ;;
           seed <- lift (base_fromHex k') ;;
           lift (Ed25519Keypair_fromSeed seed)) (sui_keypair_of k).
Proof.
  intro st. unfold sui_keypair_of, bind, lift.
  destruct (tryDecodeSuiPrivateKey k) as [e|hex]; [reflexivity|].
  destruct (base_fromHex hex) as [e|seed]; reflexivity.
Qed.

Lemma sui_signTransaction_no_keypair (p : SignTxParams) (st : State) e :
  sui_keypair_of (privateKey p) = inl e ->
  signTransaction p st = (Rejected (Typed SignTxError), st).
Proof.
  intros H. unfold signTransaction, async, try_catch. cbv zeta.
  rewrite (bind_pure _ _ _ _ (sui_keypair_pure _)), H. reflexivity.
Qed.

(** X15.  A key that cannot be turned into a key pair, or a [type] that is
    neither ["raw"] nor ["paySUI"], is rejected with [SignTxError] before
    anything else happens: no block is created, nothing is built or signed,
    and the state is as before. *)
Theorem sui_signTransaction_early_rejection (p : SignTxParams) (st : State) :
  (exists e, sui_keypair_of (privateKey p) = inl e) \/
  (String.eqb (sd_type (data p)) "raw" = false /\
   String.eqb (sd_type (data p)) "paySUI" = false) ->
  signTransaction p st = (Rejected (Typed SignTxError), st).
Proof.
  intros H. unfold signTransaction, async, try_catch. cbv zeta.
  rewrite (bind_pure _ _ _ _ (sui_keypair_pure _)).
  destruct (sui_keypair_of (privateKey p)) as [e|kp]; [reflexivity|].
  destruct H as [[e He] | [H1 H2]]; [discriminate|].
  rewrite H1, H2. reflexivity.
Qed.

(** X16.  A paySUI call that goes through creates the block, builds it and
    signs what was built, in this order and nothing else; the block built
    pays gas from exactly the coins given, carries the parsed gas price and
    budget, the signer's address as sender and the two commands split
    [amount] / transfer to [recipient]; an [epoch] of 0 sets no expiration,
    as a missing one. *)
Theorem paySUI_builds_and_signs (p : SignTxParams) (st : State)
  (pay : PaySuiTransaction) (kp : SuiKeypair) (c : SuiObjectRef)
  (cs : list SuiObjectRef) (gp gb amt : Z) (sender : string)
  (transactionBlock : bytes) :
  sui_keypair_of (privateKey p) = inr kp ->
  sd_type (data p) = "paySUI" ->
  sd_data (data p) = PayloadPaySui pay ->
  inputCoins pay = Some (c :: cs) ->
  js_BigInt (gasPrice pay) = inr gp ->
  js_BigInt (gasBudget pay) = inr gb ->
  signer_getAddress kp = inr sender ->
  js_BigInt (amount pay) = inr amt ->
  tx_build (paySui_block pay (c :: cs) gp gb amt sender) =
    inr transactionBlock ->
  calls (snd (signTransaction p st)) =
    calls st ++
    [CallNewTransactionBlock;
     CallBuild (paySui_block pay (c :: cs) gp gb amt sender);
     CallSignTransactionBlock transactionBlock] /\
  fst (signTransaction p st) =
    match fst (signer_signTransactionBlock kp transactionBlock (world st)) with
    | inr signed => Resolved signed
    | inl e => Rejected e
    end.
Proof.
  intros Hkp Hty Hdata Hcoins Hgp Hgb Haddr Hamt Hbuild.
  assert (E :
    signTransaction p st =
    match signer_signTransactionBlock kp transactionBlock (world st) with
    | (inr signed, w') =>
        (Resolved signed,
         {| world := w';
            calls := calls st ++
              [CallNewTransactionBlock;
               CallBuild (paySui_block pay (c :: cs) gp gb amt sender);
               CallSignTransactionBlock transactionBlock] |})
    | (inl e, w') =>
        (Rejected e,
         {| world := w';
            calls := calls st ++
              [CallNewTransactionBlock;
               CallBuild (paySui_block pay (c :: cs) gp gb amt sender);
               CallSignTransactionBlock transactionBlock] |})
    end).
  { unfold signTransaction, async, try_catch. cbv zeta.
    rewrite (bind_pure _ _ _ _ (sui_keypair_pure _)), Hkp.
    rewrite Hty. cbn [String.eqb Ascii.eqb Bool.eqb andb].
    unfold bind at 1, call_pure at 1. cbn [Ok world calls].
    rewrite Hdata. unfold inputCoins_missing. rewrite Hcoins.
    cbn [List.length Nat.eqb].
    rewrite (bind_pure _ _ _ _ (pure_lift _)), Hgp.
    rewrite (bind_pure _ _ _ _ (pure_lift _)), Hgb.
    unfold promise_chain.
    rewrite (bind_pure _ _ _ _ (pure_lift _)), Haddr.
    rewrite (bind_pure _ _ _ _ (pure_lift _)), Hamt.
    cbn [tb_gasPrice tb_gasBudget tb_expiration tb_gasPayment tb_sender
         tb_commands new_TransactionBlock app].
    assert (Hblock :
      {| tb_gasPrice := Some gp;
         tb_gasBudget := Some gb;
         tb_expiration := if epoch_truthy (epoch pay) then epoch pay else None;
         tb_gasPayment := c :: cs;
         tb_sender := Some sender;
         tb_commands := [SplitCoins amt; TransferObjects (recipient pay)] |} =
      paySui_block pay (c :: cs) gp gb amt sender).
    { unfold paySui_block, epoch_truthy.
      destruct (epoch pay) as [e|]; [|reflexivity].
      destruct (e =? 0)%Z; reflexivity. }
    rewrite Hblock.
    unfold bind at 1, call_pure at 1. rewrite Hbuild. cbn [world calls].
    unfold call. cbn [world calls].
    destruct (signer_signTransactionBlock kp transactionBlock (world st))
      as [[e|signed] w']; cbn; rewrite <- !app_assoc; reflexivity. }
  rewrite E.
  destruct (signer_signTransactionBlock kp transactionBlock (world st))
    as [[e|signed] w']; split; reflexivity.
Qed.

(** X17.  The failures of a paySUI call fall on two sides of its [try]: a
    gas price or gas budget that [BigInt] refuses is rejected with
    [SignTxError]; an [amount] that [BigInt] refuses, and a block that fails
    to build, are rejected with the library's own error, as it is.  In none
    of these cases is anything signed. *)
Theorem paySUI_failure_sides (p : SignTxParams) (st : State)
  (pay : PaySuiTransaction) (kp : SuiKeypair) (c : SuiObjectRef)
  (cs : list SuiObjectRef) :
  sui_keypair_of (privateKey p) = inr kp ->
  sd_type (data p) = "paySUI" ->
  sd_data (data p) = PayloadPaySui pay ->
  inputCoins pay = Some (c :: cs) ->
  (forall e,
     js_BigInt (gasPrice pay) = inl e \/
     (exists gp, js_BigInt (gasPrice pay) = inr gp) /\
     js_BigInt (gasBudget pay) = inl e ->
     signTransaction p st =
       (Rejected (Typed SignTxError),
        {| world := world st;
           calls := calls st ++ [CallNewTransactionBlock] |})) /\
  (forall gp gb sender e,
     js_BigInt (gasPrice pay) = inr gp ->
     js_BigInt (gasBudget pay) = inr gb ->
     signer_getAddress kp = inr sender ->
     js_BigInt (amount pay) = inl e ->
     signTransaction p st =
       (Rejected e,
        {| world := world st;
           calls := calls st ++ [CallNewTransactionBlock] |})) /\
  (forall gp gb sender amt e,
     js_BigInt (gasPrice pay) = inr gp ->
     js_BigInt (gasBudget pay) = inr gb ->
     signer_getAddress kp = inr sender ->
     js_BigInt (amount pay) = inr amt ->
     tx_build (paySui_block pay (c :: cs) gp gb amt sender) = inl e ->
     signTransaction p st =
       (Rejected e,
        {| world := world st;
           calls := calls st ++
                    [CallNewTransactionBlock;
                     CallBuild (paySui_block pay (c :: cs) gp gb amt sender)]
        |})).
Proof.
  intros Hkp Hty Hdata Hcoins.
  repeat split.
  - intros e He.
    unfold signTransaction, async, try_catch. cbv zeta.
    rewrite (bind_pure _ _ _ _ (sui_keypair_pure _)), Hkp.
    rewrite Hty. cbn [String.eqb Ascii.eqb Bool.eqb andb].
    unfold bind at 1, call_pure at 1. cbn [Ok world calls].
    rewrite Hdata. unfold inputCoins_missing. rewrite Hcoins.
    cbn [List.length Nat.eqb].
    rewrite (bind_pure _ _ _ _ (pure_lift _)).
    destruct He as [He | [[gp Hgp] He]].
    + rewrite He. reflexivity.
    + rewrite Hgp. rewrite (bind_pure _ _ _ _ (pure_lift _)), He.
      reflexivity.
  - intros gp gb sender e Hgp Hgb Haddr Hamt.
    unfold signTransaction, async, try_catch. cbv zeta.
    rewrite (bind_pure _ _ _ _ (sui_keypair_pure _)), Hkp.
    rewrite Hty. cbn [String.eqb Ascii.eqb Bool.eqb andb].
    unfold bind at 1, call_pure at 1. cbn [Ok world calls].
    rewrite Hdata. unfold inputCoins_missing. rewrite Hcoins.
    cbn [List.length Nat.eqb].
    rewrite (bind_pure _ _ _ _ (pure_lift _)), Hgp.
    rewrite (bind_pure _ _ _ _ (pure_lift _)), Hgb.
    unfold promise_chain.
    rewrite (bind_pure _ _ _ _ (pure_lift _)), Haddr.
    rewrite (bind_pure _ _ _ _ (pure_lift _)), Hamt. reflexivity.
  - intros gp gb sender amt e Hgp Hgb Haddr Hamt Hbuild.
    unfold signTransaction, async, try_catch. cbv zeta.
    rewrite (bind_pure _ _ _ _ (sui_keypair_pure _)), Hkp.
    rewrite Hty. cbn [String.eqb Ascii.eqb Bool.eqb andb].
    unfold bind at 1, call_pure at 1. cbn [Ok world calls].
    rewrite Hdata. unfold inputCoins_missing. rewrite Hcoins.
    cbn [List.length Nat.eqb].
    rewrite (bind_pure _ _ _ _ (pure_lift _)), Hgp.
    rewrite (bind_pure _ _ _ _ (pure_lift _)), Hgb.
    unfold promise_chain.
    rewrite (bind_pure _ _ _ _ (pure_lift _)), Haddr.
    rewrite (bind_pure _ _ _ _ (pure_lift _)), Hamt.
    cbn [tb_gasPrice tb_gasBudget tb_expiration tb_gasPayment tb_sender
         tb_commands new_TransactionBlock app].
    assert (Hblock :
      {| tb_gasPrice := Some gp;
         tb_gasBudget := Some gb;
         tb_expiration := if epoch_truthy (epoch pay) then epoch pay else None;
         tb_gasPayment := c :: cs;
         tb_sender := Some sender;
         tb_commands := [SplitCoins amt; TransferObjects (recipient pay)] |} =
      paySui_block pay (c :: cs) gp gb amt sender).
    { unfold paySui_block, epoch_truthy.
      destruct (epoch pay) as [e0|]; [|reflexivity].
      destruct (e0 =? 0)%Z; reflexivity. }
    rewrite Hblock.
    unfold bind at 1, call_pure at 1. rewrite Hbuild. cbn [world calls].
    rewrite <- app_assoc. reflexivity.
Qed.

End SuiSignMore.

(* ------------------------------------------------------------------ *)
(** ** Keys, addresses and messages *)
(* ------------------------------------------------------------------ *)

Section SuiKeysMore.
Context {L : Libraries} {ML : MoreLibraries L}.

(** X18.  [SuiWallet.validPrivateKey] never rejects and reports a key valid
    exactly when [tryDecodeSuiPrivateKey] returns; a key it reports invalid
    is turned down by every operation with that operation's typed error and
    the state untouched: [getNewAddress] with [NewAddressError],
    [signTransaction] and [signMessage] with [SignTxError].  [signMessage]
    looks at its data first: data that is not a byte array is rejected with
    [SignMsgError] whatever the key. *)
Theorem sui_invalid_key_everywhere (pk : string) (st : State) :
  (exists v,
     SuiWalletRest.validPrivateKey pk st = (Resolved v, st) /\
     vp_privateKey v = pk /\
     (vp_isValid v = true <-> exists k, tryDecodeSuiPrivateKey pk = inr k)) /\
  (forall v,
     SuiWalletRest.validPrivateKey pk st = (Resolved v, st) ->
     vp_isValid v = false ->
     SuiWalletRest.getNewAddress pk st =
       (Rejected (Typed NewAddressError), st) /\
     (forall d,
        SuiWallet.signTransaction
          {| SuiWallet.privateKey := pk; SuiWallet.data := d |} st =
        (Rejected (Typed SignTxError), st)) /\
     (forall m,
        SuiWalletRest.signMessage
          {| sm_privateKey := pk; sm_data := MsgBytes m |} st =
        (Rejected (Typed SignTxError), st))) /\
  SuiWalletRest.signMessage {| sm_privateKey := pk; sm_data := MsgOther |} st =
    (Rejected (Typed SignMsgError), st).
Proof.
  assert (Hvalid :
    SuiWalletRest.validPrivateKey pk st =
    (Resolved {| vp_isValid :=
                   match tryDecodeSuiPrivateKey pk with
                   | inr _ => true
                   | inl _ => false
                   end;
                 vp_privateKey := pk |}, st)).
  { unfold SuiWalletRest.validPrivateKey, async, try_catch, bind, lift, ret.
    destruct (tryDecodeSuiPrivateKey pk); reflexivity. }
  split; [|split; [|reflexivity]].
  - eexists. split; [exact Hvalid|]. split; [reflexivity|]. cbn.
    destruct (tryDecodeSuiPrivateKey pk) as [e|k]; split.
    + discriminate.
    + intros [k H]. discriminate H.
    + eauto.
    + reflexivity.
  - intros v Hv Hfalse. rewrite Hvalid in Hv. injection Hv as <-.
    cbn in Hfalse.
    destruct (tryDecodeSuiPrivateKey pk) as [e|k] eqn:Hdec; [|discriminate].
    split; [|split].
    + unfold SuiWalletRest.getNewAddress, async, try_catch, bind, lift, ret.
      rewrite Hdec. reflexivity.
    + intro d. apply (sui_signTransaction_no_keypair _ st e).
      unfold sui_keypair_of. cbn [SuiWallet.privateKey]. rewrite Hdec.
      reflexivity.
    + intro m. unfold SuiWalletRest.signMessage, async, try_catch.
      cbn [sm_data sm_privateKey].
      rewrite (bind_pure _ _ _ _ (sui_keypair_pure _)).
      unfold sui_keypair_of. rewrite Hdec. reflexivity.
Qed.

End SuiKeysMore.

Section EthKeysMore.
Context {L : Libraries} {ML : MoreLibraries L}.
Import EthWallet.

(** X19.  [EthWallet.getNewAddress] leaves the state alone and has three
    outcomes: the raw [Error("invalid key")] exactly when
    [eth.validPrivateKey], the check behind [validPrivateKey], says false;
    otherwise either the address derived from the lower-cased key, which
    then decodes to 32 bytes, or [NewAddressError], which stands for every
    failure inside the [try]. *)
Theorem eth_getNewAddress_outcomes (pri : string) (st : State) :
  snd (EthWalletRest.getNewAddress pri st) = st /\
  (forall v,
     EthWalletRest.validPrivateKey pri st = (Resolved v, st) ->
     (vp_isValid v = false <->
      fst (EthWalletRest.getNewAddress pri st) =
        Rejected (RawError "invalid key")) /\
     (vp_isValid v = true ->
      boundary_ok NewAddressError (fst (EthWalletRest.getNewAddress pri st)) /\
      forall a,
        fst (EthWalletRest.getNewAddress pri st) = Resolved a ->
        exists key,
          base_fromHex (toLowerCase pri) = inr key /\
          List.length key = 32%nat /\
          eth_getNewAddress (toLowerCase pri) = inr a)).
Proof.
  assert (E :
    EthWalletRest.getNewAddress pri st =
    (match eth_validPrivateKey pri with
     | inl e => Rejected e
     | inr false => Rejected (RawError "invalid key")
     | inr true =>
         match base_fromHex (toLowerCase pri) with
         | inr key =>
             if (List.length key =? 32)%nat then
               match eth_getNewAddress (toLowerCase pri) with
               | inr a => Resolved a
               | inl _ => Rejected (Typed NewAddressError)
               end
             else Rejected (Typed NewAddressError)
         | inl _ => Rejected (Typed NewAddressError)
         end
     end, st)).
  { unfold EthWalletRest.getNewAddress, async. cbv zeta.
    rewrite (bind_pure _ _ _ _ (pure_lift _)).
    destruct (eth_validPrivateKey pri) as [e|[|]]; try reflexivity.
    cbn [negb]. unfold try_catch, bind, lift, ret, assertBufferLength.
    destruct (base_fromHex (toLowerCase pri)) as [e|key]; [reflexivity|].
    destruct (List.length key =? 32)%nat; [|reflexivity].
    destruct (eth_getNewAddress (toLowerCase pri)); reflexivity. }
  assert (V :
    EthWalletRest.validPrivateKey pri st =
    (match eth_validPrivateKey pri with
     | inl e => Rejected e
     | inr ok => Resolved {| vp_isValid := ok; vp_privateKey := pri |}
     end, st)).
  { unfold EthWalletRest.validPrivateKey, async, bind, lift, ret.
    destruct (eth_validPrivateKey pri); reflexivity. }
  rewrite E, V. cbn [fst snd]. split; [reflexivity|].
  intros v Hv.
  destruct (eth_validPrivateKey pri) as [e|ok]; [discriminate|].
  injection Hv as <-. cbn [vp_isValid].
  destruct ok.
  - split.
    + split; [discriminate|].
      destruct (base_fromHex (toLowerCase pri)) as [e|key];
        [discriminate|].
      destruct (List.length key =? 32)%nat; [|discriminate].
      destruct (eth_getNewAddress (toLowerCase pri)); discriminate.
    + intros _.
      destruct (base_fromHex (toLowerCase pri)) as [e|key];
        [split; [reflexivity|discriminate]|].
      destruct (List.length key =? 32)%nat eqn:Hlen;
        [|split; [reflexivity|discriminate]].
      destruct (eth_getNewAddress (toLowerCase pri)) as [e|a];
        [split; [reflexivity|discriminate]|].
      split; [exact I|]. intros a' [= <-]. exists key.
      apply Nat.eqb_eq in Hlen. auto.
  - split; [split; reflexivity|discriminate].
Qed.

Lemma lower_char_idem c : lower_char (lower_char c) = lower_char c.
Proof. destruct c as [[] [] [] [] [] [] [] []]; reflexivity. Qed.

Lemma toLowerCase_idem t : toLowerCase (toLowerCase t) = toLowerCase t.
Proof.
  induction t as [|c t IH]; [reflexivity|].
  cbn. rewrite lower_char_idem, IH. reflexivity.
Qed.

Lemma toLowerCase_hex_body b :
  toLowerCase (string_of_list_ascii (hex_body b)) =
  string_of_list_ascii (hex_body b).
Proof.
  unfold hex_body. induction b as [|x b IH]; [reflexivity|].
  cbn [flat_map byte_hex app string_of_list_ascii toLowerCase].
  rewrite IH. destruct x; reflexivity.
Qed.

Lemma toLowerCase_bytesToHex b : toLowerCase (bytesToHex b) = bytesToHex b.
Proof.
  unfold bytesToHex. cbn [toLowerCase].
  rewrite toLowerCase_hex_body. reflexivity.
Qed.

(** X20.  When the signer can be recovered, [verifyMessage] resolves true
    exactly when the given address, lower-cased, is the 0x-prefixed
    lower-case hex of the recovered address: the case of the given address
    does not matter, and without an address (or with an empty one) the
    verdict is false. *)
Theorem verifyMessage_verdict (param : VerifyMessageParams)
  (st st' : State) (recovered : string) :
  EthWalletRest.ecRecover (vm_data param) (vm_signature param) st =
    (Resolved recovered, st') ->
  let given := match vm_address param with Some a => a | None => "" end in
  EthWalletRest.verifyMessage param st =
    (Resolved (String.eqb (toLowerCase given) recovered), st') /\
  EthWalletRest.verifyMessage
    {| vm_data := vm_data param;
       vm_signature := vm_signature param;
       vm_address := Some (toLowerCase given) |} st =
    EthWalletRest.verifyMessage param st /\
  (truthy_str (vm_address param) = false ->
   EthWalletRest.verifyMessage param st = (Resolved false, st')).
Proof.
  intros Hrec given.
  assert (Hlow : toLowerCase recovered = recovered /\
                 exists rest, recovered = String "0" (String "x" rest)).
  { revert Hrec. unfold EthWalletRest.ecRecover, async. cbv zeta.
    rewrite (bind_pure _ _ _ _ (pure_lift _)).
    destruct (base_fromHex (vm_signature param)); [discriminate|].
    rewrite (bind_pure _ _ _ _ (pure_lift _)).
    destruct (eth_verifyMessage _ _ _); [discriminate|].
    rewrite (bind_pure _ _ _ _ (pure_lift _)).
    destruct (eth_publicToAddress _) as [e|addr]; [discriminate|].
    cbn. intros [= <- _].
    split; [apply toLowerCase_bytesToHex|]. eexists. reflexivity. }
  destruct Hlow as [Hlow [rest Hrest]].
  assert (Hrun : forall a,
    EthWalletRest.verifyMessage
      {| vm_data := vm_data param;
         vm_signature := vm_signature param;
         vm_address := a |} st =
    (Resolved (String.eqb
                 (toLowerCase (match a with Some t => t | None => "" end))
                 recovered), st')).
  { intro a. unfold EthWalletRest.verifyMessage, async, bind, await, ret.
    cbn [vm_data vm_signature vm_address]. rewrite Hrec.
    unfold Ok. cbv beta iota zeta. rewrite Hlow.
    destruct a as [[|c t]|]; reflexivity. }
  assert (Hparam : EthWalletRest.verifyMessage param st =
                   (Resolved (String.eqb (toLowerCase given) recovered), st')).
  { destruct param as [d sg a]. exact (Hrun a). }
  split; [exact Hparam|]. split.
  - rewrite Hrun, Hparam. cbn. rewrite toLowerCase_idem. reflexivity.
  - intros Hfalsy. rewrite Hparam. subst given recovered.
    destruct (vm_address param) as [[|c t]|]; try discriminate; reflexivity.
Qed.

(** X21.  [EthWallet.signMessage] checks a key that is given before it
    signs: with a key that does not decode to exactly 32 bytes it rejects
    with the state untouched, and [getMPCRawMessage] turns that rejection
    into [GetMpcRawTransactionError]; with a key of 32 bytes the signer gets
    the decoded key, and with no key it gets none. *)
Theorem signMessage_checks_key (p : SignTxParams TypedMessage) (st : State) :
  (forall k,
     privateKey p = Some k -> str_nonempty k = true ->
     match base_fromHex k with
     | inr buf => List.length buf <> 32%nat
     | inl _ => True
     end ->
     (exists e, EthWalletRest.signMessage p st = (Rejected e, st)) /\
     EthWalletRest.getMPCRawMessage p st =
       (Rejected (Typed GetMpcRawTransactionError), st)) /\
  (forall key,
     match privateKey p with
     | Some k =>
         if str_nonempty k
         then base_fromHex k = inr key /\ List.length key = 32%nat
         else False
     | None => False
     end ->
     EthWalletRest.signMessage p st =
       match eth_signMessage (tm_type (data p)) (tm_message (data p))
               (Some key) (world st) with
       | (inr res, w') => (Resolved res, {| world := w'; calls := calls st |})
       | (inl e, w') => (Rejected e, {| world := w'; calls := calls st |})
       end) /\
  (truthy_str (privateKey p) = false ->
   EthWalletRest.signMessage p st =
     match eth_signMessage (tm_type (data p)) (tm_message (data p))
             None (world st) with
     | (inr res, w') => (Resolved res, {| world := w'; calls := calls st |})
     | (inl e, w') => (Rejected e, {| world := w'; calls := calls st |})
     end).
Proof.
  split; [|split].
  - intros k Hk Hne Hbad.
    assert (E : exists e, EthWalletRest.signMessage p st = (Rejected e, st)).
    { unfold EthWalletRest.signMessage, async. rewrite Hk. cbn [truthy_str].
      rewrite Hne.
      rewrite !bind_assoc, (bind_pure _ _ _ _ (pure_lift _)).
      destruct (base_fromHex k) as [e|buf]; [eexists; reflexivity|].
      rewrite (bind_pure _ _ _ _ (pure_lift _)).
      unfold assertBufferLength.
      apply Nat.eqb_neq in Hbad. rewrite Hbad. eexists; reflexivity. }
    split; [exact E|]. destruct E as [e E].
    unfold EthWalletRest.getMPCRawMessage, async, try_catch, bind, await, ret.
    rewrite E. reflexivity.
  - intros key Hkey.
    destruct (privateKey p) as [k|] eqn:Hk; [|contradiction].
    destruct (str_nonempty k) eqn:Hne; [|contradiction].
    destruct Hkey as [Hkey Hlen].
    unfold EthWalletRest.signMessage, async. rewrite Hk. cbn [truthy_str].
    rewrite Hne.
    rewrite !bind_assoc, (bind_pure _ _ _ _ (pure_lift _)), Hkey.
    rewrite (bind_pure _ _ _ _ (pure_lift _)).
    unfold assertBufferLength. rewrite Hlen. cbn [Nat.eqb].
    unfold Ok. cbv beta iota.
    rewrite bind_assoc, (bind_pure _ _ _ _ (pure_lift _)).
    rewrite bind_ret. cbv zeta.
    unfold bind, call_world, ret.
    destruct (eth_signMessage _ _ _ _) as [[e|res] w']; reflexivity.
  - intros Hfalsy.
    unfold EthWalletRest.signMessage, async. rewrite Hfalsy.
    rewrite bind_ret. cbv zeta. unfold bind, call_world, ret.
    destruct (eth_signMessage _ _ _ _) as [[e|res] w']; reflexivity.
Qed.

End EthKeysMore.

(* ------------------------------------------------------------------ *)
(** ** Derivation paths *)
(* ------------------------------------------------------------------ *)

Section DerivedPaths.
Context {L : Libraries}.

Lemma decimal_injective (i j : N) : decimal i = decimal j -> i = j.
Proof.
  unfold decimal. intro H.
  apply (f_equal DecimalString.NilEmpty.uint_of_string) in H.
  rewrite !DecimalString.NilEmpty.usu in H. injection H as H.
  apply (f_equal N.of_uint) in H.
  rewrite !DecimalN.Unsigned.of_to in H. exact H.
Qed.

Lemma list_ascii_of_string_append (a b : string) :
  list_ascii_of_string (a ++ b)%string =
  list_ascii_of_string a ++ list_ascii_of_string b.
Proof. induction a as [|c a IH]; [reflexivity|]. cbn. rewrite IH. reflexivity. Qed.

Lemma append_cancel_r (a b t : string) :
  (a ++ t)%string = (b ++ t)%string -> a = b.
Proof.
  intro H. apply (f_equal list_ascii_of_string) in H.
  rewrite !list_ascii_of_string_append in H. apply app_inv_tail in H.
  apply (f_equal string_of_list_ascii) in H.
  rewrite !string_of_list_ascii_of_string in H. exact H.
Qed.

(** X22.  For account indices that are non-negative integers, the derived
    path determines the index, on either wallet, and no Ethereum path is a
    Sui path. *)
Theorem derived_paths_injective :
  (forall i j st,
     EthWalletRest.getDerivedPath i st = EthWalletRest.getDerivedPath j st ->
     i = j) /\
  (forall i j st,
     SuiWalletRest.getDerivedPath i st = SuiWalletRest.getDerivedPath j st ->
     i = j) /\
  (forall i j st st',
     fst (EthWalletRest.getDerivedPath i st) <>
     fst (SuiWalletRest.getDerivedPath j st')).
Proof.
  split; [|split].
  - intros i j st H. cbn in H. injection H as H.
    apply decimal_injective. exact H.
  - intros i j st H. cbn in H. injection H as H.
    apply append_cancel_r in H. apply decimal_injective. exact H.
  - intros i j st st' H. cbn in H. discriminate H.
Qed.

End DerivedPaths.

(* ------------------------------------------------------------------ *)
(** ** The further statements on concrete runs *)
(* ------------------------------------------------------------------ *)

Section MoreConcreteRuns.
Import Fixture FixtureRest.

Lemma toRpcHex_value_witness :
  hex_value (EthWallet.toRpcHex "0x0010") = Some 16%N.
Proof. apply toRpcHex_value. reflexivity. Defined.

(** Chain id [0x01] against [0x0001], no nonce against nonce [0x00]. *)
Lemma authorization_modulo_leading_zeros_witness :
  @EthWallet.signAuthorizationListItem lib
    {| EthWallet.privateKey := Some key32;
       EthWallet.data :=
         {| EthWallet.ad_chainId := "0x01"; EthWallet.ad_nonce := None;
            EthWallet.ad_address := "0x0000000000000000000000000000000000000001";
            EthWallet.ad_other := [] |} |} st0 =
  @EthWallet.signAuthorizationListItem lib
    {| EthWallet.privateKey := Some key32;
       EthWallet.data :=
         {| EthWallet.ad_chainId := "0x0001"; EthWallet.ad_nonce := Some "0x00";
            EthWallet.ad_address := "0x0000000000000000000000000000000000000001";
            EthWallet.ad_other := [("type", "4")] |} |} st0.
Proof.
  apply (@authorization_modulo_leading_zeros lib (Some key32) _ "0x01" "0x0001"
           None (Some "0x00") [] [("type", "4")] [x01] [x00; x01] [] [x00]);
    reflexivity.
Defined.

Lemma authorization_item_canonical_witness :
  exists auth st',
    @EthWallet.signAuthorizationListItem lib
      (authParam (Some key32) (Some "0x0")) st0 = (Resolved auth, st') /\
    (yParity auth = "0x" \/ yParity auth = "0x1") /\
    exists b, hexToBytes (nonce auth) = Ok b /\ forall t, b <> x00 :: t.
Proof.
  assert (Hrun : exists auth st',
            @EthWallet.signAuthorizationListItem lib
              (authParam (Some key32) (Some "0x0")) st0 = (Resolved auth, st'))
    by (eexists; eexists; reflexivity).
  destruct Hrun as (auth & st' & Hrun).
  destruct (@authorization_item_canonical lib _ _ _ _ Hrun) as (Hf & Hy & _).
  exists auth, st'. split; [exact Hrun|]. split; [exact Hy|].
  apply Hf. right. left. reflexivity.
Defined.

Lemma signTransaction_rejects_bad_key_witness :
  @EthWallet.signTransaction lib (signParam (Some "0x01") 0 None false) st0 =
  (Rejected (Typed SignTxError), st0).
Proof.
  apply (@signTransaction_rejects_bad_key lib _ st0 "0x01");
    [reflexivity | reflexivity | ].
  cbn. discriminate.
Defined.

Lemma plain_transfer_fields_witness :
  exists tx,
    calls (snd (@EthWallet.signTransaction lib
                  (signParam None 2 None true) st0)) =
      [CallSignTransaction None tx] /\
    tx_to tx = Some "0x00000000000000000000000000000000000000aa" /\
    tx_value tx = "0x10".
Proof.
  destruct (@plain_transfer_fields lib (signParam None 2 None true) st0
              (@txParams lib 2 None true) 2)
    as (tx & Hcalls & Hto & Hval & _); try reflexivity.
  - right. right. left. reflexivity.
  - exists tx. auto.
Defined.

Lemma useValue_only_for_legacy_token_transfer_witness :
  @EthWallet.signTransaction lib
    {| EthWallet.privateKey := None;
       EthWallet.data :=
         set_useValue (@txInput lib 2 (Some token) false) (JBool true) |} st0 =
  @EthWallet.signTransaction lib
    {| EthWallet.privateKey := None;
       EthWallet.data := @txInput lib 2 (Some token) false |} st0.
Proof.
  apply (@useValue_only_for_legacy_token_transfer lib).
  right. left. reflexivity.
Defined.

Lemma authorizationList_only_for_type_4_witness :
  @EthWallet.signTransaction lib
    {| EthWallet.privateKey := None;
       EthWallet.data :=
         set_authorizationList (@txInput lib 2 None false) (Some []) |} st0 =
  @EthWallet.signTransaction lib
    {| EthWallet.privateKey := None;
       EthWallet.data := @txInput lib 2 None false |} st0.
Proof.
  apply (@authorizationList_only_for_type_4 lib). reflexivity.
Defined.

(** Phase 1 called with a private key: resolved, with nothing in it. *)
Lemma phase1_follows_signTransaction_witness :
  exists st',
    @EthWallet.getMPCRawTransaction lib (signParam (Some key32) 0 None false)
      st0 =
    (Resolved {| mpc_raw := None; mpc_hash := None |}, st').
Proof.
  pose proof (@phase1_follows_signTransaction lib
                (signParam (Some key32) 0 None false) st0) as H.
  destruct (@EthWallet.signTransaction lib
              (signParam (Some key32) 0 None false) st0)
    as [[o|e] st'] eqn:Hrun.
  - exists st'. destruct H as (_ & _ & H).
    assert (Ho : exists t, o = SignedHex t).
    { assert (E : exists t st1,
                @EthWallet.signTransaction lib
                  (signParam (Some key32) 0 None false) st0 =
                (Resolved (SignedHex t), st1))
        by (eexists; eexists; reflexivity).
      destruct E as (t & st1 & E). rewrite E in Hrun.
      injection Hrun as <- _. eauto. }
    destruct Ho as [t Ho]. exact (proj1 (H t Ho)).
  - exfalso.
    assert (E : exists o st1,
              @EthWallet.signTransaction lib
                (signParam (Some key32) 0 None false) st0 =
              (Resolved o, st1))
      by (eexists; eexists; reflexivity).
    destruct E as (o & st1 & E). rewrite E in Hrun. discriminate.
Defined.

Lemma eth_calcTxHash_outcomes_witness :
  exists h, hexToBytes "0x0102" = Ok h /\
            fst (@EthWallet.calcTxHash lib "0x0102" st0) = Resolved "0x0102".
Proof.
  destruct (proj1 (proj2 (@eth_calcTxHash_outcomes lib "0x0102" st0))
              "0x0102" eq_refl)
    as (ser & tx & h & _ & _ & _ & Hh).
  exists h. split; [exact Hh | reflexivity].
Defined.

Lemma sui_signTransaction_early_rejection_witness :
  @SuiWallet.signTransaction lib
    {| SuiWallet.privateKey := suiKey;
       SuiWallet.data := {| sd_type := "stake"; sd_data := PayloadString "" |}
    |} st0 =
  (Rejected (Typed SignTxError), st0).
Proof.
  apply (@sui_signTransaction_early_rejection lib). right.
  split; reflexivity.
Defined.

(** A payment with [epoch] 0: built without expiration, then signed. *)
Lemma paySUI_builds_and_signs_witness :
  exists block tb,
    calls (snd (@SuiWallet.signTransaction lib
                  (payParam (payWith "0x01" "0x64" (Some 0%Z))) st0)) =
      [CallNewTransactionBlock; CallBuild block; CallSignTransactionBlock tb]
    /\ tb_expiration block = None /\ tb_gasPayment block = [coin].
Proof.
  destruct (@paySUI_builds_and_signs lib
              (payParam (payWith "0x01" "0x64" (Some 0%Z))) st0
              (payWith "0x01" "0x64" (Some 0%Z)) key32_bytes coin []
              1%Z 10%Z 100%Z
              "0x0101010101010101010101010101010101010101010101010101010101010101"
              [x01; x02])
    as [Hcalls _]; try reflexivity.
  eexists. eexists. split; [exact Hcalls|]. split; reflexivity.
Defined.

(** A gas price [BigInt] refuses. *)
Lemma paySUI_failure_sides_witness :
  fst (@SuiWallet.signTransaction lib
         (payParam (payWith "zz" "0x64" None)) st0) =
    Rejected (Typed SignTxError) /\
  fst (@SuiWallet.signTransaction lib
         (payParam (payWith "0x01" "zz" None)) st0) =
    Rejected (RawError "Cannot convert to a BigInt").
Proof.
  split.
  - destruct (@paySUI_failure_sides lib
                (payParam (payWith "zz" "0x64" None)) st0
                (payWith "zz" "0x64" None) key32_bytes coin []
                eq_refl eq_refl eq_refl eq_refl)
      as (H & _ & _).
    rewrite (H (RawError "Cannot convert to a BigInt"));
      [reflexivity | left; reflexivity].
  - destruct (@paySUI_failure_sides lib
                (payParam (payWith "0x01" "zz" None)) st0
                (payWith "0x01" "zz" None) key32_bytes coin []
                eq_refl eq_refl eq_refl eq_refl)
      as (_ & H & _).
    rewrite (H 1%Z 10%Z
               "0x0101010101010101010101010101010101010101010101010101010101010101"
               (RawError "Cannot convert to a BigInt"));
      reflexivity.
Defined.

Lemma sui_invalid_key_everywhere_witness :
  @SuiWalletRest.getNewAddress lib more "0x01" st0 =
    (Rejected (Typed NewAddressError), st0) /\
  @SuiWalletRest.signMessage lib more
    {| sm_privateKey := "0x01"; sm_data := MsgBytes [x01] |} st0 =
    (Rejected (Typed SignTxError), st0).
Proof.
  destruct (@sui_invalid_key_everywhere lib more "0x01" st0)
    as (_ & H & _).
  destruct (H {| vp_isValid := false; vp_privateKey := "0x01" |})
    as (Hnew & _ & Hmsg); try reflexivity.
  split; [exact Hnew | exact (Hmsg [x01])].
Defined.

Lemma eth_getNewAddress_outcomes_witness :
  fst (@EthWalletRest.getNewAddress lib more "0x01" st0) =
    Rejected (RawError "invalid key") /\
  exists key,
    @base_fromHex lib (toLowerCase key32) = inr key /\
    List.length key = 32%nat.
Proof.
  split.
  - apply (proj1 (proj2 (@eth_getNewAddress_outcomes lib more "0x01" st0)
                    {| vp_isValid := false; vp_privateKey := "0x01" |}
                    eq_refl)).
    reflexivity.
  - destruct (proj2 (proj2 (@eth_getNewAddress_outcomes lib more key32 st0)
                       {| vp_isValid := true; vp_privateKey := key32 |}
                       eq_refl) eq_refl) as [_ H].
    destruct (H {| na_address := toLowerCase key32;
                   na_publicKey := toLowerCase key32 |} eq_refl)
      as (key & Hk & Hl & _).
    exists key. auto.
Defined.

(** The same signature checked against an upper-case spelling of the
    recovered address, and against no address. *)
Lemma verifyMessage_verdict_witness :
  @EthWalletRest.verifyMessage lib more
    (verifyParam (Some "0xAB000000000000000000000000000000000000CD")) st0 =
    (Resolved true, st0) /\
  @EthWalletRest.verifyMessage lib more (verifyParam None) st0 =
    (Resolved false, st0).
Proof.
  split.
  - destruct (@verifyMessage_verdict lib more
                (verifyParam (Some "0xAB000000000000000000000000000000000000CD"))
                st0 st0 "0xab000000000000000000000000000000000000cd" eq_refl)
      as (H & _). exact H.
  - destruct (@verifyMessage_verdict lib more (verifyParam None)
                st0 st0 "0xab000000000000000000000000000000000000cd" eq_refl)
      as (_ & _ & H). apply H. reflexivity.
Defined.

Lemma signMessage_checks_key_witness :
  @EthWalletRest.getMPCRawMessage lib more (msgParam (Some "0x01")) st0 =
    (Rejected (Typed GetMpcRawTransactionError), st0).
Proof.
  destruct (@signMessage_checks_key lib more (msgParam (Some "0x01")) st0)
    as (H & _).
  assert (Hbad : match @base_fromHex lib "0x01" with
                 | inr buf => List.length buf <> 32%nat
                 | inl _ => True
                 end) by (cbn; discriminate).
  exact (proj2 (H "0x01" eq_refl eq_refl Hbad)).
Defined.

Lemma derived_paths_injective_witness :
  fst (@EthWalletRest.getDerivedPath lib 7 st0) = Resolved "m/44'/60'/0'/0/7" /\
  fst (@SuiWalletRest.getDerivedPath lib 12 st0) =
    Resolved "m/44'/784'/0'/0'/12'" /\
  (7 = 7)%N.
Proof.
  split; [reflexivity|]. split; [reflexivity|].
  exact (proj1 (@derived_paths_injective lib) 7%N 7%N st0 eq_refl).
Defined.

End MoreConcreteRuns.
